(** * The MCP gateway: entry facade service and HTTP dispatch router

    A shallow embedding of
    - [entry-mcp.service.ts]  (class [EntryMCPService]),
    - [entry-mcp.server.ts]   (the tool-listing handler of [EntryMCPServer]),
    - [mcp-http-server.ts]    (class [MCPHttpServer]),
    and the properties of the gateway specification checked against them.

    JavaScript strings are byte strings here; promises are values of the
    error monad [M] (a rejected promise is a thrown [JsError]); every call of
    an injected dependency is recorded in a trace, so that "the call primitive
    is never invoked" is a statement about that trace. *)

From Stdlib Require Import String Ascii List ZArith Bool Lia.
From stdpp Require Import base option gmap strings list pretty.
Import ListNotations.
Local Open Scope string_scope.

(** ** JavaScript values *)

#[local] Set Warnings "-register-all".

(** The double quote character, for template strings that contain one. *)
Definition dquote : string := String (ascii_of_nat 34) EmptyString.

(** Values that travel through the gateway untyped: request bodies, tool
    arguments and input schemas.  [JUndefined] is JavaScript's [undefined]
    (a property that is present with no value).  An array is an object too:
    [props] are the named properties set on it besides its items (none for
    an array literal).  Whole numbers are all the numbers met here. *)
Inductive Json : Type :=
| JUndefined
| JNull
| JBool (b : bool)
| JNum (n : Z)
| JStr (s : string)
| JArr (items : list Json) (props : list (string * Json))
| JObj (fields : list (string * Json)).

(** [o[k]] on a plain object: the value of the first field named [k]. *)
Fixpoint obj_get (k : string) (fields : list (string * Json)) : option Json :=
  match fields with
  | [] => None
  | (k', v) :: rest => if String.eqb k k' then Some v else obj_get k rest
  end.

(** [o[k] = v]: overwrite in place when the key exists, append otherwise
    (JavaScript objects keep insertion order). *)
Fixpoint obj_set (k : string) (v : Json) (fields : list (string * Json))
  : list (string * Json) :=
  match fields with
  | [] => [(k, v)]
  | (k', v') :: rest =>
      if String.eqb k k' then (k, v) :: rest else (k', v') :: obj_set k v rest
  end.

(** A thrown value: an [Error] object, of which the code reads [message]
    and, in the router, the [status] that [resolveProjectFilter] sets. *)
Record JsError : Type := mkError {
  message : string;
  status : option nat;
}.

(** [s || d] on an optional string: the empty string is falsy too. *)
Definition str_or (s : option string) (d : string) : string :=
  match s with
  | Some (String c r) => String c r
  | _ => d
  end.

(** Truthiness of an optional string. *)
Definition str_truthy (s : option string) : bool :=
  match s with
  | Some (String _ _) => true
  | _ => false
  end.

(** [hay.includes(needle)] *)
Fixpoint contains (needle hay : string) : bool :=
  String.prefix needle hay
  || match hay with
     | EmptyString => false
     | String _ rest => contains needle rest
     end.

(** ** The entry facade service ([entry-mcp.service.ts]) *)

Module EntryService.

(** [status] of a server, as in the shared types. *)
Inductive ServerStatus : Type :=
| running | starting | stopping | stopped | error.

Definition status_eqb (a b : ServerStatus) : bool :=
  match a, b with
  | running, running | starting, starting | stopping, stopping
  | stopped, stopped | error, error => true
  | _, _ => false
  end.

(** The fields of [MCPServer] the service reads. *)
Record MCPServer : Type := {
  srv_id : string;
  srv_name : string;
  srv_description : option string;
  srv_status : ServerStatus;
  srv_disabled : option bool;
  srv_toolPermissions : option (gmap string bool);
}.

Record MCPToolInfo : Type := {
  tool_name : string;
  tool_description : option string;
  tool_inputSchema : option Json;
}.

Record MCPServerInfo : Type := {
  info_name : string;
  info_description : option string;
  info_status : ServerStatus;
  info_toolCount : nat;
  info_tools : option (list MCPToolInfo);
}.

Record ListMCPToolsParams : Type := {
  lp_mcpName : option string;
  lp_projectId : option string;
}.

Record ListMCPToolsResult : Type := {
  servers : list MCPServerInfo;
  lr_message : option string;
}.

Record CallMCPToolParams : Type := {
  cp_mcpName : string;
  cp_toolName : string;
  cp_arguments : Json;
}.

Record ToolResultContent : Type := {
  c_type : string;
  c_text : option string;
  c_data : option string;
  c_mimeType : option string;
}.

Record CallMCPToolResult : Type := {
  content : list ToolResultContent;
  isError : bool;
  errorCode : option string;
}.

(** What the backend's call primitive resolves to ([Promise<any>]): the
    service reads [content] and [isError], and of each content item either
    the item itself (a bare string) or its four fields. *)
Inductive RawItem : Type :=
| RawString (s : string)
| RawObject (type : option string) (text data mimeType : option string).

Record RawToolResult : Type := {
  raw_content : option (list RawItem);
  raw_isError : option bool;
}.

(** [EntryMCPServiceDeps]: the three injected entry points of the Backend
    Registry.  An asynchronous one either rejects ([inl]) or resolves. *)
Record EntryMCPServiceDeps : Type := {
  getServers : list MCPServer;
  getServerTools : string -> JsError + list MCPToolInfo;
  callTool : string -> string -> Json -> JsError + RawToolResult;
}.

(** *** Calls of the dependencies, and the monad that records them *)

Inductive DepCall : Type :=
| CallGetServers
| CallGetServerTools (serverId : string)
| CallCallTool (serverName toolName : string) (args : Json).

Definition is_callTool (c : DepCall) : bool :=
  match c with
  | CallCallTool _ _ _ => true
  | _ => false
  end.

Definition M (A : Type) : Type := list DepCall -> (JsError + A) * list DepCall.

Definition ret {A} (a : A) : M A := fun t => (inr a, t).

Definition bind {A B} (m : M A) (k : A -> M B) : M B :=
  fun t =>
    match m t with
    | (inl e, t') => (inl e, t')
    | (inr a, t') => k a t'
    end.

(** [try { body } catch (e) { handler e }] *)
Definition try_catch {A} (body : M A) (handler : JsError -> M A) : M A :=
  fun t =>
    match body t with
    | (inl e, t') => handler e t'
    | (inr a, t') => (inr a, t')
    end.

Definition invoke {A} (c : DepCall) (outcome : JsError + A) : M A :=
  fun t => (outcome, (t ++ [c])%list).

#[export] Instance M_ret : MRet M := @ret.
#[export] Instance M_bind : MBind M := fun A B k m => bind m k.

Section Service.

Variable deps : EntryMCPServiceDeps.

Definition deps_getServers : M (list MCPServer) :=
  invoke CallGetServers (inr (getServers deps)).

Definition deps_getServerTools (serverId : string) : M (list MCPToolInfo) :=
  invoke (CallGetServerTools serverId) (getServerTools deps serverId).

Definition deps_callTool (serverName toolName : string) (args : Json)
  : M RawToolResult :=
  invoke (CallCallTool serverName toolName args)
         (callTool deps serverName toolName args).

(** [!!server.disabled] *)
Definition is_disabled (s : MCPServer) : bool :=
  match srv_disabled s with
  | Some true => true
  | _ => false
  end.

(** [server.toolPermissions && server.toolPermissions[toolName] === false] *)
Definition permission_denied (s : MCPServer) (toolName : string) : bool :=
  match srv_toolPermissions s with
  | Some perms =>
      match perms !! toolName with
      | Some false => true
      | _ => false
      end
  | None => false
  end.

(** *** [listMCPTools] *)

Definition listMCPTools (params : ListMCPToolsParams) : M ListMCPToolsResult :=
  if negb (str_truthy (lp_mcpName params)) then
    mret {| servers := []; lr_message := Some "请查看mcp-router技能" |}
  else
    let mcpName := str_or (lp_mcpName params) EmptyString in
    servers ← deps_getServers;
    match
      find (fun s => String.eqb (srv_name s) mcpName
                     && status_eqb (srv_status s) running
                     && negb (is_disabled s)) servers
    with
    | None =>
        mret {| servers := [];
               lr_message := Some ("MCP服务器 " ++ dquote ++ mcpName ++ dquote
                                   ++ " 未找到或未运行") |}
    | Some server =>
        try_catch
          (tools ← deps_getServerTools (srv_id server);
           mret {| servers :=
                    [ {| info_name := srv_name server;
                         info_description := srv_description server;
                         info_status := srv_status server;
                         info_toolCount := length tools;
                         info_tools := Some tools |} ];
                  lr_message := None |})
          (fun _ =>
             mret {| servers := [];
                    lr_message := Some ("获取 " ++ dquote ++ mcpName ++ dquote
                                        ++ " 的工具列表失败") |})
    end.

(** *** [validateCallParams] *)

Record Validation : Type := {
  valid : bool;
  v_error : option string;
  v_errorCode : option string;
  v_serverId : option string;
}.

Definition invalid (msg code : string) : Validation :=
  {| valid := false; v_error := Some msg; v_errorCode := Some code;
     v_serverId := None |}.

Definition validateCallParams (params : CallMCPToolParams) : M Validation :=
  servers ← deps_getServers;
  match find (fun s => String.eqb (srv_name s) (cp_mcpName params)) servers with
  | None =>
      mret (invalid ("MCP server not found: " ++ cp_mcpName params)
                   "SERVER_NOT_FOUND")
  | Some server =>
      if negb (status_eqb (srv_status server) running) then
        mret (invalid ("MCP server is not running: " ++ cp_mcpName params)
                     "SERVER_NOT_RUNNING")
      else if is_disabled server then
        mret (invalid ("MCP server is disabled: " ++ cp_mcpName params)
                     "SERVER_DISABLED")
      else
        try_catch
          (tools ← deps_getServerTools (srv_id server);
           match
             find (fun t => String.eqb (tool_name t) (cp_toolName params)) tools
           with
           | None =>
               mret (invalid ("Tool not found: " ++ cp_toolName params
                             ++ " on server " ++ cp_mcpName params)
                            "TOOL_NOT_FOUND")
           | Some _ =>
               if permission_denied server (cp_toolName params) then
                 mret (invalid ("Tool is disabled: " ++ cp_toolName params)
                              "TOOL_DISABLED")
               else
                 mret {| valid := true; v_error := None; v_errorCode := None;
                        v_serverId := Some (srv_id server) |}
           end)
          (fun _ =>
             mret (invalid ("Failed to get tools from server: "
                           ++ cp_mcpName params)
                          "TOOLS_FETCH_FAILED"))
  end.

(** *** [normalizeContent] and [callMCPTool] *)

Definition text_item (s : option string) : ToolResultContent :=
  {| c_type := "text"; c_text := s; c_data := None; c_mimeType := None |}.

Definition normalizeContent (items : list RawItem) : list ToolResultContent :=
  map (fun item =>
         match item with
         | RawString s => text_item (Some s)
         | RawObject ty tx d mt =>
             {| c_type := str_or ty "text"; c_text := tx; c_data := d;
                c_mimeType := mt |}
         end) items.

Definition callMCPTool (params : CallMCPToolParams) : M CallMCPToolResult :=
  validation ← validateCallParams params;
  if negb (valid validation) then
    mret {| content := [text_item (v_error validation)];
           isError := true;
           errorCode := v_errorCode validation |}
  else
    try_catch
      (result ← deps_callTool (cp_mcpName params) (cp_toolName params)
                               (cp_arguments params);
       mret {| content := normalizeContent (default [] (raw_content result));
              isError := default false (raw_isError result);
              errorCode := None |})
      (fun error =>
         mret {| content := [text_item (Some ("Error: " ++ message error))];
                isError := true;
                errorCode := Some "CALL_FAILED" |}).

End Service.

(** The call primitive does not occur among [calls]. *)
Definition no_callTool (calls : list DepCall) : Prop :=
  Forall (fun c => is_callTool c = false) calls.

(** *** The validation order, in the words of the specification

    The server the call names, then the checks in the order the
    specification numbers them, each with the code of its failure (the
    fetch of the tool list before the look-up in it).  A check that has
    nothing to look at (no server, no tool list) counts as failed; an earlier
    check has failed before it then. *)





(** The concrete registry of the specification's end-to-end scenario:
    server [filesystem], running and enabled, with two tools. *)
Definition filesystem : MCPServer :=
  {| srv_id := "server-1"; srv_name := "filesystem";
     srv_description := Some "files"; srv_status := running;
     srv_disabled := Some false; srv_toolPermissions := None |}.

Definition filesystem_tools : list MCPToolInfo :=
  [ {| tool_name := "read_file"; tool_description := None;
       tool_inputSchema := None |};
    {| tool_name := "write_file"; tool_description := None;
       tool_inputSchema := None |} ].

(** The call of that scenario, and what validation answers to it. *)
Definition read_file_call : CallMCPToolParams :=
  {| cp_mcpName := "filesystem"; cp_toolName := "read_file";
     cp_arguments := JObj [("path", JStr "/x")] |}.

Definition read_file_validated : Validation :=
  {| valid := true; v_error := None; v_errorCode := None;
     v_serverId := Some "server-1" |}.

(** An enumeration request for a server that is not there, from a caller
    scoped to partition [proj-42]. *)
Definition ghost_query : ListMCPToolsParams :=
  {| lp_mcpName := Some "ghost"; lp_projectId := Some "proj-42" |}.

(** The predicate of [listMCPTools]'s look-up. *)
Definition callable_as (mcpName : string) (s : MCPServer) : bool :=
  String.eqb (srv_name s) mcpName
  && status_eqb (srv_status s) running
  && negb (is_disabled s).

(** A registry whose call primitive always fails with [msg]. *)
Definition failing_backend (msg : string) : EntryMCPServiceDeps :=
  {| getServers := [filesystem];
     getServerTools := fun _ => inr filesystem_tools;
     callTool := fun _ _ _ => inl {| message := msg; status := None |} |}.

(** A registry whose tool lists cannot be fetched. *)
Definition unreachable_backend : EntryMCPServiceDeps :=
  {| getServers := [filesystem];
     getServerTools :=
       fun _ => inl {| message := "connection lost"; status := None |};
     callTool := fun _ _ _ => inr {| raw_content := None; raw_isError := None |} |}.

(** A registry without servers. *)
Definition empty_backend : EntryMCPServiceDeps :=
  {| getServers := [];
     getServerTools := fun _ => inr [];
     callTool := fun _ _ _ => inr {| raw_content := None; raw_isError := None |} |}.

End EntryService.

(** ** The facade's two fixed operation descriptors *)

Module EntryServer.

Record ToolDefinition : Type := {
  def_name : string;
  def_description : string;
  def_inputSchema : Json;
}.

(** [EntryMCPService.getListMCPToolsDefinition] *)
Definition getListMCPToolsDefinition : ToolDefinition :=
  {| def_name := "list_mcp_tools";
     def_description := "查询指定MCP服务器的可用工具列表。

使用前提：
- 必须先阅读 mcp-router 的 SKILL.md 技能文件了解有哪些可用的MCP服务器
- 必须指定 mcpName 参数

返回信息包含：服务器描述、工具列表及每个工具的用途说明。";
     def_inputSchema :=
       JObj [ ("type", JStr "object");
              ("properties",
               JObj [ ("mcpName",
                       JObj [ ("type", JStr "string");
                              ("description",
                               JStr "必填，MCP服务器名称（从SKILL.md技能文件中获取）") ]) ]);
              ("required", JArr [JStr "mcpName"] []) ] |}.

(** [EntryMCPService.getCallMCPToolDefinition] *)
Definition getCallMCPToolDefinition : ToolDefinition :=
  {| def_name := "call_mcp_tool";
     def_description := "调用指定MCP服务器上的工具。

使用流程：
1. 先使用 list_mcp_tools 查询目标服务器的工具列表
2. 根据工具描述选择合适的工具
3. 按照工具的 inputSchema 提供正确的参数

注意事项：
- 调用前必须确认工具名称和参数格式正确
- 如果调用失败，请检查参数是否符合工具要求
- 不要重复调用同一工具，除非用户明确要求";
     def_inputSchema :=
       JObj [ ("type", JStr "object");
              ("properties",
               JObj [ ("mcpName",
                       JObj [ ("type", JStr "string");
                              ("description", JStr "MCP服务器名称") ]);
                      ("toolName",
                       JObj [ ("type", JStr "string");
                              ("description",
                               JStr "要调用的工具名称（从list_mcp_tools返回的工具列表中选择）") ]);
                      ("arguments",
                       JObj [ ("type", JStr "object");
                              ("description",
                               JStr "工具参数（根据工具的inputSchema提供）");
                              ("additionalProperties", JBool true) ]) ]);
              ("required", JArr [JStr "mcpName"; JStr "toolName"] []) ] |}.

(** The [ListToolsRequestSchema] handler of [EntryMCPServer.setupHandlers]:
    it takes no notice of the request and of the backend servers. *)
Definition listToolsHandler (request : Json) : list ToolDefinition :=
  [ getListMCPToolsDefinition; getCallMCPToolDefinition ].

(** Reading a descriptor's schema: the names of its properties, the declared
    type of one property, and the names listed as required. *)
Definition schema_properties (d : ToolDefinition) : list (string * Json) :=
  match def_inputSchema d with
  | JObj fields =>
      match obj_get "properties" fields with
      | Some (JObj props) => props
      | _ => []
      end
  | _ => []
  end.

Definition property_names (d : ToolDefinition) : list string :=
  map fst (schema_properties d).

Definition property_type (d : ToolDefinition) (p : string) : option Json :=
  match obj_get p (schema_properties d) with
  | Some (JObj fields) => obj_get "type" fields
  | _ => None
  end.

Definition required_names (d : ToolDefinition) : list Json :=
  match def_inputSchema d with
  | JObj fields =>
      match obj_get "required" fields with
      | Some (JArr names _) => names
      | _ => []
      end
  | _ => []
  end.

End EntryServer.

(** ** String and object helpers of the router *)

(** [String.prototype.trim]'s white space among the characters a header
    value can hold (one byte each): TAB, LF, VT, FF, CR, SP and NBSP. *)
Definition is_ws (c : ascii) : bool :=
  let n := nat_of_ascii c in
  (Nat.leb 9 n && Nat.leb n 13) || Nat.eqb n 32 || Nat.eqb n 160.

Fixpoint trimStart (s : string) : string :=
  match s with
  | EmptyString => EmptyString
  | String c r => if is_ws c then trimStart r else s
  end.

Fixpoint trimEnd (s : string) : string :=
  match s with
  | EmptyString => EmptyString
  | String c r =>
      match trimEnd r with
      | EmptyString => if is_ws c then EmptyString else String c EmptyString
      | r' => String c r'
      end
  end.

Definition trim (s : string) : string := trimEnd (trimStart s).

(** [s.startsWith(p)] and [s.substring(n)] *)
Definition startsWith (p s : string) : bool := String.prefix p s.

Definition substring_from (n : nat) (s : string) : string :=
  String.substring n (String.length s - n) s.

(** JavaScript truthiness of a value. *)
Definition truthy (v : Json) : bool :=
  match v with
  | JUndefined | JNull | JBool false | JNum 0%Z | JStr EmptyString => false
  | _ => true
  end.

(** The own enumerable properties copied by an object spread [{...v}]:
    indices first for arrays and strings, nothing for the other primitives. *)
Definition indexed {A} (f : A -> Json) (l : list A) : list (string * Json) :=
  imap (fun i x => (pretty i, f x)) l.

Definition spread (v : Json) : list (string * Json) :=
  match v with
  | JObj fields => fields
  | JArr items props => (indexed (fun x => x) items ++ props)%list
  | JStr s =>
      indexed (fun c => JStr (String c EmptyString)) (list_ascii_of_string s)
  | _ => []
  end.

(** [JSON.stringify] of a string: quoted, with the quote, the backslash and
    the control characters escaped. *)
Definition hex_digit (n : nat) : ascii :=
  ascii_of_nat (if Nat.ltb n 10 then 48 + n else 87 + n).

Definition json_escape (c : ascii) : string :=
  let n := nat_of_ascii c in
  if Nat.eqb n 34 then "\" ++ dquote
  else if Nat.eqb n 92 then "\\"
  else if Nat.eqb n 8 then "\b"
  else if Nat.eqb n 12 then "\f"
  else if Nat.eqb n 10 then "\n"
  else if Nat.eqb n 13 then "\r"
  else if Nat.eqb n 9 then "\t"
  else if Nat.ltb n 32 then
    "\u00" ++ String (hex_digit (n / 16)) (String (hex_digit (n mod 16)) EmptyString)
  else String c EmptyString.

Fixpoint json_escape_all (s : string) : string :=
  match s with
  | EmptyString => EmptyString
  | String c r => json_escape c ++ json_escape_all r
  end.

Definition json_quote (s : string) : string :=
  dquote ++ json_escape_all s ++ dquote.

(** The two characters [\n\n] that end a server-sent event. *)
Definition LF : string := String (ascii_of_nat 10) EmptyString.

(** ** The dispatch router ([mcp-http-server.ts]) *)

Module HttpServer.

Inductive HeaderValue : Type :=
| HStr (s : string)
| HArr (l : list string).

Inductive Method : Type := GET | POST | OPTIONS | OtherMethod.

(** A request as it arrives.  Its body is given by what [express.json()]
    makes of it: [req_body] is the value the parser leaves in [req.body],
    and [req_body_error] is the error the parser raises instead on a body it
    cannot read (malformed JSON, for one), in which case no later layer
    runs and [req_body] is never looked at. *)
Record Request : Type := {
  req_method : Method;
  req_path : string;
  req_headers : gmap string HeaderValue;
  req_query : gmap string string;
  req_body : Json;
  req_body_error : option JsError;
}.

(** What was written to a response, in order. *)
Inductive Sent : Type :=
| SentJson (j : Json)
| SentText (s : string).

Record Response : Type := {
  statusCode : nat;
  res_headers : list (string * string);
  headersSent : bool;
  res_sent : list Sent;
  res_ended : bool;
}.

(** A response nothing has been done to yet.  [res_headers] holds the
    headers the router sets itself; those the framework and the CORS layer
    add to every response are not recorded. *)
Definition fresh_response : Response :=
  {| statusCode := 200; res_headers := []; headersSent := false;
     res_sent := []; res_ended := false |}.

Definition setHeader (k v : string) (res : Response) : Response :=
  {| statusCode := statusCode res;
     res_headers := (res_headers res ++ [(k, v)])%list;
     headersSent := headersSent res;
     res_sent := res_sent res;
     res_ended := res_ended res |}.

(** [res.status(code).json(j)] and [res.status(code).send(text)] *)
Definition respond (code : nat) (body : Sent) (res : Response) : Response :=
  {| statusCode := code;
     res_headers := res_headers res;
     headersSent := true;
     res_sent := (res_sent res ++ [body])%list;
     res_ended := true |}.

(** [res.write(chunk)] *)
Definition write (chunk : string) (res : Response) : Response :=
  {| statusCode := statusCode res;
     res_headers := res_headers res;
     headersSent := true;
     res_sent := (res_sent res ++ [SentText chunk])%list;
     res_ended := res_ended res |}.

Record TokenValidation : Type := {
  isValid : bool;
  tv_error : option string;
}.

Record Project : Type := { project_id : string }.

Record SSEServerTransport : Type := {
  t_endpoint : string;
  t_sessionId : string;
}.

(** The collaborators of the router: two constants of the shared package,
    the Credential Validator, the Partition Resolver's repository, the
    workspace manager, and the transports of the protocol SDK.  A transport
    call may write to the response and may throw. *)
Record Env : Type := {
  PROJECT_HEADER : string;
  UNASSIGNED_PROJECT_ID : string;
  validateToken : string -> TokenValidation;
  findByName : string -> option Project;
  isRemoteWorkspace : bool;
  waitForInit : option JsError;
  entry_handleRequest : Request -> Json -> Response -> option JsError * Response;
  aggregator_handleRequest :
    Request -> Json -> Response -> option JsError * Response;
  aggregator_connect : SSEServerTransport -> Response -> option JsError * Response;
  handlePostMessage :
    SSEServerTransport -> Request -> Json -> Response
    -> option JsError * Response;
}.

(** The calls the router makes on the transports. *)
Inductive SdkCall : Type :=
| ToEntry (req : Request) (body : Json)
| ToAggregator (req : Request) (body : Json)
| Connect (transport : SSEServerTransport)
| ToSession (transport : SSEServerTransport) (req : Request) (body : Json)
| TransportClose (transport : SSEServerTransport).

(** A call that hands a request, or a channel, to a backend connection. *)
Definition is_forward (c : SdkCall) : bool :=
  match c with
  | TransportClose _ => false
  | _ => true
  end.

(** The Session Table: the two maps of [MCPHttpServer]. *)
Record ServerState : Type := {
  sseSessions : gmap string SSEServerTransport;
  sseSessionProjects : gmap string (option string);
}.

Definition initial_state : ServerState :=
  {| sseSessions := ∅; sseSessionProjects := ∅ |}.

Record Outcome : Type := {
  out_state : ServerState;
  out_res : Response;
  out_calls : list SdkCall;
}.

Section Router.

Variable env : Env.

(** *** The layers of [configureMiddleware]

    A layer calls [next()], answers the request itself, or fails: it throws,
    or passes an error to [next]. *)

Inductive MiddlewareResult : Type :=
| Next (req : Request)
| Finished (res : Response)
| Thrown (error : JsError).

(** [express.json()]: a body the parser cannot read is an error (of status
    400 when the JSON is malformed) passed to the framework; otherwise
    [req.body] holds the parsed value. *)
Definition express_json (req : Request) (res : Response) : MiddlewareResult :=
  match req_body_error req with
  | Some error => Thrown error
  | None => Next req
  end.

(** [cors()] with its default options: an [OPTIONS] request is a preflight,
    which the layer answers itself with status 204 and no body; every other
    request is passed on.  (The headers the layer adds to the response are
    not recorded.) *)
Definition preflight (res : Response) : Response :=
  {| statusCode := 204;
     res_headers := res_headers res;
     headersSent := true;
     res_sent := res_sent res;
     res_ended := true |}.

Definition cors (req : Request) (res : Response) : MiddlewareResult :=
  match req_method req with
  | OPTIONS => Finished (preflight res)
  | _ => Next req
  end.

Definition error_body (msg : string) : Sent :=
  SentJson (JObj [("error", JStr msg)]).

(** [token.startsWith("Bearer ") ? token.substring(7) : token] *)
Definition bearer_token (token : string) : string :=
  if startsWith "Bearer " token then substring_from 7 token else token.

(** [authMiddleware].  The header is rewritten in place when it carries the
    [Bearer ] prefix; an array in its place (which the HTTP parser never
    produces for this header) makes [token.startsWith] fail. *)
Definition authMiddleware (req : Request) (res : Response) : MiddlewareResult :=
  match req_headers req !! "authorization" with
  | None | Some (HStr EmptyString) =>
      Finished
        (respond 401
           (error_body "Authentication required. Please provide a valid token.")
           res)
  | Some (HArr _) =>
      Thrown {| message := "token.startsWith is not a function";
                status := None |}
  | Some (HStr token) =>
      let req' :=
        if startsWith "Bearer " token then
          {| req_method := req_method req;
             req_path := req_path req;
             req_headers :=
               <["authorization" := HStr (substring_from 7 token)]>
                 (req_headers req);
             req_query := req_query req;
             req_body := req_body req;
             req_body_error := req_body_error req |}
        else req in
      let tokenId := bearer_token token in
      let validation := validateToken env tokenId in
      if negb (isValid validation) then
        Finished
          (respond 401
             (error_body
                (str_or (tv_error validation)
                        "Invalid token. Authentication failed."))
             res)
      else Next req'
  end.

(** *** [resolveProjectFilter] *)

Record Resolution : Type := {
  projectId : option string;
  provided : bool;
}.

Definition not_found_error (value : string) : JsError :=
  {| message := "Project " ++ dquote ++ value ++ dquote ++ " not found";
     status := Some 400 |}.

Definition resolveProjectFilter (req : Request) (skipValidation : bool)
  : JsError + Resolution :=
  match req_headers req !! PROJECT_HEADER env with
  | None => inr {| projectId := None; provided := false |}
  | Some headerValue =>
      let rawValue :=
        match headerValue with
        | HArr l => head l
        | HStr s => Some s
        end in
      let value := trim <$> rawValue in
      if negb (str_truthy value) then
        inr {| projectId := None; provided := true |}
      else
        let value := str_or value EmptyString in
        if String.eqb value (UNASSIGNED_PROJECT_ID env) then
          inr {| projectId := None; provided := true |}
        else if skipValidation then
          inr {| projectId := Some value; provided := true |}
        else
          match findByName env value with
          | Some byName =>
              inr {| projectId := Some (project_id byName); provided := true |}
          | None => inl (not_found_error value)
          end
  end.

(** *** [attachRequestMetadata] *)

Definition nullable (s : option string) : Json :=
  match s with
  | Some v => JStr v
  | None => JNull
  end.

Definition token_value (tokenHeader : option HeaderValue) : Json :=
  match tokenHeader with
  | Some (HArr l) =>
      match head l with
      | Some t => JStr t
      | None => JUndefined
      end
  | Some (HStr t) => JStr t
  | None => JUndefined
  end.

(** [{ ...(old || {}), token, projectId }] *)
Definition with_meta (old : option Json) (token projectId : Json)
  : list (string * Json) :=
  let base :=
    match old with
    | Some m => if truthy m then spread m else []
    | None => []
    end in
  obj_set "projectId" projectId (obj_set "token" token base).

Definition attachRequestMetadata (payload : list (string * Json))
    (tokenHeader : option HeaderValue) (projectId : option string)
  : list (string * Json) :=
  let tokenValue := token_value tokenHeader in
  match obj_get "params" payload with
  | Some (JObj fields) =>
      obj_set "params"
        (JObj (obj_set "_meta"
                 (JObj (with_meta (obj_get "_meta" fields) tokenValue
                                  (nullable projectId)))
                 fields))
        payload
  | Some (JArr items props) =>
      obj_set "params"
        (JArr items
           (obj_set "_meta"
              (JObj (with_meta (obj_get "_meta" props) tokenValue
                               (nullable projectId)))
              props))
        payload
  | None | Some JUndefined =>
      obj_set "params"
        (JObj [("_meta",
                JObj [("token", tokenValue);
                      ("projectId", nullable projectId)])])
        payload
  | Some _ => payload
  end.

(** [const modifiedBody = { ...req.body }] copies one level only: the value
    of [params] in the copy is the very object that [req.body] holds.  When
    that value is an object, [attachRequestMetadata] assigns into it, so the
    body of the request changes with the copy; when [params] is absent, the
    assignment is to the copy and the request keeps its body.
    [body_after_attach body payload] is the body of the request once the
    copy has become [payload]. *)
Definition set_params (body : Json) (params : Json) : Json :=
  match body with
  | JObj fields => JObj (obj_set "params" params fields)
  | JArr items props => JArr items (obj_set "params" params props)
  | other => other
  end.

Definition body_after_attach (body : Json) (payload : list (string * Json))
  : Json :=
  match obj_get "params" (spread body), obj_get "params" payload with
  | Some (JObj _), Some params | Some (JArr _ _), Some params =>
      set_params body params
  | _, _ => body
  end.

(** The request with another body. *)
Definition with_body (req : Request) (body : Json) : Request :=
  {| req_method := req_method req;
     req_path := req_path req;
     req_headers := req_headers req;
     req_query := req_query req;
     req_body := body;
     req_body_error := req_body_error req |}.

(** *** The envelopes the router writes itself *)

Definition jsonrpc_error (code : Z) (msg : string) (id : Json) : Sent :=
  SentJson
    (JObj [ ("jsonrpc", JStr "2.0");
            ("error", JObj [("code", JNum code); ("message", JStr msg)]);
            ("id", id) ]).

Definition internal_error : Sent :=
  jsonrpc_error (-32603) "Internal server error" JNull.

(** [error?.status || 400] *)
Definition error_status (e : JsError) : nat :=
  match status e with
  | Some (S n) => S n
  | _ => 400
  end.

(** [modifiedBody.id || null] *)
Definition id_or_null (payload : list (string * Json)) : Json :=
  match obj_get "id" payload with
  | Some v => if truthy v then v else JNull
  | None => JNull
  end.

(** [if (!res.headersSent) res.status(code)...] *)
Definition respond_unless_sent (code : nat) (body : Sent) (res : Response)
  : Response :=
  if headersSent res then res else respond code body res.

(** The [catch] around a transport call: its writes stay, and the internal
    error envelope is added only when nothing has been sent. *)
Definition guarded (code : nat) (body : Sent)
    (r : option JsError * Response) : Response :=
  match r with
  | (Some _, res) => respond_unless_sent code body res
  | (None, res) => res
  end.

(** *** [POST /mcp]: the facade route *)

Definition post_mcp (st : ServerState) (req : Request) (res : Response)
  : Outcome :=
  let modifiedBody := JObj (spread (req_body req)) in
  match waitForInit env with
  | Some _ =>
      {| out_state := st;
         out_res := respond_unless_sent 500 internal_error res;
         out_calls := [] |}
  | None =>
      {| out_state := st;
         out_res :=
           guarded 500 internal_error
                   (entry_handleRequest env req modifiedBody res);
         out_calls := [ToEntry req modifiedBody] |}
  end.

(** *** [POST /mcp/aggregator]: the full-surface route *)

Definition post_mcp_aggregator (st : ServerState) (req : Request)
    (res : Response) : Outcome :=
  let modifiedBody := spread (req_body req) in
  match resolveProjectFilter req (isRemoteWorkspace env) with
  | inl error =>
      {| out_state := st;
         out_res :=
           respond_unless_sent (error_status error)
             (jsonrpc_error (-32602) (message error) (id_or_null modifiedBody))
             res;
         out_calls := [] |}
  | inr resolution =>
      let token := req_headers req !! "authorization" in
      let attached :=
        attachRequestMetadata modifiedBody token (projectId resolution) in
      let req := with_body req (body_after_attach (req_body req) attached) in
      let modifiedBody := JObj attached in
      {| out_state := st;
         out_res :=
           guarded 500 internal_error
                   (aggregator_handleRequest env req modifiedBody res);
         out_calls := [ToAggregator req modifiedBody] |}
  end.

(** *** [GET /mcp/sse]: stream-open

    [sessionId] is the identifier the SDK generates when the transport is
    constructed. *)

Definition session_frame (sessionId : string) : string :=
  "data: " ++ "{" ++ json_quote "sessionId" ++ ":" ++ json_quote sessionId
  ++ "}" ++ LF ++ LF.

Definition event_stream_headers (res : Response) : Response :=
  setHeader "Connection" "keep-alive"
    (setHeader "Cache-Control" "no-cache"
       (setHeader "Content-Type" "text/event-stream" res)).

(** [new SSEServerTransport("/mcp/messages", res)] *)
Definition new_transport (sessionId : string) : SSEServerTransport :=
  {| t_endpoint := "/mcp/messages"; t_sessionId := sessionId |}.

Definition get_mcp_sse (st : ServerState) (sessionId : string) (req : Request)
    (res : Response) : Outcome :=
  let res := event_stream_headers res in
  let transport := new_transport sessionId in
  match resolveProjectFilter req (isRemoteWorkspace env) with
  | inl error =>
      {| out_state := st;
         out_res :=
           respond_unless_sent (error_status error) (SentText (message error))
                               res;
         out_calls := [TransportClose transport] |}
  | inr resolution =>
      let st' :=
        {| sseSessions := <[sessionId := transport]> (sseSessions st);
           sseSessionProjects :=
             <[sessionId := projectId resolution]> (sseSessionProjects st) |} in
      match aggregator_connect env transport res with
      | (Some _, res') =>
          {| out_state := st';
             out_res :=
               respond_unless_sent 500
                 (SentText "Error establishing SSE connection") res';
             out_calls := [Connect transport] |}
      | (None, res') =>
          {| out_state := st';
             out_res := write (session_frame sessionId) res';
             out_calls := [Connect transport] |}
      end
  end.

(** The callback registered on the response's [close] event. *)
Definition on_close (st : ServerState) (sessionId : string) : ServerState :=
  {| sseSessions := delete sessionId (sseSessions st);
     sseSessionProjects := delete sessionId (sseSessionProjects st) |}.

(** *** [POST /mcp/messages]: stream-message *)

(** [req.query.sessionId || req.headers["mcp-session-id"]]; an array can
    never be a key of the table. *)
Inductive SessionKey : Type :=
| NoKey
| Key (sessionId : string)
| Unmatchable.

Definition session_key (req : Request) : SessionKey :=
  match req_query req !! "sessionId" with
  | Some (String c r) => Key (String c r)
  | _ =>
      match req_headers req !! "mcp-session-id" with
      | Some (HStr (String c r)) => Key (String c r)
      | Some (HArr _) => Unmatchable
      | _ => NoKey
      end
  end.

Definition session_not_found : Sent :=
  jsonrpc_error (-32000) "Session not found or expired" JNull.

Definition post_mcp_messages (st : ServerState) (req : Request)
    (res : Response) : Outcome :=
  match session_key req with
  | NoKey =>
      {| out_state := st;
         out_res :=
           respond 400 (jsonrpc_error (-32000) "Session ID is required" JNull)
                   res;
         out_calls := [] |}
  | Unmatchable =>
      {| out_state := st;
         out_res := respond 404 session_not_found res;
         out_calls := [] |}
  | Key sessionId =>
      match sseSessions st !! sessionId with
      | None =>
          {| out_state := st;
             out_res := respond 404 session_not_found res;
             out_calls := [] |}
      | Some transport =>
          let modifiedBody := spread (req_body req) in
          match resolveProjectFilter req false with
          | inl error =>
              {| out_state := st;
                 out_res :=
                   respond_unless_sent (error_status error)
                     (jsonrpc_error (-32602) (message error)
                                    (id_or_null modifiedBody))
                     res;
                 out_calls := [] |}
          | inr resolution =>
              let projectFilter :=
                if provided resolution then projectId resolution
                else default None (sseSessionProjects st !! sessionId) in
              let token := req_headers req !! "authorization" in
              let attached :=
                attachRequestMetadata modifiedBody token projectFilter in
              let req :=
                with_body req (body_after_attach (req_body req) attached) in
              let modifiedBody := JObj attached in
              {| out_state := st;
                 out_res :=
                   guarded 500 internal_error
                           (handlePostMessage env transport req modifiedBody res);
                 out_calls := [ToSession transport req modifiedBody] |}
          end
      end
  end.

(** *** Dispatch: [app.use] and the four routes

    [app.use(mw)] runs [mw] for every request; [app.use(prefix, mw)] runs it
    for the prefix itself and for every path below it; a route matches its
    own path.  Paths are compared as given (the framework's case folding and
    optional trailing slash are left out). *)

Inductive Mount : Type :=
| Everywhere
| Under (prefix : string).

Definition mounted_at (prefix path : string) : bool :=
  String.eqb path prefix || String.prefix (prefix ++ "/") path.

Definition mounted (m : Mount) (path : string) : bool :=
  match m with
  | Everywhere => true
  | Under prefix => mounted_at prefix path
  end.

Definition Middleware : Type := Request -> Response -> MiddlewareResult.

(** The authentication gate: [authMiddleware], mounted twice. *)
Definition gate : list (Mount * Middleware) :=
  [ (Under "/mcp", authMiddleware); (Under "/mcp/sse", authMiddleware) ].

(** [configureMiddleware]: the body parser, the CORS layer, then the gate. *)
Definition middleware : list (Mount * Middleware) :=
  (Everywhere, express_json) :: (Everywhere, cors) :: gate.

(** The framework running a stack: each mounted layer in turn, on the
    request as the layers before it left it, until one answers or fails. *)
Fixpoint run_stack (stack : list (Mount * Middleware)) (req : Request)
    (res : Response) : MiddlewareResult :=
  match stack with
  | [] => Next req
  | (m, mw) :: rest =>
      if mounted m (req_path req) then
        match mw req res with
        | Next req' => run_stack rest req' res
        | answered => answered
        end
      else run_stack rest req res
  end.

(** No route matches, or a layer failed: the framework's final handler.  It
    answers an error with the error's own status when that is one of the
    client and server error codes, and with 500 otherwise. *)
Definition final_handler (code : nat) (res : Response) : Response :=
  respond code (SentText EmptyString) res.

Definition final_status (error : JsError) : nat :=
  match status error with
  | Some n => if (400 <=? n)%nat && (n <? 600)%nat then n else 500
  | None => 500
  end.

(** [configureRoutes] *)
Definition routes (st : ServerState) (sessionId : string) (req : Request)
    (res : Response) : Outcome :=
  match req_method req with
  | POST =>
      if String.eqb (req_path req) "/mcp" then post_mcp st req res
      else if String.eqb (req_path req) "/mcp/aggregator" then
        post_mcp_aggregator st req res
      else if String.eqb (req_path req) "/mcp/messages" then
        post_mcp_messages st req res
      else {| out_state := st; out_res := final_handler 404 res;
              out_calls := [] |}
  | GET =>
      if String.eqb (req_path req) "/mcp/sse" then
        get_mcp_sse st sessionId req res
      else {| out_state := st; out_res := final_handler 404 res;
              out_calls := [] |}
  | OPTIONS | OtherMethod =>
      {| out_state := st; out_res := final_handler 404 res; out_calls := [] |}
  end.

(** The application answering one request. *)
Definition app (st : ServerState) (sessionId : string) (req : Request)
  : Outcome :=
  match run_stack middleware req fresh_response with
  | Next req' => routes st sessionId req' fresh_response
  | Finished res =>
      {| out_state := st; out_res := res; out_calls := [] |}
  | Thrown error =>
      {| out_state := st;
         out_res := final_handler (final_status error) fresh_response;
         out_calls := [] |}
  end.

(** The answer of the authentication gate. *)
Definition unauthorized (st : ServerState) (msg : string) : Outcome :=
  {| out_state := st;
     out_res := respond 401 (error_body msg) fresh_response;
     out_calls := [] |}.

End Router.

(** *** The router as a state machine

    Its inputs are the requests, each with the workspace and collaborators
    of that moment and the session identifier the SDK would generate for it,
    and the [close] events of the opened channels. *)

Inductive Input : Type :=
| Incoming (env : Env) (sessionId : string) (req : Request)
| ChannelClosed (sessionId : string).

Definition step (st : ServerState) (i : Input) : ServerState :=
  match i with
  | Incoming env sessionId req => out_state (app env st sessionId req)
  | ChannelClosed sessionId => on_close st sessionId
  end.

Definition run (st : ServerState) (inputs : list Input) : ServerState :=
  fold_left step inputs st.

(** *** Concrete collaborators and requests

    A workspace with one project, [alpha] with identifier [p-alpha], and one
    valid token, [secret].  [connect] is what the SDK's connect does to the
    channel. *)

Definition make_env (remote : bool)
    (connect : SSEServerTransport -> Response -> option JsError * Response)
  : Env :=
  {| PROJECT_HEADER := "x-mcpr-project";
     UNASSIGNED_PROJECT_ID := "__unassigned__";
     validateToken :=
       fun t =>
         if String.eqb t "secret" then {| isValid := true; tv_error := None |}
         else {| isValid := false; tv_error := Some "Token not found" |};
     findByName :=
       fun n =>
         if String.eqb n "alpha" then Some {| project_id := "p-alpha" |}
         else None;
     isRemoteWorkspace := remote;
     waitForInit := None;
     entry_handleRequest := fun _ _ res => (None, res);
     aggregator_handleRequest := fun _ _ res => (None, res);
     aggregator_connect := connect;
     handlePostMessage := fun _ _ _ res => (None, res) |}.

(** A connect that leaves the channel untouched. *)
Definition quiet_connect (transport : SSEServerTransport) (res : Response)
  : option JsError * Response := (None, res).

(** A connect that announces the message endpoint on the channel first, as
    the SDK's event-stream transport does when it is started. *)
Definition endpoint_frame (transport : SSEServerTransport) : string :=
  "event: endpoint" ++ LF ++ "data: " ++ t_endpoint transport
  ++ "?sessionId=" ++ t_sessionId transport ++ LF ++ LF.

Definition announcing_connect (transport : SSEServerTransport)
    (res : Response) : option JsError * Response :=
  (None, write (endpoint_frame transport) res).

(** A connect that fails. *)
Definition failing_connect (transport : SSEServerTransport) (res : Response)
  : option JsError * Response :=
  (Some {| message := "Already connected"; status := None |}, res).

Definition local_env : Env := make_env false quiet_connect.
Definition remote_env : Env := make_env true quiet_connect.

Definition request (m : Method) (path : string)
    (headers : list (string * HeaderValue)) (query : list (string * string))
    (body : Json) : Request :=
  {| req_method := m; req_path := path;
     req_headers := list_to_map headers;
     req_query := list_to_map query;
     req_body := body;
     req_body_error := None |}.

(** A tool call as a JSON-RPC request body. *)
Definition tools_call : Json :=
  JObj [ ("jsonrpc", JStr "2.0"); ("id", JNum 1);
         ("method", JStr "tools/call");
         ("params", JObj [("name", JStr "list_mcp_tools")]) ].

(** A facade call and a stream-open by the holder of the valid token, both
    scoped to project [alpha]. *)
Definition facade_request : Request :=
  request POST "/mcp"
    [ ("authorization", HStr "Bearer secret");
      ("x-mcpr-project", HStr "alpha") ] [] tools_call.

Definition aggregator_request : Request :=
  request POST "/mcp/aggregator"
    [ ("authorization", HStr "Bearer secret");
      ("x-mcpr-project", HStr "alpha") ] [] tools_call.

Definition open_request : Request :=
  request GET "/mcp/sse"
    [ ("authorization", HStr "Bearer secret");
      ("x-mcpr-project", HStr "alpha") ] [] JNull.

(** The same requests as the authentication gate hands them on. *)
Definition facade_request' : Request :=
  request POST "/mcp"
    [ ("authorization", HStr "secret");
      ("x-mcpr-project", HStr "alpha") ] [] tools_call.

Definition open_request' : Request :=
  request GET "/mcp/sse"
    [ ("authorization", HStr "secret");
      ("x-mcpr-project", HStr "alpha") ] [] JNull.

(** Requests scoped to [ghost], a project the repository does not know,
    and the same as the authentication gate hands them on. *)
Definition ghost_headers (token : string) : list (string * HeaderValue) :=
  [ ("authorization", HStr token); ("x-mcpr-project", HStr "ghost") ].

Definition ghost_aggregator_request (token : string) : Request :=
  request POST "/mcp/aggregator" (ghost_headers token) [] tools_call.

Definition ghost_open_request (token : string) : Request :=
  request GET "/mcp/sse" (ghost_headers token) [] JNull.

(** A message for session [abc]. *)
Definition ghost_message (token : string) : Request :=
  request POST "/mcp/messages" (ghost_headers token) [("sessionId", "abc")]
          tools_call.

Definition plain_message (token : string) : Request :=
  request POST "/mcp/messages" [("authorization", HStr token)]
          [("sessionId", "abc")] tools_call.

(** A facade call without token whose body is not JSON: the parser's error
    for it has status 400. *)
Definition malformed_request : Request :=
  {| req_method := POST; req_path := "/mcp";
     req_headers := {[ "content-type" := HStr "application/json" ]};
     req_query := ∅;
     req_body := JUndefined;
     req_body_error :=
       Some {| message := "Unexpected token } in JSON at position 0";
               status := Some 400 |} |}.

(** Requests whose partition header is [ghost] followed by a no-break
    space, which is white space to [String.prototype.trim]. *)
Definition NBSP : string := String (ascii_of_nat 160) EmptyString.

Definition padded_headers (token : string) : list (string * HeaderValue) :=
  [ ("authorization", HStr token); ("x-mcpr-project", HStr ("ghost" ++ NBSP)) ].

Definition padded_aggregator_request (token : string) : Request :=
  request POST "/mcp/aggregator" (padded_headers token) [] tools_call.

Definition padded_open_request (token : string) : Request :=
  request GET "/mcp/sse" (padded_headers token) [] JNull.

(** The session [abc] opened without a partition. *)
Definition one_session : ServerState :=
  {| sseSessions := {[ "abc" := new_transport "abc" ]};
     sseSessionProjects := {[ "abc" := None ]} |}.

(** *** The four routes by name *)

Inductive Route : Type := Facade | FullSurface | StreamOpen | StreamMessage.

Definition route_method (r : Route) : Method :=
  match r with
  | StreamOpen => GET
  | _ => POST
  end.

Definition route_path (r : Route) : string :=
  match r with
  | Facade => "/mcp"
  | FullSurface => "/mcp/aggregator"
  | StreamOpen => "/mcp/sse"
  | StreamMessage => "/mcp/messages"
  end.

(** [req] is a request on route [r]. *)
Definition on_route (r : Route) (req : Request) : Prop :=
  req_method req = route_method r ∧ req_path req = route_path r.

(** [req] passes the layers in front of the routes, the authentication gate
    last, which hands [req'] on. *)
Definition authenticated (env : Env) (req req' : Request) : Prop :=
  run_stack (middleware env) req fresh_response = Next req'.

(** [req], having reached the authentication gate, passes it, and the gate
    hands [req'] on. *)
Definition passes_gate (env : Env) (req req' : Request) : Prop :=
  run_stack (gate env) req fresh_response = Next req'.

(** Two requests that differ at most in their authorization header. *)
Definition same_but_token (req req' : Request) : Prop :=
  req_method req' = req_method req
  ∧ req_path req' = req_path req
  ∧ req_query req' = req_query req
  ∧ req_body req' = req_body req
  ∧ req_body_error req' = req_body_error req
  ∧ ∀ k, k ≠ "authorization" → req_headers req' !! k = req_headers req !! k.

(** The first value of a header, as [resolveProjectFilter] reads it. *)
Definition first_value (h : option HeaderValue) : option string :=
  match h with
  | Some (HStr s) => Some s
  | Some (HArr l) => head l
  | None => None
  end.

(** The request carries a partition header that names [value]: the header's
    value, trimmed, is [value], which is neither empty nor the sentinel for
    "unassigned". *)
Definition names_partition (env : Env) (req : Request) (value : string)
  : Prop :=
  ∃ raw, first_value (req_headers req !! PROJECT_HEADER env) = Some raw
         ∧ trim raw = value
         ∧ value ≠ EmptyString
         ∧ value ≠ UNASSIGNED_PROJECT_ID env.

(** The state that a stream-open past both gates leaves. *)
Definition registered (st : ServerState) (sessionId : string)
    (scope : option string) : ServerState :=
  {| sseSessions := <[sessionId := new_transport sessionId]> (sseSessions st);
     sseSessionProjects := <[sessionId := scope]> (sseSessionProjects st) |}.

(** The answer to a message whose session is not in the table. *)
Definition not_found (st : ServerState) : Outcome :=
  {| out_state := st;
     out_res := respond 404 session_not_found fresh_response;
     out_calls := [] |}.

(** Input [i] is a stream-open request for which the SDK generates the
    session identifier [k]. *)
Definition opens (i : Input) (k : string) : Prop :=
  ∃ env req, i = Incoming env k req
             ∧ req_method req = GET ∧ req_path req = "/mcp/sse".

End HttpServer.

(** ** The rest of the service: look-up by name and the singletons *)

Module EntryLifecycle.
Import EntryService.

(** [EntryMCPService.getServerByName] *)
Definition getServerByName (deps : EntryMCPServiceDeps) (name : string)
  : option MCPServer :=
  find (fun s => String.eqb (srv_name s) name) (getServers deps).

(** The same registry with another list of servers. *)
Definition with_servers (deps : EntryMCPServiceDeps) (l : list MCPServer)
  : EntryMCPServiceDeps :=
  {| getServers := l;
     getServerTools := getServerTools deps;
     callTool := callTool deps |}.

(** The error codes of call-one-tool. *)
Definition error_codes : list string :=
  [ "SERVER_NOT_FOUND"; "SERVER_NOT_RUNNING"; "SERVER_DISABLED";
    "TOOLS_FETCH_FAILED"; "TOOL_NOT_FOUND"; "TOOL_DISABLED"; "CALL_FAILED" ].

(** A stopped server that shares its name with [filesystem]. *)
Definition stopped_namesake : MCPServer :=
  {| srv_id := "server-0"; srv_name := "filesystem";
     srv_description := None; srv_status := stopped;
     srv_disabled := None; srv_toolPermissions := None |}.

Definition github : MCPServer :=
  {| srv_id := "server-2"; srv_name := "github";
     srv_description := None; srv_status := running;
     srv_disabled := None; srv_toolPermissions := None |}.

(** A registry with a stopped and a running [filesystem]. *)
Definition crowded_backend : EntryMCPServiceDeps :=
  {| getServers := [github; stopped_namesake; filesystem];
     getServerTools := fun _ => inr filesystem_tools;
     callTool :=
       fun _ _ _ => inr {| raw_content := None; raw_isError := None |} |}.

(** An [EntryMCPServer], of which only the service it holds matters here:
    its constructor asks [getEntryMCPService] for it. *)
Record EntryMCPServer : Type := { server_service : EntryMCPServiceDeps }.

(** The two module-level variables [entryMCPServiceInstance] and
    [entryMCPServerInstance].  A service instance is the dependencies it
    was constructed with. *)
Record Globals : Type := {
  entryMCPServiceInstance : option EntryMCPServiceDeps;
  entryMCPServerInstance : option EntryMCPServer;
}.

Definition service_not_initialized : JsError :=
  {| message := "EntryMCPService not initialized. Call with deps first.";
     status := None |}.

Definition server_not_initialized : JsError :=
  {| message := "EntryMCPServer not initialized. Call with deps first.";
     status := None |}.

(** [getEntryMCPService(deps?)] *)
Definition getEntryMCPService (deps : option EntryMCPServiceDeps)
    (g : Globals) : (JsError + EntryMCPServiceDeps) * Globals :=
  let g' :=
    match entryMCPServiceInstance g, deps with
    | None, Some d =>
        {| entryMCPServiceInstance := Some d;
           entryMCPServerInstance := entryMCPServerInstance g |}
    | _, _ => g
    end in
  match entryMCPServiceInstance g' with
  | None => (inl service_not_initialized, g')
  | Some service => (inr service, g')
  end.

(** [resetEntryMCPService()] *)
Definition resetEntryMCPService (g : Globals) : Globals :=
  {| entryMCPServiceInstance := None;
     entryMCPServerInstance := entryMCPServerInstance g |}.

(** [new EntryMCPServer(deps)] *)
Definition newEntryMCPServer (deps : EntryMCPServiceDeps) (g : Globals)
  : (JsError + EntryMCPServer) * Globals :=
  match getEntryMCPService (Some deps) g with
  | (inl e, g') => (inl e, g')
  | (inr service, g') => (inr {| server_service := service |}, g')
  end.

(** [getEntryMCPServer(deps?)] *)
Definition getEntryMCPServer (deps : option EntryMCPServiceDeps)
    (g : Globals) : (JsError + EntryMCPServer) * Globals :=
  let created :=
    match entryMCPServerInstance g, deps with
    | None, Some d =>
        match newEntryMCPServer d g with
        | (inl e, g') => inl (e, g')
        | (inr server, g') =>
            inr {| entryMCPServiceInstance := entryMCPServiceInstance g';
                   entryMCPServerInstance := Some server |}
        end
    | _, _ => inr g
    end in
  match created with
  | inl (e, g') => (inl e, g')
  | inr g' =>
      match entryMCPServerInstance g' with
      | None => (inl server_not_initialized, g')
      | Some server => (inr server, g')
      end
  end.

(** [resetEntryMCPServer()]: the instance is shut down and forgotten; the
    service instance is not touched. *)
Definition resetEntryMCPServer (g : Globals) : Globals :=
  {| entryMCPServiceInstance := entryMCPServiceInstance g;
     entryMCPServerInstance := None |}.

(** The operations on the two singletons, and a program of them. *)
Inductive Op : Type :=
| GetService (deps : option EntryMCPServiceDeps)
| GetServer (deps : option EntryMCPServiceDeps)
| ResetServer
| ResetService.

Definition is_ResetService (o : Op) : bool :=
  match o with
  | ResetService => true
  | _ => false
  end.

(** One operation: the new globals and the service that the caller now
    holds, if the operation returned one (directly or inside a server). *)
Definition perform (g : Globals) (o : Op)
  : Globals * option EntryMCPServiceDeps :=
  match o with
  | GetService deps =>
      match getEntryMCPService deps g with
      | (inr service, g') => (g', Some service)
      | (inl _, g') => (g', None)
      end
  | GetServer deps =>
      match getEntryMCPServer deps g with
      | (inr server, g') => (g', Some (server_service server))
      | (inl _, g') => (g', None)
      end
  | ResetServer => (resetEntryMCPServer g, None)
  | ResetService => (resetEntryMCPService g, None)
  end.

(** A program of operations: the final globals and what each returned. *)
Fixpoint perform_all (g : Globals) (ops : list Op)
  : Globals * list (option EntryMCPServiceDeps) :=
  match ops with
  | [] => (g, [])
  | o :: rest =>
      let '(g', held) := perform g o in
      let '(g'', helds) := perform_all g' rest in
      (g'', held :: helds)
  end.

(** Globals in which service and server were initialised with
    [failing_backend]. *)
Definition initialised : Globals :=
  {| entryMCPServiceInstance := Some (failing_backend "first");
     entryMCPServerInstance :=
       Some {| server_service := failing_backend "first" |} |}.

(** The globals are consistent with the service [d]: it is the service
    instance, and the server instance, if any, holds it. *)
Definition serves (g : Globals) (d : EntryMCPServiceDeps) : Prop :=
  entryMCPServiceInstance g = Some d
  ∧ ∀ server, entryMCPServerInstance g = Some server →
              server_service server = d.

End EntryLifecycle.

(** ** The facade's tool-invocation handler ([entry-mcp.server.ts]) *)

Module EntryHandler.
Import EntryService.

(** One record of the logging collaborator. *)
Record LogEntry : Type := {
  log_timestamp : string;
  log_requestType : string;
  log_params : Json;
  log_result : string;
  log_errorMessage : option string;
  log_duration : Z;
  log_clientId : string;
}.

(** The readings of the clock during one call: [Date.now()] on entry, and
    the date and [Date.now()] where the call is logged, in the handler's body
    and in its [catch]. *)
Record Clock : Type := {
  startTime : Z;
  logDate : string;
  logNow : Z;
  catchDate : string;
  catchNow : Z;
}.

(** What one call of the handler does to its collaborators, in order. *)
Inductive Effect : Type :=
| Calls (c : DepCall)
| Logs (e : LogEntry).

Definition is_Logs (e : Effect) : bool :=
  match e with
  | Logs _ => true
  | Calls _ => false
  end.

(** [`${server.status}`] *)
Definition status_name (s : ServerStatus) : string :=
  match s with
  | running => "running"
  | starting => "starting"
  | stopping => "stopping"
  | stopped => "stopped"
  | error => "error"
  end.

(** [args.k as string]: a property read at the type the handler casts it
    to.  Absent and falsy values read as absent; a truthy value that is not a
    string is outside the types of the handler, see [reads_strings]. *)
Definition arg_string (k : string) (args : list (string * Json))
  : option string :=
  match obj_get k args with
  | Some (JStr s) => Some s
  | _ => None
  end.

(** The arguments are within the handler's types at property [k]. *)
Definition reads_string (k : string) (args : list (string * Json)) : Prop :=
  match obj_get k args with
  | Some v => truthy v = true → ∃ s, v = JStr s
  | None => True
  end.

(** Property [k] is absent from the arguments, or falsy. *)
Definition falsy_or_absent (k : string) (args : list (string * Json)) : Prop :=
  match obj_get k args with
  | Some v => truthy v = false
  | None => True
  end.

Definition reads_strings (args : list (string * Json)) : Prop :=
  reads_string "mcpName" args ∧ reads_string "toolName" args
  ∧ reads_string "projectId" args.

Section Handler.

(** The service's dependencies, the logging collaborator (which may throw)
    and the built-in [JSON.stringify]. *)
Variable deps : EntryMCPServiceDeps.
Variable recordMcpRequestLog : LogEntry -> option JsError.
Variable JSON_stringify : Json -> string.

(** *** [formatListResult] *)

Definition format_tool (tool : MCPToolInfo) : string :=
  "### " ++ tool_name tool ++ LF
  ++ str_or (tool_description tool) "无描述" ++ LF
  ++ match tool_inputSchema tool with
     | Some schema =>
         if truthy schema then
           "参数格式: `" ++ JSON_stringify schema ++ "`" ++ LF
         else EmptyString
     | None => EmptyString
     end
  ++ LF.

Definition format_tools (tools : list MCPToolInfo) : string :=
  fold_left (fun output tool => output ++ format_tool tool) tools EmptyString.

Definition format_server (server : MCPServerInfo) : string :=
  "# " ++ info_name server ++ LF
  ++ str_or (info_description server) "无描述" ++ LF
  ++ "状态: " ++ status_name (info_status server) ++ " | 工具数量: "
  ++ pretty (info_toolCount server) ++ LF ++ LF
  ++ match info_tools server with
     | Some (tool :: tools) =>
         "可以使用 call_mcp_tool 调用以下工具（mcpName: " ++ dquote
         ++ info_name server ++ dquote ++ "）:" ++ LF ++ LF
         ++ "## 工具列表:" ++ LF ++ LF
         ++ format_tools (tool :: tools)
     | _ => EmptyString
     end.

Definition formatListResult (result : ListMCPToolsResult) : string :=
  if str_truthy (lr_message result) then
    str_or (lr_message result) EmptyString
  else
    match servers result with
    | [] => "未找到MCP服务器"
    | _ =>
        fold_left (fun output server => output ++ format_server server)
                  (servers result) EmptyString
    end.

(** *** The [CallToolRequestSchema] handler *)

Definition error_result (text : string) : CallMCPToolResult :=
  {| content := [text_item (Some text)]; isError := true; errorCode := None |}.

(** A service operation run inside the handler. *)
Definition in_handler {A} (m : M A) : (JsError + A) * list Effect :=
  let '(r, calls) := m [] in (r, map Calls calls).

(** The handler's [catch]: the failure is logged and answered as an error
    result; a failure of that logging is not caught. *)
Definition catch_block (toolName : string) (args : list (string * Json))
    (clock : Clock) (thrown : JsError) (done : list Effect)
  : (JsError + CallMCPToolResult) * list Effect :=
  let entry :=
    {| log_timestamp := catchDate clock;
       log_requestType := "EntryMCP:" ++ toolName;
       log_params := JObj args;
       log_result := "error";
       log_errorMessage := Some (message thrown);
       log_duration := (catchNow clock - startTime clock)%Z;
       log_clientId := "entry-mcp" |} in
  match recordMcpRequestLog entry with
  | Some e => (inl e, (done ++ [Logs entry])%list)
  | None =>
      (inr (error_result ("Error: " ++ message thrown)),
       (done ++ [Logs entry])%list)
  end.

(** [args.arguments || {}] *)
Definition tool_arguments (args : list (string * Json)) : Json :=
  match obj_get "arguments" args with
  | Some v => if truthy v then v else JObj []
  | None => JObj []
  end.

Definition callToolHandler (toolName : string)
    (arguments : option (list (string * Json))) (clock : Clock)
  : (JsError + CallMCPToolResult) * list Effect :=
  let args := default [] arguments in
  if String.eqb toolName "list_mcp_tools" then
    match
      in_handler
        (listMCPTools deps {| lp_mcpName := arg_string "mcpName" args;
                              lp_projectId := arg_string "projectId" args |})
    with
    | (inl thrown, done) => catch_block toolName args clock thrown done
    | (inr result, done) =>
        let formattedOutput := formatListResult result in
        let entry :=
          {| log_timestamp := logDate clock;
             log_requestType := "EntryMCP:list_mcp_tools";
             log_params := JObj args;
             log_result := "success";
             log_errorMessage := None;
             log_duration := (logNow clock - startTime clock)%Z;
             log_clientId := "entry-mcp" |} in
        match recordMcpRequestLog entry with
        | Some thrown =>
            catch_block toolName args clock thrown
                        (done ++ [Logs entry])%list
        | None =>
            (inr {| content := [text_item (Some formattedOutput)];
                    isError := false; errorCode := None |},
             (done ++ [Logs entry])%list)
        end
    end
  else if String.eqb toolName "call_mcp_tool" then
    let mcpName := arg_string "mcpName" args in
    let targetToolName := arg_string "toolName" args in
    let toolArgs := tool_arguments args in
    if negb (str_truthy mcpName) || negb (str_truthy targetToolName) then
      (inr (error_result "Error: mcpName and toolName are required"), [])
    else
      let mcpName := str_or mcpName EmptyString in
      let targetToolName := str_or targetToolName EmptyString in
      match
        in_handler
          (callMCPTool deps {| cp_mcpName := mcpName;
                               cp_toolName := targetToolName;
                               cp_arguments := toolArgs |})
      with
      | (inl thrown, done) => catch_block toolName args clock thrown done
      | (inr result, done) =>
          let entry :=
            {| log_timestamp := logDate clock;
               log_requestType :=
                 "EntryMCP:call_mcp_tool(" ++ mcpName ++ "/"
                 ++ targetToolName ++ ")";
               log_params :=
                 JObj [ ("mcpName", JStr mcpName);
                        ("toolName", JStr targetToolName);
                        ("arguments", toolArgs) ];
               log_result := if isError result then "error" else "success";
               log_errorMessage := None;
               log_duration := (logNow clock - startTime clock)%Z;
               log_clientId := "entry-mcp" |} in
          match recordMcpRequestLog entry with
          | Some thrown =>
              catch_block toolName args clock thrown
                          (done ++ [Logs entry])%list
          | None => (inr result, (done ++ [Logs entry])%list)
          end
      end
  else (inr (error_result ("Unknown tool: " ++ toolName)), []).

End Handler.

(** A logging collaborator that never fails, one that always does, and a
    clock. *)
Definition quiet_log (e : LogEntry) : option JsError := None.

(** A logging collaborator that fails on the records of successes only. *)
Definition picky_log (e : LogEntry) : option JsError :=
  if String.eqb (log_result e) "success" then
    Some {| message := "log store full"; status := None |}
  else None.

Definition broken_log (e : LogEntry) : option JsError :=
  Some {| message := "log store closed"; status := None |}.

Definition noon : Clock :=
  {| startTime := 1000; logDate := "2026-01-16T12:00:00.000Z";
     logNow := 1005; catchDate := "2026-01-16T12:00:00.001Z";
     catchNow := 1006 |}.

(** A registry that serves the [filesystem] scenario. *)
Definition working_backend : EntryMCPServiceDeps :=
  {| getServers := [filesystem];
     getServerTools := fun _ => inr filesystem_tools;
     callTool :=
       fun _ _ _ =>
         inr {| raw_content := Some [RawString "file content"];
                raw_isError := None |} |}.

End EntryHandler.

(** ** The wiring of the facade to the server manager
    (the constructor of [MCPHttpServer]) *)

Module Wiring.
Import EntryService.

(** A connected client: [client.callTool({name, arguments}, undefined,
    {timeout, resetTimeoutOnProgress})]. *)
Record Client : Type := {
  client_callTool :
    string -> Json -> Z -> bool -> JsError + RawToolResult;
}.

(** [serverManager.getMaps()]: the servers by identifier in the order they
    were added, the identifier of each name, the client of each connected
    server. *)
Record Maps : Type := {
  maps_servers : list (string * MCPServer);
  serverNameToIdMap : gmap string string;
  clients : gmap string Client;
}.

Record MCPServerManager : Type := {
  getMaps : Maps;
  listServerTools : string -> JsError + list MCPToolInfo;
}.

Definition server_not_found (serverName : string) : JsError :=
  {| message := "Server not found: " ++ serverName; status := None |}.

Definition server_not_connected (serverName : string) : JsError :=
  {| message := "Server not connected: " ++ serverName; status := None |}.

(** [entryDeps].  The manager's maps are read as they are at the call. *)
Definition entryDeps (serverManager : MCPServerManager)
  : EntryMCPServiceDeps :=
  {| getServers := map snd (maps_servers (getMaps serverManager));
     getServerTools :=
       fun serverId =>
         match listServerTools serverManager serverId with
         | inl e => inl e
         | inr tools =>
             inr (map (fun t =>
                         {| tool_name := tool_name t;
                            tool_description := tool_description t;
                            tool_inputSchema := tool_inputSchema t |})
                      tools)
         end;
     callTool :=
       fun serverName toolName args =>
         match serverNameToIdMap (getMaps serverManager) !! serverName with
         | None | Some EmptyString => inl (server_not_found serverName)
         | Some serverId =>
             match clients (getMaps serverManager) !! serverId with
             | None => inl (server_not_connected serverName)
             | Some client =>
                 client_callTool client toolName args (60 * 60 * 1000) true
             end
         end |}.

(** A manager that knows [filesystem] and its tools but holds no client for
    it. *)
Definition disconnected_manager : MCPServerManager :=
  {| getMaps :=
       {| maps_servers := [("server-1", filesystem)];
          serverNameToIdMap := {[ "filesystem" := "server-1" ]};
          clients := ∅ |};
     listServerTools := fun _ => inr filesystem_tools |}.

End Wiring.

(** ** Reading what the router attached and stored *)

Module RouterSpec.
Import HttpServer.

(** [payload.params._meta] *)
Definition meta_of (payload : list (string * Json)) : option Json :=
  match obj_get "params" payload with
  | Some (JObj fields) => obj_get "_meta" fields
  | Some (JArr _ props) => obj_get "_meta" props
  | _ => None
  end.

(** [params] is an object (an array is one), or there is none. *)
Definition attachable (payload : list (string * Json)) : bool :=
  match obj_get "params" payload with
  | None | Some JUndefined | Some (JObj _) | Some (JArr _ _) => true
  | Some _ => false
  end.

(** The request [req] as the authentication middleware hands it on when
    its authorization header is [token]. *)
Definition with_bare_token (req : Request) (token : string) : Request :=
  if startsWith "Bearer " token then
    {| req_method := req_method req;
       req_path := req_path req;
       req_headers :=
         <["authorization" := HStr (substring_from 7 token)]>
           (req_headers req);
       req_query := req_query req;
       req_body := req_body req;
       req_body_error := req_body_error req |}
  else req.

(** The invariant of the Session Table: both maps hold the same sessions,
    and each transport is stored under its own identifier. *)
Definition table_ok (st : ServerState) : Prop :=
  dom (sseSessions st) = dom (sseSessionProjects st)
  ∧ ∀ k transport, sseSessions st !! k = Some transport →
                   transport = new_transport k.

(** A validator that accepts every token, the empty one included. *)
Definition open_door : Env :=
  {| PROJECT_HEADER := "x-mcpr-project";
     UNASSIGNED_PROJECT_ID := "__unassigned__";
     validateToken := fun _ => {| isValid := true; tv_error := None |};
     findByName := fun _ => None;
     isRemoteWorkspace := false;
     waitForInit := None;
     entry_handleRequest := fun _ _ res => (None, res);
     aggregator_handleRequest := fun _ _ res => (None, res);
     aggregator_connect := quiet_connect;
     handlePostMessage := fun _ _ _ res => (None, res) |}.

(** A facade whose server failed to initialise. *)
Definition uninitialised_env : Env :=
  {| PROJECT_HEADER := "x-mcpr-project";
     UNASSIGNED_PROJECT_ID := "__unassigned__";
     validateToken := validateToken local_env;
     findByName := findByName local_env;
     isRemoteWorkspace := false;
     waitForInit := Some {| message := "init failed"; status := None |};
     entry_handleRequest := fun _ _ res => (None, res);
     aggregator_handleRequest := fun _ _ res => (None, res);
     aggregator_connect := quiet_connect;
     handlePostMessage := fun _ _ _ res => (None, res) |}.

(** A message for session [abc] that carries the sentinel for
    "unassigned", and the session [abc] scoped to project [p-alpha]. *)
Definition unassigned_message (token : string) : Request :=
  request POST "/mcp/messages"
    [ ("authorization", HStr token);
      ("x-mcpr-project", HStr "__unassigned__") ]
    [("sessionId", "abc")] tools_call.

Definition scoped_session : ServerState :=
  {| sseSessions := {[ "abc" := new_transport "abc" ]};
     sseSessionProjects := {[ "abc" := Some "p-alpha" ]} |}.

(** A message without session identifier. *)
Definition anonymous_message (token : string) : Request :=
  request POST "/mcp/messages" [("authorization", HStr token)] [] tools_call.

(** A message that names session [gone] in its query string and session
    [abc] in its session header. *)
Definition two_keyed_message (token : string) : Request :=
  request POST "/mcp/messages"
    [ ("authorization", HStr token); ("mcp-session-id", HStr "abc") ]
    [("sessionId", "gone")] tools_call.

End RouterSpec.

(** * Facts about strings *)

Lemma prefix_refl (s : string) : String.prefix s s = true.
Proof.
  induction s as [|c s IH]; simpl; [reflexivity |].
  destruct (ascii_dec c c); [exact IH | contradiction].
Qed.

Lemma contains_refl (s : string) : contains s s = true.
Proof.
  destruct s as [|c s]; [reflexivity |].
  change (contains (String c s) (String c s))
    with (String.prefix (String c s) (String c s)
          || contains (String c s) s).
  rewrite prefix_refl. reflexivity.
Qed.

Lemma contains_suffix (pre s : string) : contains s (pre ++ s) = true.
Proof.
  induction pre as [|c pre IH].
  - apply contains_refl.
  - change (contains s (String c pre ++ s))
      with (String.prefix s (String c (pre ++ s)) || contains s (pre ++ s)).
    rewrite IH. apply orb_true_r.
Qed.

Lemma contains_prefix_app (s post : string) : contains s (s ++ post) = true.
Proof.
  assert (String.prefix s (s ++ post) = true) as H.
  { induction s as [|c s IH]; simpl; [destruct post; reflexivity |].
    destruct (ascii_dec c c); [exact IH | contradiction]. }
  destruct (s ++ post); simpl in *; rewrite H; reflexivity.
Qed.

Lemma contains_app_l (s pre hay : string) :
  contains s hay = true → contains s (pre ++ hay) = true.
Proof.
  intros H. induction pre as [|c pre IH]; [exact H |].
  change (contains s (String c pre ++ hay))
    with (String.prefix s (String c (pre ++ hay)) || contains s (pre ++ hay)).
  rewrite IH. apply orb_true_r.
Qed.

Lemma contains_infix (s pre post : string) :
  contains s (pre ++ s ++ post) = true.
Proof. apply contains_app_l, contains_prefix_app. Qed.

Lemma prefix_app (s a b : string) :
  String.prefix s a = true → String.prefix s (a ++ b) = true.
Proof.
  revert a. induction s as [|c s IH]; intros a;
    [intros _; destruct (a ++ b); reflexivity |].
  destruct a as [|c' a]; simpl; [discriminate |].
  destruct (ascii_dec c c'); [apply IH | discriminate].
Qed.

Lemma contains_of_prefix (s hay : string) :
  String.prefix s hay = true → contains s hay = true.
Proof. intros H. destruct hay; simpl in *; rewrite H; reflexivity. Qed.

Lemma contains_app_r (s a b : string) :
  contains s a = true → contains s (a ++ b) = true.
Proof.
  induction a as [|c a IH].
  - intros H. apply contains_of_prefix.
    apply (prefix_app s EmptyString b).
    destruct s; [reflexivity | discriminate].
  - change (contains s (String c a))
      with (String.prefix s (String c a) || contains s a).
    change (contains s (String c a ++ b))
      with (String.prefix s (String c a ++ b) || contains s (a ++ b)).
    intros H. apply orb_prop in H as [H | H].
    + rewrite (prefix_app _ _ b H). reflexivity.
    + rewrite (IH H). apply orb_true_r.
Qed.

(** A loop that appends to its output keeps what the output holds, and
    holds what each round appends. *)
Lemma loop_keeps {A} (f : A -> string) (s : string) (l : list A)
    (output : string) :
  contains s output = true →
  contains s (fold_left (fun out x => out ++ f x) l output) = true.
Proof.
  revert output. induction l as [|x l IH]; intros output H; [exact H |].
  simpl. apply IH, contains_app_r, H.
Qed.

Lemma loop_holds {A} (f : A -> string) (s : string) (l : list A) (x : A)
    (output : string) :
  In x l → contains s (f x) = true →
  contains s (fold_left (fun out y => out ++ f y) l output) = true.
Proof.
  revert output. induction l as [|y l IH]; intros output Hin Hx;
    [contradiction |].
  simpl. destruct Hin as [-> | Hin].
  - apply loop_keeps, contains_app_l, Hx.
  - apply IH; assumption.
Qed.

(** * Properties of the entry facade service *)

Module EntryServiceProps.
Import EntryService.

(** Unfolding the service's monad down to pairs of outcome and trace. *)
Ltac run_service :=
  cbv [listMCPTools callMCPTool validateCallParams mbind M_bind bind mret
       M_ret ret try_catch deps_getServers deps_getServerTools deps_callTool
       invoke invalid].

Lemma no_callTool_fetch (serverId : string) :
  no_callTool [CallGetServers; CallGetServerTools serverId].
Proof. repeat constructor. Qed.

Lemma no_callTool_servers : no_callTool [CallGetServers].
Proof. repeat constructor. Qed.

Create HintDb service.
#[local] Hint Resolve no_callTool_fetch no_callTool_servers : service.



(** Validation itself never throws. *)
Lemma validateCallParams_cases (deps : EntryMCPServiceDeps)
    (params : CallMCPToolParams) (t : list DepCall) :
  ∃ v t', validateCallParams deps params t = (inr v, t').
Proof.
  run_service.
  destruct (find _ (getServers deps)) as [server|]; [| eauto].
  destruct (negb _); [eauto |].
  destruct (is_disabled server); [eauto |].
  destruct (getServerTools deps (srv_id server)) as [e|tools]; [eauto |].
  destruct (find _ tools); [| eauto].
  destruct (permission_denied _ _); eauto.
Qed.

(** The service never throws: whatever the registry does, call-one-tool
    returns a result. *)
Lemma callMCPTool_total (deps : EntryMCPServiceDeps)
    (params : CallMCPToolParams) (t : list DepCall) :
  ∃ result, fst (callMCPTool deps params t) = inr result.
Proof.
  unfold callMCPTool. cbv [mbind M_bind bind].
  destruct (validateCallParams_cases deps params t) as (v & t' & ->).
  destruct (negb (valid v)); [cbn; eauto |].
  run_service. destruct (callTool deps _ _ _); cbn; eauto.
Qed.

(** C2.  When a call passes validation and the registry's call primitive
    throws, call-one-tool still returns (the outcome is a result, not a
    thrown error): a result with [isError] true, code [CALL_FAILED] and one
    content item, of type [text], whose text is [Error: ] followed by the
    thrown message, and so holds that message. *)
Theorem callMCPTool_call_failed
    (deps : EntryMCPServiceDeps) (params : CallMCPToolParams)
    (t : list DepCall) (validation : Validation) (e : JsError)
    (Hvalidated : fst (validateCallParams deps params t) = inr validation)
    (Hvalid : valid validation = true)
    (Hthrows : callTool deps (cp_mcpName params) (cp_toolName params)
                        (cp_arguments params) = inl e) :
  ∃ result item text,
    fst (callMCPTool deps params t) = inr result
    ∧ isError result = true
    ∧ errorCode result = Some "CALL_FAILED"
    ∧ content result = [item]
    ∧ c_type item = "text"
    ∧ c_text item = Some text
    ∧ c_data item = None
    ∧ c_mimeType item = None
    ∧ text = "Error: " ++ message e
    ∧ contains (message e) text = true.
Proof.
  assert (fst (callMCPTool deps params t)
          = inr {| content := [text_item (Some ("Error: " ++ message e))];
                   isError := true;
                   errorCode := Some "CALL_FAILED" |}) as Hresult.
  { revert Hvalidated. run_service.
    destruct (validateCallParams_cases deps params t) as [v' [t' Hv]].
    revert Hv. run_service. intros ->. cbn. intros [= ->].
    rewrite Hvalid. cbn. rewrite Hthrows. reflexivity. }
  eexists _, _, _. split; [exact Hresult |].
  repeat (split; [reflexivity |]). apply contains_suffix.
Qed.

Lemma callMCPTool_call_failed_witness :
  ∃ result item text,
    fst (callMCPTool (failing_backend "backend timed out") read_file_call [])
    = inr result
    ∧ isError result = true
    ∧ errorCode result = Some "CALL_FAILED"
    ∧ content result = [item]
    ∧ c_type item = "text"
    ∧ c_text item = Some text
    ∧ c_data item = None
    ∧ c_mimeType item = None
    ∧ text = "Error: " ++ "backend timed out"
    ∧ contains "backend timed out" text = true.
Proof.
  apply (callMCPTool_call_failed (failing_backend "backend timed out")
           read_file_call [] read_file_validated
           {| message := "backend timed out"; status := None |});
    reflexivity.
Defined.

(** C6 (as amended).  Every empty-result branch of
    enumerate-tools-for-one-server returns [servers = []] with a non-empty
    message and is a result, never a thrown error: without a server name the
    message is the fixed guidance text, whatever the registry holds; when no
    known server has that name, is running and is not disabled, the message
    names the server; when fetching the tool list throws, the message names
    the server.  (No message names the partition.)  Otherwise one server
    descriptor is returned. *)
Theorem listMCPTools_branches
    (deps : EntryMCPServiceDeps) (params : ListMCPToolsParams)
    (t : list DepCall) :
  match lp_mcpName params with
  | None | Some EmptyString =>
      ∃ msg,
        listMCPTools deps params t
        = (inr {| servers := []; lr_message := Some msg |}, t)
        ∧ msg = "请查看mcp-router技能" ∧ msg ≠ EmptyString
  | Some mcpName =>
      match find (callable_as mcpName) (getServers deps) with
      | None =>
          ∃ msg,
            listMCPTools deps params t
            = (inr {| servers := []; lr_message := Some msg |},
               (t ++ [CallGetServers])%list)
            ∧ msg = "MCP服务器 " ++ dquote ++ mcpName ++ dquote
                    ++ " 未找到或未运行"
            ∧ msg ≠ EmptyString ∧ contains mcpName msg = true
      | Some server =>
          match getServerTools deps (srv_id server) with
          | inl _ =>
              ∃ msg,
                listMCPTools deps params t
                = (inr {| servers := []; lr_message := Some msg |},
                   (t ++ [CallGetServers;
                          CallGetServerTools (srv_id server)])%list)
                ∧ msg = "获取 " ++ dquote ++ mcpName ++ dquote
                        ++ " 的工具列表失败"
                ∧ msg ≠ EmptyString ∧ contains mcpName msg = true
          | inr tools =>
              ∃ info,
                fst (listMCPTools deps params t)
                = inr {| servers := [info]; lr_message := None |}
                ∧ info_name info = srv_name server
                ∧ info_toolCount info = length tools
                ∧ info_tools info = Some tools
          end
      end
  end.
Proof.
  run_service. unfold callable_as.
  destruct (lp_mcpName params) as [[|c name]|]; cbn.
  1, 3: eexists; split; [reflexivity | split; [reflexivity | discriminate]].
  destruct (find _ (getServers deps)) as [server|]; cbn.
  - destruct (getServerTools deps (srv_id server)) as [e|tools]; cbn;
      rewrite <- ?app_assoc; cbn.
    + eexists. split; [reflexivity |]. split; [reflexivity |].
      split; [discriminate |].
      apply (contains_infix (String c name) ("获取 " ++ dquote)).
    + eexists. repeat split; reflexivity.
  - eexists. split; [reflexivity |]. split; [reflexivity |].
    split; [discriminate |].
    apply (contains_infix (String c name) ("MCP服务器 " ++ dquote)).
Qed.

(** C6, as stated, fails: the not-found message names the server but not the
    partition of the caller. *)
Lemma listMCPTools_message_omits_partition :
  ∃ msg,
    fst (listMCPTools empty_backend ghost_query [])
    = inr {| servers := []; lr_message := Some msg |}
    ∧ contains "ghost" msg = true
    ∧ contains "proj-42" msg = false.
Proof. eexists. split; [reflexivity |]. split; vm_compute; reflexivity. Qed.

End EntryServiceProps.

(** * Properties of the facade's tool listing *)

Module EntryServerProps.
Import EntryServer.

(** C7.  The tool-listing query returns, for every request, exactly the two
    fixed descriptors [list_mcp_tools] and [call_mcp_tool]:
    [list_mcp_tools] takes a required string [mcpName]; [call_mcp_tool]
    takes required strings [mcpName] and [toolName] and an object
    [arguments].  The descriptor of [call_mcp_tool] has no property
    [timeoutSec]. *)
Theorem listToolsHandler_descriptors (request : Json) :
  listToolsHandler request
  = [getListMCPToolsDefinition; getCallMCPToolDefinition]
  ∧ map def_name (listToolsHandler request)
    = ["list_mcp_tools"; "call_mcp_tool"]
  ∧ property_names getListMCPToolsDefinition = ["mcpName"]
  ∧ property_type getListMCPToolsDefinition "mcpName" = Some (JStr "string")
  ∧ required_names getListMCPToolsDefinition = [JStr "mcpName"]
  ∧ property_names getCallMCPToolDefinition
    = ["mcpName"; "toolName"; "arguments"]
  ∧ property_type getCallMCPToolDefinition "mcpName" = Some (JStr "string")
  ∧ property_type getCallMCPToolDefinition "toolName" = Some (JStr "string")
  ∧ property_type getCallMCPToolDefinition "arguments" = Some (JStr "object")
  ∧ required_names getCallMCPToolDefinition
    = [JStr "mcpName"; JStr "toolName"]
  ∧ obj_get "timeoutSec" (schema_properties getCallMCPToolDefinition) = None.
Proof. repeat split; reflexivity. Qed.

End EntryServerProps.

(** * Properties of the dispatch router *)

Module HttpServerProps.
Import HttpServer RouterSpec.

Lemma route_is_mounted (r : Route) : mounted_at "/mcp" (route_path r) = true.
Proof. destruct r; reflexivity. Qed.

(** The stack of [configureMiddleware], layer by layer. *)
Lemma middleware_layers (env : Env) (req : Request) (res : Response) :
  run_stack (middleware env) req res
  = match req_body_error req with
    | Some error => Thrown error
    | None =>
        match req_method req with
        | OPTIONS => Finished (preflight res)
        | _ => run_stack (gate env) req res
        end
    end.
Proof.
  unfold middleware. cbn [run_stack mounted]. unfold express_json, cors.
  destruct (req_body_error req); [reflexivity |].
  destruct (req_method req); reflexivity.
Qed.

(** A request on one of the four routes whose body the parser reads comes
    to the gate, and is answered by the gate when the middleware refuses
    it. *)
Lemma gate_refusal (env : Env) (st : ServerState) (sessionId : string)
    (r : Route) (req : Request) (res : Response) :
  on_route r req → req_body_error req = None →
  authMiddleware env req fresh_response = Finished res →
  app env st sessionId req
  = {| out_state := st; out_res := res; out_calls := [] |}.
Proof.
  intros [Hmethod Hpath] Hparsed Hmw. unfold app.
  rewrite middleware_layers, Hparsed, Hmethod.
  assert (run_stack (gate env) req fresh_response = Finished res) as ->.
  { unfold gate. cbn [run_stack mounted].
    rewrite Hpath, route_is_mounted, Hmw. reflexivity. }
  destruct r; reflexivity.
Qed.

(** C3 (as amended).  On each of the four routes, a request whose body the
    JSON parser in front of the gate reads and that carries no authorization
    token is answered 401 and nothing else happens: no transport is called
    and the Session Table is as before.  A token the Credential Validator
    rejects is answered 401 as well, with the validator's reason when it
    gives one (a fixed text otherwise).  A request whose body the parser
    cannot read never comes to the gate: it is answered with the status of
    the parser's error, token or no token, and here too no transport is
    called and the table is as before. *)
Theorem auth_gate
    (env : Env) (st : ServerState) (sessionId : string) (r : Route)
    (req : Request) (Hroute : on_route r req) :
  (req_body_error req = None →
   ((req_headers req !! "authorization" = None
     ∨ req_headers req !! "authorization" = Some (HStr EmptyString)) →
    app env st sessionId req
    = unauthorized st "Authentication required. Please provide a valid token."
    ∧ statusCode (out_res (app env st sessionId req)) = 401
    ∧ res_sent (out_res (app env st sessionId req))
      = [SentJson
           (JObj [("error",
                   JStr "Authentication required. Please provide a valid token.")])]
    ∧ out_calls (app env st sessionId req) = []
    ∧ out_state (app env st sessionId req) = st)
   ∧ (∀ token,
         req_headers req !! "authorization" = Some (HStr token) →
         token ≠ EmptyString →
         isValid (validateToken env (bearer_token token)) = false →
         app env st sessionId req
         = unauthorized st
             (str_or (tv_error (validateToken env (bearer_token token)))
                     "Invalid token. Authentication failed.")
         ∧ statusCode (out_res (app env st sessionId req)) = 401
         ∧ out_calls (app env st sessionId req) = []
         ∧ out_state (app env st sessionId req) = st
         ∧ (∀ reason,
               tv_error (validateToken env (bearer_token token)) = Some reason →
               reason ≠ EmptyString →
               app env st sessionId req = unauthorized st reason
               ∧ res_sent (out_res (app env st sessionId req))
                 = [SentJson (JObj [("error", JStr reason)])])
         ∧ (tv_error (validateToken env (bearer_token token)) = None
            ∨ tv_error (validateToken env (bearer_token token))
              = Some EmptyString →
            res_sent (out_res (app env st sessionId req))
            = [SentJson
                 (JObj [("error",
                         JStr "Invalid token. Authentication failed.")])])))
  ∧ (∀ error,
        req_body_error req = Some error →
        statusCode (out_res (app env st sessionId req)) = final_status error
        ∧ out_calls (app env st sessionId req) = []
        ∧ out_state (app env st sessionId req) = st).
Proof.
  split.
  - intros Hparsed. split.
    + intros Hnone.
      rewrite (gate_refusal env st sessionId r req
                 (respond 401
                    (error_body
                       "Authentication required. Please provide a valid token.")
                    fresh_response) Hroute Hparsed).
      * repeat split.
      * unfold authMiddleware. destruct Hnone as [-> | ->]; reflexivity.
    + intros token Htoken Hne Hinvalid.
      rewrite (gate_refusal env st sessionId r req
                 (respond 401
                    (error_body
                       (str_or
                          (tv_error (validateToken env (bearer_token token)))
                          "Invalid token. Authentication failed."))
                    fresh_response) Hroute Hparsed).
      * repeat split.
        -- rewrite H. destruct reason; [contradiction | reflexivity].
        -- cbn. rewrite H. destruct reason; [contradiction | reflexivity].
        -- intros [-> | ->]; reflexivity.
      * unfold authMiddleware. rewrite Htoken.
        destruct token as [|c token]; [contradiction |].
        rewrite Hinvalid. reflexivity.
  - intros error Herror. unfold app.
    rewrite middleware_layers, Herror. repeat split.
Qed.

Lemma auth_gate_witness :
  app local_env initial_state "abc" (request GET "/mcp/sse" [] [] JNull)
  = unauthorized initial_state
      "Authentication required. Please provide a valid token."
  ∧ app local_env initial_state "abc"
        (request POST "/mcp" [("authorization", HStr "Bearer wrong")] []
                 tools_call)
    = unauthorized initial_state "Token not found"
  ∧ statusCode (out_res (app local_env initial_state "abc" malformed_request))
    = 400.
Proof.
  split; [| split].
  - apply (proj1 (proj1 (auth_gate local_env initial_state "abc" StreamOpen
                           (request GET "/mcp/sse" [] [] JNull)
                           (conj eq_refl eq_refl)) eq_refl)).
    left. reflexivity.
  - apply (proj2 (proj1 (auth_gate local_env initial_state "abc" Facade
                           (request POST "/mcp"
                              [("authorization", HStr "Bearer wrong")] []
                              tools_call)
                           (conj eq_refl eq_refl)) eq_refl) "Bearer wrong");
      first [reflexivity | discriminate].
  - apply (proj2 (auth_gate local_env initial_state "abc" Facade
                    malformed_request (conj eq_refl eq_refl))
             {| message := "Unexpected token } in JSON at position 0";
                status := Some 400 |}).
    reflexivity.
Defined.

(** C3, as stated, fails: a facade call without token whose body is not
    JSON is answered 400 by the body parser, which runs before the gate; the
    answer is not the gate's 401. *)
Lemma unparsable_body_is_answered_first :
  on_route Facade malformed_request
  ∧ req_headers malformed_request !! "authorization" = None
  ∧ statusCode (out_res (app local_env initial_state "abc" malformed_request))
    = 400
  ∧ app local_env initial_state "abc" malformed_request
    ≠ unauthorized initial_state
        "Authentication required. Please provide a valid token.".
Proof.
  split; [split; reflexivity |]. split; [reflexivity |].
  split; [reflexivity |]. vm_compute. intros [= H].
Qed.

(** *** What the authentication gate leaves of a request *)

Lemma same_but_token_refl (req : Request) : same_but_token req req.
Proof. repeat split. Qed.

Lemma same_but_token_trans (a b c : Request) :
  same_but_token a b → same_but_token b c → same_but_token a c.
Proof.
  intros (Hm & Hp & Hq & Hb & He & Hh) (Hm' & Hp' & Hq' & Hb' & He' & Hh').
  repeat split; try congruence.
  intros k Hk. rewrite Hh', Hh; auto.
Qed.

Lemma authMiddleware_next (env : Env) (req req' : Request) (res : Response) :
  authMiddleware env req res = Next req' →
  same_but_token req req'
  ∧ ∃ token,
      req_headers req !! "authorization" = Some (HStr token)
      ∧ token ≠ EmptyString
      ∧ isValid (validateToken env (bearer_token token)) = true
      ∧ req_headers req' !! "authorization" = Some (HStr (bearer_token token)).
Proof.
  unfold authMiddleware.
  destruct (req_headers req !! "authorization") as [[token|l]|] eqn:Hheader;
    [| discriminate | discriminate].
  destruct token as [|c token]; [discriminate |].
  destruct (isValid _) eqn:Hvalid; [| discriminate].
  cbn [negb]. unfold bearer_token in *.
  destruct (startsWith "Bearer " (String c token)) eqn:Hprefix;
    intros [= Hreq]; subst req'.
  - split.
    + repeat split. intros k Hk. cbn. apply lookup_insert_ne. congruence.
    + exists (String c token). rewrite Hprefix.
      repeat split; [discriminate | exact Hvalid |].
      cbn. apply lookup_insert_eq.
  - split; [apply same_but_token_refl |].
    exists (String c token). rewrite Hprefix.
    repeat split; [discriminate | exact Hvalid | exact Hheader].
Qed.

Lemma passes_gate_same (env : Env) (req req' : Request) :
  passes_gate env req req' → same_but_token req req'.
Proof.
  unfold passes_gate, gate. cbn [run_stack mounted].
  destruct (mounted_at "/mcp" (req_path req)).
  - destruct (authMiddleware env req fresh_response) as [req1| |] eqn:H1;
      [| discriminate | discriminate].
    apply authMiddleware_next in H1 as [Hsame1 _].
    destruct (mounted_at "/mcp/sse" (req_path req1)).
    + destruct (authMiddleware env req1 fresh_response) as [req2| |] eqn:H2;
        [| discriminate | discriminate].
      apply authMiddleware_next in H2 as [Hsame2 _].
      intros [= <-]. eapply same_but_token_trans; eassumption.
    + intros [= <-]. exact Hsame1.
  - destruct (mounted_at "/mcp/sse" (req_path req)).
    + destruct (authMiddleware env req fresh_response) as [req2| |] eqn:H2;
        [| discriminate | discriminate].
      apply authMiddleware_next in H2 as [Hsame2 _].
      intros [= <-]. exact Hsame2.
    + intros [= <-]. apply same_but_token_refl.
Qed.

(** A request that passes all layers was read by the parser, is no
    preflight, and passes the gate. *)
Lemma authenticated_layers (env : Env) (req req' : Request) :
  authenticated env req req'
  ↔ req_body_error req = None
    ∧ req_method req ≠ OPTIONS
    ∧ passes_gate env req req'.
Proof.
  unfold authenticated, passes_gate. rewrite middleware_layers.
  destruct (req_body_error req).
  { split; [discriminate | intros [H _]; discriminate]. }
  destruct (req_method req);
    (split; [intros H; repeat split; [discriminate | exact H]
            | intros (_ & Hm & H); first [exact H | contradiction]]) ||
    (split; [discriminate | intros (_ & Hm & _); contradiction]).
Qed.

Lemma authenticated_same (env : Env) (req req' : Request) :
  authenticated env req req' → same_but_token req req'.
Proof.
  intros Hauth. apply authenticated_layers in Hauth as (_ & _ & Hgate).
  apply (passes_gate_same env), Hgate.
Qed.

(** The outcome of the application for a request that passed the gate. *)
Lemma app_authenticated (env : Env) (st : ServerState) (sessionId : string)
    (req req' : Request) :
  authenticated env req req' →
  app env st sessionId req = routes env st sessionId req' fresh_response.
Proof. unfold authenticated, app. intros ->. reflexivity. Qed.

Lemma facade_single_layer (env : Env) (req req' : Request) :
  req_path req = "/mcp" → authenticated env req req' →
  authMiddleware env req fresh_response = Next req'.
Proof.
  intros Hpath Hauth. apply authenticated_layers in Hauth as (_ & _ & Hgate).
  revert Hgate. unfold passes_gate, gate. cbn [run_stack mounted].
  rewrite Hpath. change (mounted_at "/mcp" "/mcp") with true. cbn match.
  destruct (authMiddleware env req fresh_response) as [req1| |] eqn:H1;
    [| discriminate | discriminate].
  apply authMiddleware_next in H1 as [(_ & Hpath1 & _) _].
  rewrite Hpath1, Hpath.
  change (mounted_at "/mcp/sse" "/mcp") with false. cbn match. auto.
Qed.

(** C4 (as amended).  A facade call that passes the authentication gate is
    handed to the Entry Facade Server's transport handler with a copy of its
    body to which nothing is attached: an object body is forwarded as it
    came.  The token travels in the request's authorization header, bare of
    its [Bearer ] prefix, and the request is otherwise as it arrived. *)
Theorem facade_forwards_body
    (env : Env) (st : ServerState) (sessionId : string) (req req' : Request)
    (Hroute : on_route Facade req)
    (Hauth : authenticated env req req')
    (Hinit : waitForInit env = None) :
  app env st sessionId req
  = {| out_state := st;
       out_res :=
         guarded 500 internal_error
           (entry_handleRequest env req' (JObj (spread (req_body req)))
                                fresh_response);
       out_calls := [ToEntry req' (JObj (spread (req_body req)))] |}
  ∧ (∀ fields, req_body req = JObj fields →
               JObj (spread (req_body req)) = req_body req)
  ∧ same_but_token req req'
  ∧ ∃ token,
      req_headers req !! "authorization" = Some (HStr token)
      ∧ req_headers req' !! "authorization" = Some (HStr (bearer_token token)).
Proof.
  destruct Hroute as [Hmethod Hpath].
  pose proof (authenticated_same _ _ _ Hauth) as Hsame.
  destruct (Hsame) as (Hm & Hp & _ & Hb & _).
  split; [| split; [| split; [exact Hsame |]]].
  - rewrite (app_authenticated _ _ _ _ _ Hauth).
    unfold routes. rewrite Hm, Hp, Hmethod, Hpath. cbn.
    unfold post_mcp. rewrite Hinit, Hb. reflexivity.
  - intros fields ->. reflexivity.
  - apply facade_single_layer in Hauth; [| exact Hpath].
    apply authMiddleware_next in Hauth as [_ (token & H1 & _ & _ & H2)].
    eauto.
Qed.

Lemma facade_forwards_body_witness :
  app local_env initial_state "abc" facade_request
  = {| out_state := initial_state;
       out_res := fresh_response;
       out_calls := [ToEntry facade_request' tools_call] |}.
Proof.
  refine (proj1 (facade_forwards_body local_env initial_state "abc"
                   facade_request facade_request' _ _ _)).
  - split; reflexivity.
  - vm_compute. reflexivity.
  - reflexivity.
Defined.

(** C4, as stated, fails: the body the facade route forwards carries no
    metadata, where the full-surface route attaches token and partition to
    the same call. *)
Lemma facade_attaches_no_metadata :
  (∃ req' fields params,
      out_calls (app local_env initial_state "abc" facade_request)
      = [ToEntry req' (JObj fields)]
      ∧ obj_get "params" fields = Some (JObj params)
      ∧ obj_get "_meta" params = None)
  ∧ (∃ req' fields params,
        out_calls (app local_env initial_state "abc" aggregator_request)
        = [ToAggregator req' (JObj fields)]
        ∧ obj_get "params" fields = Some (JObj params)
        ∧ obj_get "_meta" params
          = Some (JObj [ ("token", JStr "secret");
                         ("projectId", JStr "p-alpha") ])).
Proof.
  split; eexists _, _, _; (split; [vm_compute; reflexivity |]);
    split; reflexivity.
Qed.

(** C5 (as amended).  On a stream-open that passes the gates and whose
    connect succeeds, the gateway writes one frame to the channel: the
    message carrying the session identifier.  It follows whatever the
    transport wrote while connecting, and is the first frame on the channel
    when the transport wrote nothing. *)
Theorem stream_open_session_frame
    (env : Env) (st : ServerState) (sessionId : string) (req req' : Request)
    (resolution : Resolution) (res' : Response)
    (Hroute : on_route StreamOpen req)
    (Hauth : authenticated env req req')
    (Hresolved :
       resolveProjectFilter env req' (isRemoteWorkspace env) = inr resolution)
    (Hconnected :
       aggregator_connect env (new_transport sessionId)
                          (event_stream_headers fresh_response)
       = (None, res')) :
  res_sent (out_res (app env st sessionId req))
  = (res_sent res' ++ [SentText (session_frame sessionId)])%list
  ∧ (res_sent res' = [] →
     head (res_sent (out_res (app env st sessionId req)))
     = Some (SentText (session_frame sessionId)))
  ∧ contains (json_quote sessionId) (session_frame sessionId) = true.
Proof.
  destruct Hroute as [Hmethod Hpath].
  destruct (authenticated_same _ _ _ Hauth) as (Hm & Hp & _ & _ & _).
  assert (out_res (app env st sessionId req)
          = write (session_frame sessionId) res') as Hout.
  { rewrite (app_authenticated _ _ _ _ _ Hauth).
    unfold routes. rewrite Hm, Hp, Hmethod, Hpath. cbn.
    unfold get_mcp_sse. rewrite Hresolved, Hconnected. reflexivity. }
  rewrite Hout. split; [reflexivity |]. split.
  - cbn. intros ->. reflexivity.
  - unfold session_frame.
    apply (contains_app_l _ "data: "), (contains_app_l _ "{"),
      (contains_app_l _ (json_quote "sessionId")), (contains_app_l _ ":").
    apply contains_prefix_app.
Qed.

Lemma stream_open_session_frame_witness :
  res_sent (out_res (app local_env initial_state "abc" open_request))
  = [SentText (session_frame "abc")]
  ∧ (@nil Sent = [] →
     head (res_sent (out_res (app local_env initial_state "abc" open_request)))
     = Some (SentText (session_frame "abc")))
  ∧ contains (json_quote "abc") (session_frame "abc") = true.
Proof.
  refine (stream_open_session_frame local_env initial_state "abc"
            open_request open_request'
            {| projectId := Some "p-alpha"; provided := true |}
            (event_stream_headers fresh_response) _ _ _ _).
  - split; reflexivity.
  - vm_compute. reflexivity.
  - vm_compute. reflexivity.
  - reflexivity.
Defined.

(** C5, as stated, fails: when the transport announces its endpoint while
    connecting, as the SDK's does, that frame is first on the channel and
    the session message second. *)
Lemma session_frame_follows_endpoint_frame :
  res_sent (out_res (app (make_env false announcing_connect) initial_state
                         "abc" open_request))
  = [ SentText (endpoint_frame (new_transport "abc"));
      SentText (session_frame "abc") ]
  ∧ head (res_sent (out_res (app (make_env false announcing_connect)
                                 initial_state "abc" open_request)))
    ≠ Some (SentText (session_frame "abc")).
Proof.
  split; [vm_compute; reflexivity |].
  vm_compute. intros [= H].
Qed.

(** *** Partition resolution *)

(** What [resolveProjectFilter] answers for a header that names a
    partition. *)
Lemma resolve_named (env : Env) (req : Request) (value : string)
    (skipValidation : bool) :
  names_partition env req value →
  resolveProjectFilter env req skipValidation
  = if skipValidation then inr {| projectId := Some value; provided := true |}
    else match findByName env value with
         | Some byName =>
             inr {| projectId := Some (project_id byName); provided := true |}
         | None => inl (not_found_error value)
         end.
Proof.
  intros (raw & Hraw & Htrim & Hne & Hnu). unfold resolveProjectFilter.
  assert (∃ hv, req_headers req !! PROJECT_HEADER env = Some hv
                ∧ match hv with HArr l => head l | HStr s => Some s end
                  = Some raw) as (hv & -> & ->).
  { destruct (req_headers req !! PROJECT_HEADER env) as [[v|l]|];
      cbn in Hraw; [eauto | eauto | discriminate]. }
  cbn [fmap option_fmap option_map]. rewrite Htrim.
  destruct value as [|c value]; [contradiction |]. cbn [str_truthy negb str_or].
  apply String.eqb_neq in Hnu. rewrite Hnu. reflexivity.
Qed.

Lemma names_partition_same (env : Env) (req req' : Request) (value : string) :
  PROJECT_HEADER env ≠ "authorization" →
  same_but_token req req' →
  names_partition env req value → names_partition env req' value.
Proof.
  intros Hname (_ & _ & _ & _ & _ & Hheaders) (raw & Hraw & Hrest).
  exists raw. rewrite (Hheaders _ Hname). auto.
Qed.

(** *** The metadata attached to a forwarded call *)

Lemma obj_get_set_eq (k : string) (v : Json) (fields : list (string * Json)) :
  obj_get k (obj_set k v fields) = Some v.
Proof.
  induction fields as [|[k' v'] fields IH]; cbn.
  - rewrite String.eqb_refl. reflexivity.
  - destruct (String.eqb k k') eqn:Hk; cbn.
    + rewrite String.eqb_refl. reflexivity.
    + rewrite Hk. exact IH.
Qed.

Lemma obj_get_set_ne (k k' : string) (v : Json)
    (fields : list (string * Json)) :
  k ≠ k' → obj_get k' (obj_set k v fields) = obj_get k' fields.
Proof.
  intros Hne. induction fields as [|[k0 v0] fields IH]; cbn.
  - apply not_eq_sym, String.eqb_neq in Hne. rewrite Hne. reflexivity.
  - destruct (String.eqb k k0) eqn:Hk; cbn.
    + apply String.eqb_eq in Hk. subst k0.
      apply not_eq_sym, String.eqb_neq in Hne. rewrite Hne. reflexivity.
    + destruct (String.eqb k' k0); [reflexivity | exact IH].
Qed.

Lemma with_meta_token (old : option Json) (token projectId : Json) :
  obj_get "token" (with_meta old token projectId) = Some token.
Proof.
  unfold with_meta. rewrite obj_get_set_ne by discriminate.
  apply obj_get_set_eq.
Qed.

Lemma with_meta_projectId (old : option Json) (token projectId : Json) :
  obj_get "projectId" (with_meta old token projectId) = Some projectId.
Proof. unfold with_meta. apply obj_get_set_eq. Qed.

(** The metadata after attaching, when there is a place for it. *)
Lemma meta_of_attach (payload : list (string * Json))
    (tokenHeader : option HeaderValue) (project : option string) :
  attachable payload = true →
  ∃ old,
    meta_of (attachRequestMetadata payload tokenHeader project)
    = Some (JObj (with_meta old (token_value tokenHeader)
                            (nullable project))).
Proof.
  unfold attachable, meta_of, attachRequestMetadata.
  destruct (obj_get "params" payload) as [[| | | | | items props | fields]|];
    try discriminate; intros _; rewrite obj_get_set_eq.
  - exists None. reflexivity.
  - rewrite obj_get_set_eq. eauto.
  - rewrite obj_get_set_eq. eauto.
  - exists None. reflexivity.
Qed.

(** What is attached, read off the payload. *)
Lemma attached_metadata (payload : list (string * Json))
    (tokenHeader : option HeaderValue) (project : option string) :
  attachable payload = true →
  ∃ meta,
    meta_of (attachRequestMetadata payload tokenHeader project)
    = Some (JObj meta)
    ∧ obj_get "token" meta = Some (token_value tokenHeader)
    ∧ obj_get "projectId" meta = Some (nullable project).
Proof.
  intros Hattachable.
  destruct (meta_of_attach payload tokenHeader project Hattachable)
    as [old Hmeta].
  eexists. split; [exact Hmeta |].
  split; [apply with_meta_token | apply with_meta_projectId].
Qed.

(** The body of the request after the assignment into [params]: with an
    object for [params], shared with the copy, an object body reads as the
    copy does; without [params] the body is as it came. *)
Lemma body_after_attach_shared (fields params : list (string * Json))
    (tokenHeader : option HeaderValue) (project : option string) :
  obj_get "params" fields = Some (JObj params) →
  body_after_attach (JObj fields)
                    (attachRequestMetadata fields tokenHeader project)
  = JObj (attachRequestMetadata fields tokenHeader project).
Proof.
  intros Hparams. unfold body_after_attach, attachRequestMetadata.
  cbn [spread]. rewrite Hparams, obj_get_set_eq. reflexivity.
Qed.

Lemma body_after_attach_absent (body : Json) (payload : list (string * Json)) :
  obj_get "params" (spread body) = None →
  body_after_attach body payload = body.
Proof. intros Hparams. unfold body_after_attach. rewrite Hparams. reflexivity. Qed.

(** What is handed on with the payload: the request, whose body shows the
    metadata when [params] is an object shared with the copy. *)
Lemma forwarded_facts (req' : Request) (body : Json)
    (tokenHeader : option HeaderValue) (project : option string)
    (payload : list (string * Json)) (forwarded : Request) :
  payload = attachRequestMetadata (spread body) tokenHeader project →
  forwarded = with_body req' (body_after_attach body payload) →
  (attachable (spread body) = true →
   ∃ meta,
     meta_of payload = Some (JObj meta)
     ∧ obj_get "token" meta = Some (token_value tokenHeader)
     ∧ obj_get "projectId" meta = Some (nullable project))
  ∧ (∀ fields params,
        body = JObj fields → obj_get "params" fields = Some (JObj params) →
        req_body forwarded = JObj payload)
  ∧ (obj_get "params" (spread body) = None → req_body forwarded = body)
  ∧ req_headers forwarded = req_headers req'.
Proof.
  intros -> ->. split; [apply attached_metadata |]. split; [| split].
  - intros fields params -> Hparams. cbn [with_body req_body spread].
    apply body_after_attach_shared with (params := params), Hparams.
  - intros Hparams. cbn [with_body req_body].
    apply body_after_attach_absent, Hparams.
  - reflexivity.
Qed.

(** C8 (as amended).  A full-surface or stream-open request that passed
    the authentication gate and whose partition header names a partition
    (its first value, trimmed of surrounding white space, is neither empty
    nor the sentinel for "unassigned"):
    - in a workspace that is not remote, when the Partition Resolver does
      not know the name, the answer is status 400 with the resolver's
      message (a JSON-RPC error envelope on the full-surface route, the text
      on the stream), no request or channel is handed to a backend
      connection, and the Session Table is as before;
    - in a remote workspace the resolver is not asked: the trimmed value of
      the header is the partition handed on, whatever the resolver's
      repository holds.  On the full-surface route the call is forwarded
      once, and where its [params] can take metadata, [params._meta.projectId]
      of the forwarded payload is that value (the body of the request handed
      on with it shows the same [params] when the call came with an object
      for them); on the stream-open route that value is stored as the
      partition scope of the new session. *)
Theorem partition_gate
    (env : Env) (st : ServerState) (sessionId : string) (req req' : Request)
    (value : string)
    (Hheader : PROJECT_HEADER env ≠ "authorization")
    (Hauth : authenticated env req req')
    (Hnamed : names_partition env req value) :
  (isRemoteWorkspace env = false → findByName env value = None →
   (on_route FullSurface req →
    app env st sessionId req
    = {| out_state := st;
         out_res :=
           respond 400
             (jsonrpc_error (-32602)
                ("Project " ++ dquote ++ value ++ dquote ++ " not found")
                (id_or_null (spread (req_body req))))
             fresh_response;
         out_calls := [] |}
    ∧ statusCode (out_res (app env st sessionId req)) = 400
    ∧ res_sent (out_res (app env st sessionId req))
      = [SentJson
           (JObj [ ("jsonrpc", JStr "2.0");
                   ("error",
                    JObj [ ("code", JNum (-32602));
                           ("message",
                            JStr ("Project " ++ dquote ++ value ++ dquote
                                  ++ " not found")) ]);
                   ("id", id_or_null (spread (req_body req))) ])])
   ∧ (on_route StreamOpen req →
      app env st sessionId req
      = {| out_state := st;
           out_res :=
             respond 400
               (SentText
                  ("Project " ++ dquote ++ value ++ dquote ++ " not found"))
               (event_stream_headers fresh_response);
           out_calls := [TransportClose (new_transport sessionId)] |}
      ∧ statusCode (out_res (app env st sessionId req)) = 400
      ∧ res_sent (out_res (app env st sessionId req))
        = [SentText
             ("Project " ++ dquote ++ value ++ dquote ++ " not found")]
      ∧ Forall (fun c => is_forward c = false)
               (out_calls (app env st sessionId req))))
  ∧ (isRemoteWorkspace env = true →
     (on_route FullSurface req →
      ∃ forwarded payload,
        out_calls (app env st sessionId req)
        = [ToAggregator forwarded (JObj payload)]
        ∧ out_state (app env st sessionId req) = st
        ∧ payload
          = attachRequestMetadata (spread (req_body req))
              (req_headers req' !! "authorization") (Some value)
        ∧ forwarded
          = with_body req' (body_after_attach (req_body req) payload)
        ∧ (attachable (spread (req_body req)) = true →
           ∃ meta,
             meta_of payload = Some (JObj meta)
             ∧ obj_get "projectId" meta = Some (JStr value))
        ∧ (∀ fields params,
              req_body req = JObj fields →
              obj_get "params" fields = Some (JObj params) →
              req_body forwarded = JObj payload))
     ∧ (on_route StreamOpen req →
        sseSessionProjects (out_state (app env st sessionId req)) !! sessionId
        = Some (Some value)
        ∧ out_calls (app env st sessionId req)
          = [Connect (new_transport sessionId)])).
Proof.
  pose proof (authenticated_same _ _ _ Hauth) as Hsame.
  pose proof (names_partition_same _ _ _ _ Hheader Hsame Hnamed) as Hnamed'.
  destruct Hsame as (Hm & Hp & _ & Hb & _).
  rewrite (app_authenticated _ _ _ _ _ Hauth). unfold routes.
  rewrite Hm, Hp.
  split.
  - intros Hlocal Hunknown. split.
    + intros [-> ->]. cbn [route_method route_path].
      cbn [String.eqb Ascii.eqb Bool.eqb]. unfold post_mcp_aggregator.
      rewrite (resolve_named _ _ _ _ Hnamed'), Hlocal, Hunknown, Hb.
      repeat split.
    + intros [-> ->]. cbn [route_method route_path].
      cbn [String.eqb Ascii.eqb Bool.eqb]. unfold get_mcp_sse.
      rewrite (resolve_named _ _ _ _ Hnamed'), Hlocal, Hunknown.
      split; [reflexivity |]. split; [reflexivity |].
      split; [reflexivity |]. repeat constructor.
  - intros Hremote. split.
    + intros [-> ->]. cbn [route_method route_path].
      cbn [String.eqb Ascii.eqb Bool.eqb]. unfold post_mcp_aggregator.
      rewrite (resolve_named _ _ _ _ Hnamed'), Hremote, Hb.
      cbn [projectId out_calls out_state].
      eexists _, _. split; [reflexivity |]. split; [reflexivity |].
      split; [reflexivity |]. split; [reflexivity |].
      destruct (forwarded_facts req' (req_body req)
                  (req_headers req' !! "authorization") (Some value)
                  _ _ eq_refl eq_refl) as (Hmeta & Hshared & _ & _).
      split; [| exact Hshared]. intros Hattachable.
      destruct (Hmeta Hattachable) as (meta & Hmeta' & _ & Hproject).
      exists meta. split; [exact Hmeta' | exact Hproject].
    + intros [-> ->]. cbn [route_method route_path].
      cbn [String.eqb Ascii.eqb Bool.eqb]. unfold get_mcp_sse.
      rewrite (resolve_named _ _ _ _ Hnamed'), Hremote.
      destruct (aggregator_connect env _ _) as [[e|] res']; cbn;
        (split; [apply lookup_insert_eq | reflexivity]).
Qed.

Lemma ghost_is_named (env : Env) (req : Request) :
  PROJECT_HEADER env = "x-mcpr-project" →
  UNASSIGNED_PROJECT_ID env = "__unassigned__" →
  req_headers req !! "x-mcpr-project" = Some (HStr "ghost") →
  names_partition env req "ghost".
Proof.
  intros Hname Hunassigned Hlookup. exists "ghost".
  rewrite Hname, Hunassigned, Hlookup.
  split; [reflexivity |]. split; [reflexivity |]. split; discriminate.
Defined.

Lemma partition_gate_witness :
  app local_env initial_state "abc" (ghost_aggregator_request "Bearer secret")
  = {| out_state := initial_state;
       out_res :=
         respond 400
           (jsonrpc_error (-32602)
              ("Project " ++ dquote ++ "ghost" ++ dquote ++ " not found")
              (JNum 1))
           fresh_response;
       out_calls := [] |}
  ∧ sseSessionProjects
      (out_state (app remote_env initial_state "abc"
                      (ghost_open_request "Bearer secret"))) !! "abc"
    = Some (Some "ghost").
Proof.
  split.
  - refine (proj1 (proj1 (proj1 (partition_gate local_env initial_state "abc"
                                   (ghost_aggregator_request "Bearer secret")
                                   (ghost_aggregator_request "secret") "ghost"
                                   _ _ _) _ _) _)).
    + discriminate.
    + vm_compute. reflexivity.
    + apply ghost_is_named; reflexivity.
    + reflexivity.
    + reflexivity.
    + split; reflexivity.
  - refine (proj1 (proj2 (proj2 (partition_gate remote_env initial_state "abc"
                                   (ghost_open_request "Bearer secret")
                                   (ghost_open_request "secret") "ghost"
                                   _ _ _) _) _)).
    + discriminate.
    + vm_compute. reflexivity.
    + apply ghost_is_named; reflexivity.
    + reflexivity.
    + split; reflexivity.
Defined.

(** C8, as stated, fails in its last part: in a remote workspace the value
    handed on is not the header's value as it came.  A header that reads
    [ghost] followed by a no-break space is stored as the partition scope
    [ghost], and attached as [ghost] to a forwarded call. *)
Lemma remote_partition_is_trimmed :
  first_value (req_headers (padded_open_request "Bearer secret")
               !! PROJECT_HEADER remote_env)
  = Some ("ghost" ++ NBSP)
  ∧ sseSessionProjects
      (out_state (app remote_env initial_state "abc"
                      (padded_open_request "Bearer secret"))) !! "abc"
    = Some (Some "ghost")
  ∧ (∃ forwarded payload params meta,
        out_calls (app remote_env initial_state "abc"
                       (padded_aggregator_request "Bearer secret"))
        = [ToAggregator forwarded (JObj payload)]
        ∧ obj_get "params" payload = Some (JObj params)
        ∧ obj_get "_meta" params = Some (JObj meta)
        ∧ obj_get "projectId" meta = Some (JStr "ghost"))
  ∧ "ghost" ≠ "ghost" ++ NBSP.
Proof.
  split; [reflexivity |]. split; [vm_compute; reflexivity |].
  split; [| discriminate].
  eexists _, _, _, _. split; [vm_compute; reflexivity |].
  repeat split; reflexivity.
Qed.

Lemma session_key_same (req req' : Request) :
  same_but_token req req' → session_key req' = session_key req.
Proof.
  intros (_ & _ & Hq & _ & _ & Hh). unfold session_key.
  rewrite Hq, (Hh "mcp-session-id"); [reflexivity | discriminate].
Qed.

(** C10.  A stream-message for a live session, past the authentication
    gate, whose own partition header names a partition the Partition
    Resolver does not know, is answered with the client error 400 carrying
    the resolver's message, and is not handed to the session's channel;
    this does not depend on the workspace being remote.  The resolution the
    full-surface and stream-open routes perform accepts the same header in a
    remote workspace. *)
Theorem message_partition_is_validated
    (env : Env) (st : ServerState) (sessionId : string) (req req' : Request)
    (k value : string) (transport : SSEServerTransport)
    (Hheader : PROJECT_HEADER env ≠ "authorization")
    (Hroute : on_route StreamMessage req)
    (Hauth : authenticated env req req')
    (Hkey : session_key req = Key k)
    (Hsession : sseSessions st !! k = Some transport)
    (Hnamed : names_partition env req value)
    (Hunknown : findByName env value = None) :
  app env st sessionId req
  = {| out_state := st;
       out_res :=
         respond 400
           (jsonrpc_error (-32602)
              ("Project " ++ dquote ++ value ++ dquote ++ " not found")
              (id_or_null (spread (req_body req))))
           fresh_response;
       out_calls := [] |}
  ∧ (isRemoteWorkspace env = true →
     resolveProjectFilter env req' (isRemoteWorkspace env)
     = inr {| projectId := Some value; provided := true |}).
Proof.
  pose proof (authenticated_same _ _ _ Hauth) as Hsame.
  pose proof (names_partition_same _ _ _ _ Hheader Hsame Hnamed) as Hnamed'.
  pose proof (session_key_same _ _ Hsame) as Hkey'.
  destruct Hsame as (Hm & Hp & _ & Hb & _). destruct Hroute as [Hmethod Hpath].
  split.
  - rewrite (app_authenticated _ _ _ _ _ Hauth). unfold routes.
    rewrite Hm, Hp, Hmethod, Hpath. cbn. unfold post_mcp_messages.
    rewrite Hkey', Hkey, Hsession, (resolve_named _ _ _ _ Hnamed'), Hunknown, Hb.
    reflexivity.
  - intros ->. apply (resolve_named _ _ _ true Hnamed').
Qed.

Lemma message_partition_is_validated_witness :
  app remote_env one_session "zzz" (ghost_message "Bearer secret")
  = {| out_state := one_session;
       out_res :=
         respond 400
           (jsonrpc_error (-32602)
              ("Project " ++ dquote ++ "ghost" ++ dquote ++ " not found")
              (JNum 1))
           fresh_response;
       out_calls := [] |}.
Proof.
  refine (proj1 (message_partition_is_validated remote_env one_session "zzz"
                   (ghost_message "Bearer secret") (ghost_message "secret")
                   "abc" "ghost" (new_transport "abc") _ _ _ _ _ _ _)).
  - discriminate.
  - split; reflexivity.
  - vm_compute. reflexivity.
  - reflexivity.
  - reflexivity.
  - apply ghost_is_named; reflexivity.
  - reflexivity.
Defined.

(** *** The Session Table *)

(** A request changes the table in one way only. *)
Lemma app_state (env : Env) (st : ServerState) (sessionId : string)
    (req : Request) :
  out_state (app env st sessionId req) = st
  ∨ (on_route StreamOpen req
     ∧ ∃ req' resolution,
         authenticated env req req'
         ∧ resolveProjectFilter env req' (isRemoteWorkspace env)
           = inr resolution
         ∧ out_state (app env st sessionId req)
           = registered st sessionId (projectId resolution)).
Proof.
  unfold app.
  destruct (run_stack (middleware env) req fresh_response)
    as [req'| |error] eqn:Hstack; [| left; reflexivity | left; reflexivity].
  pose proof (authenticated_same env req req' Hstack) as (Hm & Hp & _).
  unfold routes. destruct (req_method req') eqn:Hmethod.
  - destruct (String.eqb (req_path req') "/mcp/sse") eqn:Hpath;
      [| left; reflexivity].
    apply String.eqb_eq in Hpath. unfold get_mcp_sse.
    destruct (resolveProjectFilter env req' (isRemoteWorkspace env))
      as [e|resolution] eqn:Hresolved; [left; reflexivity |].
    right. split; [split; cbn; congruence |].
    exists req', resolution. split; [exact Hstack |].
    split; [exact Hresolved |].
    destruct (aggregator_connect env _ _) as [[e|] res']; reflexivity.
  - left. destruct (String.eqb (req_path req') "/mcp").
    { unfold post_mcp. destruct (waitForInit env); reflexivity. }
    destruct (String.eqb (req_path req') "/mcp/aggregator").
    { unfold post_mcp_aggregator.
      destruct (resolveProjectFilter env req' _); reflexivity. }
    destruct (String.eqb (req_path req') "/mcp/messages"); [| reflexivity].
    unfold post_mcp_messages.
    destruct (session_key req'); try reflexivity.
    destruct (sseSessions st !! sessionId0); [| reflexivity].
    destruct (resolveProjectFilter env req' false); reflexivity.
  - left. reflexivity.
  - left. reflexivity.
Qed.

(** An input that neither opens nor closes [k] leaves its entry alone. *)
Lemma step_lookup (st : ServerState) (i : Input) (k : string) :
  ¬ opens i k → i ≠ ChannelClosed k →
  sseSessions (step st i) !! k = sseSessions st !! k
  ∧ sseSessionProjects (step st i) !! k = sseSessionProjects st !! k.
Proof.
  intros Hopen Hclose. destruct i as [env sessionId req | sessionId]; cbn.
  - destruct (app_state env st sessionId req)
      as [-> | ([Hm Hp] & req' & resolution & _ & _ & ->)]; [auto |].
    assert (sessionId ≠ k) as Hne.
    { intros ->. apply Hopen. exists env, req. auto. }
    cbn. rewrite !lookup_insert_ne by exact Hne. auto.
  - assert (sessionId ≠ k) as Hne by congruence.
    rewrite !lookup_delete_ne by exact Hne. auto.
Qed.

Lemma run_absent (st : ServerState) (inputs : list Input) (k : string) :
  Forall (fun i => ¬ opens i k) inputs →
  sseSessions st !! k = None →
  sseSessions (run st inputs) !! k = None.
Proof.
  unfold run. revert st.
  induction inputs as [|i inputs IH]; intros st Hinputs Habsent;
    [exact Habsent |].
  inversion Hinputs as [|? ? Hi Hrest]; subst. cbn. apply IH; [exact Hrest |].
  assert (i = ChannelClosed k ∨ i ≠ ChannelClosed k) as [-> | Hclose].
  { destruct i as [env sessionId req | sessionId]; [right; discriminate |].
    destruct (decide (sessionId = k)) as [-> | Hne]; [left; reflexivity |].
    right. congruence. }
  - cbn. apply lookup_delete_eq.
  - rewrite (proj1 (step_lookup st i k Hi Hclose)). exact Habsent.
Qed.

(** C9 (as amended).  The Session Table through every input of the router:
    - an entry appears only through a stream-open request that passed
      authentication and partition resolution, under the identifier
      generated for it and with the partition resolved at that moment (the
      entry is made before the backend connect, whatever that connect then
      does);
    - an input that neither opens nor closes a session leaves its entry, and
      so its stored partition scope, as it was; a stream-message leaves the
      whole table as it was, whatever partition header it carries;
    - the close of a channel removes its entry from both maps, and nothing
      else removes an entry;
    - once the channel has closed, and as long as no stream-open is given
      the same identifier again, the table does not hold the entry and an
      authenticated stream-message that refers to it is answered 404,
      session not found, without any transport being called. *)
Theorem session_table_lifecycle :
  (∀ st i k,
      sseSessions st !! k = None →
      is_Some (sseSessions (step st i) !! k) →
      ∃ env req req' resolution,
        i = Incoming env k req
        ∧ on_route StreamOpen req
        ∧ authenticated env req req'
        ∧ resolveProjectFilter env req' (isRemoteWorkspace env)
          = inr resolution
        ∧ sseSessionProjects (step st i) !! k = Some (projectId resolution))
  ∧ (∀ st i k,
        ¬ opens i k → i ≠ ChannelClosed k →
        sseSessions (step st i) !! k = sseSessions st !! k
        ∧ sseSessionProjects (step st i) !! k = sseSessionProjects st !! k)
  ∧ (∀ st env sessionId req,
        on_route StreamMessage req →
        step st (Incoming env sessionId req) = st)
  ∧ (∀ st k,
        sseSessions (step st (ChannelClosed k)) !! k = None
        ∧ sseSessionProjects (step st (ChannelClosed k)) !! k = None)
  ∧ (∀ st i k,
        is_Some (sseSessions st !! k) →
        sseSessions (step st i) !! k = None →
        i = ChannelClosed k)
  ∧ (∀ st k inputs env sessionId req req',
        Forall (fun i => ¬ opens i k) inputs →
        on_route StreamMessage req →
        authenticated env req req' →
        session_key req = Key k →
        sseSessions (run (step st (ChannelClosed k)) inputs) !! k = None
        ∧ app env (run (step st (ChannelClosed k)) inputs) sessionId req
          = not_found (run (step st (ChannelClosed k)) inputs)).
Proof.
  repeat apply conj.
  - intros st i k Habsent Hpresent.
    destruct i as [env sessionId req | sessionId]; cbn in *.
    + destruct (app_state env st sessionId req)
        as [Hsame | (Hroute & req' & resolution & Hauth & Hresolved & Hreg)].
      { rewrite Hsame, Habsent in Hpresent. by destruct Hpresent. }
      rewrite Hreg in Hpresent |- *. cbn in *.
      destruct (decide (sessionId = k)) as [-> | Hne].
      * exists env, req, req', resolution.
        repeat split; try assumption; try apply Hroute.
        apply lookup_insert_eq.
      * rewrite lookup_insert_ne, Habsent in Hpresent by exact Hne.
        by destruct Hpresent.
    + destruct (decide (sessionId = k)) as [-> | Hne].
      * rewrite lookup_delete_eq in Hpresent. by destruct Hpresent.
      * rewrite lookup_delete_ne, Habsent in Hpresent by exact Hne.
        by destruct Hpresent.
  - apply step_lookup.
  - intros st env sessionId req [_ Hpath]. cbn.
    destruct (app_state env st sessionId req)
      as [Hsame | ([_ Hpath'] & _)]; [exact Hsame |].
    rewrite Hpath in Hpath'. discriminate.
  - intros st k. cbn. split; apply lookup_delete_eq.
  - intros st i k Hpresent Habsent.
    destruct i as [env sessionId req | sessionId]; cbn in *.
    + exfalso.
      destruct (app_state env st sessionId req)
        as [Hsame | (_ & req' & resolution & _ & _ & Hreg)].
      { rewrite Hsame in Habsent. rewrite Habsent in Hpresent.
        by destruct Hpresent. }
      rewrite Hreg in Habsent. cbn in Habsent.
      destruct (decide (sessionId = k)) as [-> | Hne].
      * rewrite lookup_insert_eq in Habsent. discriminate.
      * rewrite lookup_insert_ne in Habsent by exact Hne.
        rewrite Habsent in Hpresent. by destruct Hpresent.
    + destruct (decide (sessionId = k)) as [-> | Hne]; [reflexivity |].
      rewrite lookup_delete_ne in Habsent by exact Hne.
      rewrite Habsent in Hpresent. by destruct Hpresent.
  - intros st k inputs env sessionId req req' Hinputs [Hmethod Hpath]
      Hauth Hkey.
    assert (sseSessions (run (step st (ChannelClosed k)) inputs) !! k = None)
      as Habsent.
    { apply run_absent; [exact Hinputs |]. cbn. apply lookup_delete_eq. }
    split; [exact Habsent |].
    generalize dependent (run (step st (ChannelClosed k)) inputs).
    intros st' Habsent.
    pose proof (authenticated_same _ _ _ Hauth) as Hsame.
    pose proof (session_key_same _ _ Hsame) as Hkey'.
    destruct Hsame as (Hm & Hp & _).
    rewrite (app_authenticated _ _ _ _ _ Hauth). unfold routes.
    rewrite Hm, Hp, Hmethod, Hpath. cbn. unfold post_mcp_messages.
    rewrite Hkey', Hkey, Habsent. reflexivity.
Qed.

Lemma other_session_does_not_open (env : Env) (req : Request) :
  ¬ opens (Incoming env "def" req) "abc".
Proof. intros (env' & req' & Heq & _). discriminate. Defined.

Lemma session_table_lifecycle_witness :
  app local_env
      (run (step one_session (ChannelClosed "abc"))
           [Incoming local_env "def" open_request])
      "zzz" (plain_message "Bearer secret")
  = not_found (run (step one_session (ChannelClosed "abc"))
                   [Incoming local_env "def" open_request]).
Proof.
  destruct session_table_lifecycle as (_ & _ & _ & _ & _ & Hclosed).
  refine (proj2 (Hclosed one_session "abc"
                   [Incoming local_env "def" open_request] local_env "zzz"
                   (plain_message "Bearer secret") (plain_message "secret")
                   _ _ _ _)).
  - constructor; [apply other_session_does_not_open | constructor].
  - split; reflexivity.
  - vm_compute. reflexivity.
  - reflexivity.
Defined.

(** C9, as stated, fails: a stream-open whose backend connect throws is
    answered 500, and its session is in the table all the same. *)
Lemma failed_open_is_registered :
  statusCode
    (out_res (app (make_env false failing_connect) initial_state "abc"
                  open_request)) = 500
  ∧ res_sent
      (out_res (app (make_env false failing_connect) initial_state "abc"
                    open_request))
    = [SentText "Error establishing SSE connection"]
  ∧ sseSessions
      (out_state (app (make_env false failing_connect) initial_state "abc"
                      open_request)) !! "abc"
    = Some (new_transport "abc").
Proof. repeat split; vm_compute; reflexivity. Qed.

End HttpServerProps.

(** * Further properties of the entry facade service *)

Module EntryServiceMore.
Import EntryService EntryLifecycle.
Import EntryServiceProps.

(** X1.  [normalizeContent] keeps the number and order of the items: the
    item at each place of its result comes from the item at that place.  A
    bare string becomes an item of type [text] with that string as its text
    and nothing else; an object item keeps its text, data and mimeType, and
    its type, which is [text] when the backend gave none or an empty one.
    So every item of the result has a type that is not empty. *)
Theorem normalizeContent_items (items : list RawItem) :
  length (normalizeContent items) = length items
  ∧ (∀ i s, items !! i = Some (RawString s) →
            ∃ item,
              normalizeContent items !! i = Some item
              ∧ c_type item = "text"
              ∧ c_text item = Some s
              ∧ c_data item = None
              ∧ c_mimeType item = None)
  ∧ (∀ i ty tx d mt,
        items !! i = Some (RawObject ty tx d mt) →
        ∃ item,
          normalizeContent items !! i = Some item
          ∧ (ty = None ∨ ty = Some EmptyString → c_type item = "text")
          ∧ (∀ c r, ty = Some (String c r) → c_type item = String c r)
          ∧ c_text item = tx
          ∧ c_data item = d
          ∧ c_mimeType item = mt)
  ∧ (∀ i, items !! i = None → normalizeContent items !! i = None)
  ∧ Forall (fun c => c_type c ≠ EmptyString) (normalizeContent items).
Proof.
  unfold normalizeContent. split; [apply length_map |].
  split; [| split; [| split]].
  - intros i s Hi. eexists. split; [rewrite list_lookup_fmap, Hi; reflexivity |].
    repeat split.
  - intros i ty tx d mt Hi. eexists.
    split; [rewrite list_lookup_fmap, Hi; reflexivity |].
    cbn [c_type c_text c_data c_mimeType].
    split; [intros [-> | ->]; reflexivity |].
    split; [intros c r ->; reflexivity |]. repeat split.
  - intros i Hi. rewrite list_lookup_fmap, Hi. reflexivity.
  - apply Forall_fmap, Forall_forall. intros item _.
    destruct item as [s | [[|c ty]|] tx d mt]; cbn; discriminate.
Qed.

Lemma normalizeContent_items_witness :
  ∃ item,
    normalizeContent [RawObject None (Some "a") None None; RawString "b"] !! 0
    = Some item
    ∧ (@None string = None ∨ @None string = Some EmptyString →
       c_type item = "text")
    ∧ (∀ c r, @None string = Some (String c r) → c_type item = String c r)
    ∧ c_text item = Some "a"
    ∧ c_data item = None
    ∧ c_mimeType item = None.
Proof.
  apply (proj1 (proj2 (proj2 (normalizeContent_items
                                [RawObject None (Some "a") None None;
                                 RawString "b"])))
           0 None (Some "a") None None).
  reflexivity.
Defined.

(** X2.  When a call passes validation and the call primitive resolves,
    the primitive has been invoked once, last, with exactly the server
    name, tool name and arguments of the call; the result is the normalised
    content (none when the backend gave none), the backend's own error flag
    (false when it gave none) and no error code. *)
Theorem callMCPTool_success
    (deps : EntryMCPServiceDeps) (params : CallMCPToolParams)
    (t : list DepCall) (validation : Validation) (serverId : string)
    (raw : RawToolResult)
    (Hvalidated : fst (validateCallParams deps params t) = inr validation)
    (Hvalid : valid validation = true)
    (Hserver : v_serverId validation = Some serverId)
    (Hresolves : callTool deps (cp_mcpName params) (cp_toolName params)
                          (cp_arguments params) = inr raw) :
  callMCPTool deps params t
  = (inr {| content := normalizeContent (default [] (raw_content raw));
            isError := default false (raw_isError raw);
            errorCode := None |},
     (t ++ [CallGetServers; CallGetServerTools serverId;
            CallCallTool (cp_mcpName params) (cp_toolName params)
                         (cp_arguments params)])%list).
Proof.
  revert Hvalidated. run_service.
  destruct (find _ (getServers deps)) as [server|]; cbn;
    [| intros [= <-]; discriminate].
  destruct (negb _); cbn; [intros [= <-]; discriminate |].
  destruct (is_disabled server); cbn; [intros [= <-]; discriminate |].
  destruct (getServerTools deps (srv_id server)) as [e|tools]; cbn;
    [intros [= <-]; discriminate |].
  destruct (find _ tools); cbn; [| intros [= <-]; discriminate].
  destruct (permission_denied _ _); cbn; intros [= <-]; [discriminate |].
  cbn in Hserver. injection Hserver as <-.
  rewrite Hresolves. cbn. rewrite <- !app_assoc. reflexivity.
Qed.

Lemma callMCPTool_success_witness :
  callMCPTool EntryHandler.working_backend read_file_call []
  = (inr {| content := [text_item (Some "file content")];
            isError := false; errorCode := None |},
     [CallGetServers; CallGetServerTools "server-1";
      CallCallTool "filesystem" "read_file" (JObj [("path", JStr "/x")])]).
Proof.
  apply (callMCPTool_success EntryHandler.working_backend read_file_call []
           read_file_validated "server-1"
           {| raw_content := Some [RawString "file content"];
              raw_isError := None |});
    reflexivity.
Defined.

(** X3.  Whatever call-one-tool returns, an error code comes only with
    the error flag, and it is one of the seven codes of the service. *)
Theorem callMCPTool_error_codes
    (deps : EntryMCPServiceDeps) (params : CallMCPToolParams)
    (t : list DepCall) (result : CallMCPToolResult) (code : string)
    (Hreturned : fst (callMCPTool deps params t) = inr result)
    (Hcode : errorCode result = Some code) :
  isError result = true ∧ code ∈ error_codes.
Proof.
  revert Hreturned. unfold error_codes. run_service.
  destruct (find _ (getServers deps)) as [server|]; cbn.
  2: { intros [= <-]. cbn in Hcode. injection Hcode as <-.
       split; [reflexivity | set_solver]. }
  destruct (negb _); cbn.
  { intros [= <-]. cbn in Hcode. injection Hcode as <-.
    split; [reflexivity | set_solver]. }
  destruct (is_disabled server); cbn.
  { intros [= <-]. cbn in Hcode. injection Hcode as <-.
    split; [reflexivity | set_solver]. }
  destruct (getServerTools deps (srv_id server)) as [e|tools]; cbn.
  { intros [= <-]. cbn in Hcode. injection Hcode as <-.
    split; [reflexivity | set_solver]. }
  destruct (find _ tools); cbn.
  2: { intros [= <-]. cbn in Hcode. injection Hcode as <-.
       split; [reflexivity | set_solver]. }
  destruct (permission_denied _ _); cbn.
  { intros [= <-]. cbn in Hcode. injection Hcode as <-.
    split; [reflexivity | set_solver]. }
  destruct (callTool deps _ _ _) as [e|raw]; cbn; intros [= <-];
    cbn in Hcode; [| discriminate].
  injection Hcode as <-. split; [reflexivity | set_solver].
Qed.

Lemma callMCPTool_error_codes_witness :
  true = true ∧ "CALL_FAILED" ∈ error_codes.
Proof.
  apply (callMCPTool_error_codes (failing_backend "boom") read_file_call []
           {| content := [text_item (Some "Error: boom")]; isError := true;
              errorCode := Some "CALL_FAILED" |} "CALL_FAILED");
    reflexivity.
Defined.

Lemma find_first_match {A} (P : A -> bool) (pre post : list A) (x : A) :
  Forall (fun y => P y = false) pre → P x = true →
  find P (pre ++ x :: post) = Some x.
Proof.
  intros Hpre Hx. induction Hpre as [|y pre Hy _ IH]; cbn.
  - rewrite Hx. reflexivity.
  - rewrite Hy. exact IH.
Qed.

(** X4.  Validation looks at the first server that bears the name and at
    no other: the servers listed before it (which bear other names) and all
    servers after it, namesakes included, do not change the outcome of
    call-one-tool. *)
Theorem callMCPTool_first_namesake
    (deps : EntryMCPServiceDeps) (params : CallMCPToolParams)
    (t : list DepCall) (pre post : list MCPServer) (s : MCPServer)
    (Hservers : getServers deps = (pre ++ s :: post)%list)
    (Hpre : Forall (fun x => srv_name x ≠ cp_mcpName params) pre)
    (Hname : srv_name s = cp_mcpName params) :
  callMCPTool deps params t = callMCPTool (with_servers deps [s]) params t.
Proof.
  run_service. cbn [with_servers getServers getServerTools callTool].
  rewrite Hservers, (find_first_match _ pre post s).
  - cbn [find]. rewrite Hname, String.eqb_refl. reflexivity.
  - eapply Forall_impl; [exact Hpre |]. intros x Hx.
    apply String.eqb_neq. exact Hx.
  - rewrite Hname. apply String.eqb_refl.
Qed.

Lemma callMCPTool_first_namesake_witness :
  callMCPTool crowded_backend read_file_call []
  = callMCPTool (with_servers crowded_backend [stopped_namesake])
                read_file_call [].
Proof.
  apply (callMCPTool_first_namesake crowded_backend read_file_call []
           [github] [filesystem] stopped_namesake).
  - reflexivity.
  - repeat constructor. discriminate.
  - reflexivity.
Defined.

Lemma find_unique_key {A} (f : A -> string) (P Q : A -> bool) (l : list A)
    (s : A) :
  NoDup (map f l) →
  (∀ x, P x = true → Q x = true) →
  (∀ x y, Q x = true → Q y = true → f x = f y) →
  find P l = Some s → find Q l = Some s.
Proof.
  intros Hnodup HPQ Hkey. induction l as [|x l IH]; cbn; [discriminate |].
  apply NoDup_cons in Hnodup as [Hx Hnodup].
  destruct (P x) eqn:HPx.
  - intros [= <-]. rewrite (HPQ _ HPx). reflexivity.
  - intros Hfind. destruct (Q x) eqn:HQx; [| exact (IH Hnodup Hfind)].
    exfalso. apply Hx.
    pose proof (find_some _ _ Hfind) as [Hin HPs].
    rewrite (Hkey x s HQx (HPQ _ HPs)).
    apply list_elem_of_fmap. exists s. split; [reflexivity |].
    apply list_elem_of_In. exact Hin.
Qed.

(** X5.  When server names are unique, every tool that
    enumerate-tools-for-one-server lists for a server passes the validation
    of call-one-tool for that server and tool, or fails it on the tool's
    permission only: the listing does not leave out forbidden tools. *)
Theorem listed_tool_is_callable
    (deps : EntryMCPServiceDeps) (name : string) (project : option string)
    (t t' : list DepCall) (info : MCPServerInfo) (tools : list MCPToolInfo)
    (tool : MCPToolInfo) (args : Json)
    (Hunique : NoDup (map srv_name (getServers deps)))
    (Hlisted :
       fst (listMCPTools deps {| lp_mcpName := Some name;
                                 lp_projectId := project |} t)
       = inr {| servers := [info]; lr_message := None |})
    (Htools : info_tools info = Some tools)
    (Htool : tool ∈ tools) :
  ∃ validation,
    fst (validateCallParams deps {| cp_mcpName := name;
                                    cp_toolName := tool_name tool;
                                    cp_arguments := args |} t')
    = inr validation
    ∧ (valid validation = true
       ∨ v_errorCode validation = Some "TOOL_DISABLED").
Proof.
  revert Hlisted. run_service. cbn.
  destruct name as [|c name]; cbn; [discriminate |].
  destruct (find _ (getServers deps)) as [server|] eqn:Hfind; cbn;
    [| discriminate].
  pose proof (find_some _ _ Hfind) as [_ Hcallable].
  apply andb_prop in Hcallable as [Hcallable Henabled].
  apply andb_prop in Hcallable as [_ Hrunning].
  apply (find_unique_key srv_name _
           (fun s => String.eqb (srv_name s) (String c name))) in Hfind;
    [| exact Hunique
     | intros x Hx; apply andb_prop in Hx as [Hx _];
       apply andb_prop in Hx as [Hx _]; exact Hx
     | intros x y Hx Hy; apply String.eqb_eq in Hx, Hy; congruence].
  rewrite Hfind. cbn. rewrite Hrunning. cbn.
  apply negb_true_iff in Henabled. rewrite Henabled. cbn.
  destruct (getServerTools deps (srv_id server)) as [e|tools0]; cbn;
    [discriminate |].
  intros [= <-]. cbn in Htools. injection Htools as ->.
  destruct (find _ tools) as [found|] eqn:Hfound; cbn.
  - destruct (permission_denied _ _); cbn; eauto.
  - exfalso. apply list_elem_of_In in Htool.
    pose proof (find_none _ _ Hfound _ Htool) as Hno. cbn in Hno.
    rewrite String.eqb_refl in Hno. discriminate.
Qed.

Lemma listed_tool_is_callable_witness :
  ∃ validation,
    fst (validateCallParams EntryHandler.working_backend
           {| cp_mcpName := "filesystem"; cp_toolName := "write_file";
              cp_arguments := JNull |} [])
    = inr validation
    ∧ (valid validation = true
       ∨ v_errorCode validation = Some "TOOL_DISABLED").
Proof.
  apply (listed_tool_is_callable EntryHandler.working_backend "filesystem"
           None [] []
           {| info_name := "filesystem"; info_description := Some "files";
              info_status := running; info_toolCount := 2;
              info_tools := Some filesystem_tools |}
           filesystem_tools
           {| tool_name := "write_file"; tool_description := None;
              tool_inputSchema := None |} JNull).
  - apply (bool_decide_unpack _). vm_compute. reflexivity.
  - reflexivity.
  - reflexivity.
  - apply list_elem_of_In. right. left. reflexivity.
Defined.

(** *** The singletons *)

Lemma perform_serves (g : Globals) (o : Op) (d : EntryMCPServiceDeps) :
  serves g d → is_ResetService o = false →
  serves (fst (perform g o)) d
  ∧ (snd (perform g o) = None ∨ snd (perform g o) = Some d).
Proof.
  intros [Hservice Hserver] Hop.
  destruct g as [service server]. cbn in Hservice, Hserver. subst service.
  destruct o as [deps | deps | |]; cbn in *; try discriminate.
  - destruct deps; cbn; (split; [split; [reflexivity | exact Hserver] | auto]).
  - destruct server as [server|]; [| destruct deps as [deps|]]; cbn.
    + rewrite (Hserver server eq_refl).
      split; [split; [reflexivity | exact Hserver] | auto].
    + split; [split; [reflexivity | intros ? [= <-]; reflexivity] | auto].
    + split; [split; [reflexivity | discriminate] | auto].
  - split; [split; [reflexivity | discriminate] | auto].
Qed.

(** X6.  Once the service singleton holds a service, and until
    [resetEntryMCPService] is called, every operation on the two singletons
    that returns a service or a server returns that first service: the
    dependencies passed later are ignored, also by a server created anew
    after [resetEntryMCPServer]. *)
Theorem first_service_is_kept
    (ops : list Op) (g : Globals) (d : EntryMCPServiceDeps)
    (Hserves : serves g d)
    (Hno_reset : forallb (fun o => negb (is_ResetService o)) ops = true) :
  serves (fst (perform_all g ops)) d
  ∧ Forall (fun held => held = None ∨ held = Some d)
           (snd (perform_all g ops)).
Proof.
  revert g Hserves. induction ops as [|o ops IH]; intros g Hserves; cbn.
  - split; [exact Hserves | constructor].
  - cbn in Hno_reset. apply andb_prop in Hno_reset as [Ho Hops].
    apply negb_true_iff in Ho.
    destruct (perform_serves g o d Hserves Ho) as [Hserves' Hheld].
    destruct (perform g o) as [g' held]. cbn in Hserves', Hheld.
    destruct (IH Hops g' Hserves') as [Hfinal Hhelds].
    destruct (perform_all g' ops) as [g'' helds]. cbn in *.
    split; [exact Hfinal | constructor; assumption].
Qed.

Lemma first_service_is_kept_witness :
  serves (fst (perform_all initialised
                 [ResetServer; GetServer (Some empty_backend)]))
         (failing_backend "first")
  ∧ Forall (fun held => held = None ∨ held = Some (failing_backend "first"))
           (snd (perform_all initialised
                   [ResetServer; GetServer (Some empty_backend)])).
Proof.
  apply (first_service_is_kept [ResetServer; GetServer (Some empty_backend)]
           initialised (failing_backend "first")).
  - split; [reflexivity |]. intros server [= <-]. reflexivity.
  - reflexivity.
Defined.

End EntryServiceMore.

(** * Properties of the facade's tool-invocation handler *)

Module EntryHandlerProps.
Import EntryService EntryHandler.
Import EntryServiceProps.

Section WithCollaborators.

Variable deps : EntryMCPServiceDeps.
Variable recordMcpRequestLog : LogEntry -> option JsError.
Variable JSON_stringify : Json -> string.

Lemma arg_string_falsy (k : string) (args : list (string * Json)) :
  falsy_or_absent k args → str_truthy (arg_string k args) = false.
Proof.
  unfold falsy_or_absent, arg_string.
  destruct (obj_get k args) as [[| | | |[|c s]| |]|]; cbn;
    first [reflexivity | discriminate].
Qed.

(** X7.  The handler answers a name that is neither of the two operations,
    and an invoke operation that lacks the server name or the tool name,
    with an error result, and in both cases touches neither the registry nor
    the log. *)
Theorem handler_short_circuits
    (toolName : string) (arguments : option (list (string * Json)))
    (clock : Clock) :
  (toolName ≠ "list_mcp_tools" → toolName ≠ "call_mcp_tool" →
   callToolHandler deps recordMcpRequestLog JSON_stringify toolName arguments clock
   = (inr (error_result ("Unknown tool: " ++ toolName)), []))
  ∧ (toolName = "call_mcp_tool" →
     falsy_or_absent "mcpName" (default [] arguments)
     ∨ falsy_or_absent "toolName" (default [] arguments) →
     callToolHandler deps recordMcpRequestLog JSON_stringify toolName arguments clock
     = (inr (error_result "Error: mcpName and toolName are required"), [])).
Proof.
  unfold callToolHandler. split.
  - intros Hlist Hcall. apply String.eqb_neq in Hlist, Hcall.
    rewrite Hlist, Hcall. reflexivity.
  - intros -> Hmissing. cbn [String.eqb Ascii.eqb Bool.eqb].
    destruct Hmissing as [H | H]; apply arg_string_falsy in H; rewrite H;
      cbn; rewrite ?orb_true_r; reflexivity.
Qed.

Lemma listMCPTools_returns (params : ListMCPToolsParams) (t : list DepCall) :
  ∃ result calls, listMCPTools deps params t = (inr result, calls).
Proof.
  run_service. destruct (negb _); [eauto |].
  destruct (find _ (getServers deps)) as [server|]; [| eauto].
  destruct (getServerTools deps (srv_id server)); cbn; eauto.
Qed.

Lemma callMCPTool_returns (params : CallMCPToolParams) (t : list DepCall) :
  ∃ result calls, callMCPTool deps params t = (inr result, calls).
Proof.
  destruct (callMCPTool_total deps params t) as [result Hresult].
  destruct (callMCPTool deps params t) as [r calls]. cbn in Hresult.
  subst r. eauto.
Qed.

(** X8.  With a log that accepts the record and arguments within the
    handler's types, the enumerate operation through the handler is never an
    error result, whatever the registry answers (server unknown, tool list
    unreachable): its one text item is the formatted result of the service,
    and the call is logged once, after the registry calls, as a success. *)
Theorem handler_list_is_success
    (arguments : option (list (string * Json))) (clock : Clock)
    (Htyped : reads_strings (default [] arguments))
    (Hlog : ∀ entry, recordMcpRequestLog entry = None) :
  ∃ result calls entry,
    listMCPTools deps
      {| lp_mcpName := arg_string "mcpName" (default [] arguments);
         lp_projectId := arg_string "projectId" (default [] arguments) |} []
    = (inr result, calls)
    ∧ callToolHandler deps recordMcpRequestLog JSON_stringify "list_mcp_tools" arguments clock
      = (inr {| content :=
                  [text_item (Some (formatListResult JSON_stringify result))];
                isError := false; errorCode := None |},
         (map Calls calls ++ [Logs entry])%list)
    ∧ log_result entry = "success"
    ∧ log_params entry = JObj (default [] arguments).
Proof.
  unfold callToolHandler, in_handler. cbn [String.eqb Ascii.eqb Bool.eqb].
  destruct (listMCPTools_returns
              {| lp_mcpName := arg_string "mcpName" (default [] arguments);
                 lp_projectId := arg_string "projectId" (default [] arguments) |}
              []) as (result & calls & ->).
  rewrite Hlog. eexists result, calls, _.
  split; [reflexivity |]. split; [reflexivity |]. split; reflexivity.
Qed.

(** X9.  With a log that accepts the record, the invoke operation with
    both names present hands the service's result back unchanged and logs
    the call once, after the registry calls, under the server and tool name:
    as an error exactly when the result is an error result. *)
Theorem handler_call_is_logged
    (arguments : option (list (string * Json))) (clock : Clock)
    (mcpName toolName : string)
    (Hlog : ∀ entry, recordMcpRequestLog entry = None)
    (Hserver : obj_get "mcpName" (default [] arguments)
               = Some (JStr mcpName))
    (Htool : obj_get "toolName" (default [] arguments)
             = Some (JStr toolName))
    (Hserver_given : mcpName ≠ EmptyString)
    (Htool_given : toolName ≠ EmptyString) :
  ∃ result calls entry,
    callMCPTool deps
      {| cp_mcpName := mcpName; cp_toolName := toolName;
         cp_arguments := tool_arguments (default [] arguments) |} []
    = (inr result, calls)
    ∧ callToolHandler deps recordMcpRequestLog JSON_stringify "call_mcp_tool" arguments clock
      = (inr result, (map Calls calls ++ [Logs entry])%list)
    ∧ log_result entry = (if isError result then "error" else "success")
    ∧ log_requestType entry
      = "EntryMCP:call_mcp_tool(" ++ mcpName ++ "/" ++ toolName ++ ")".
Proof.
  unfold callToolHandler, in_handler, arg_string.
  cbn [String.eqb Ascii.eqb Bool.eqb]. rewrite Hserver, Htool.
  destruct mcpName as [|c1 m]; [contradiction |].
  destruct toolName as [|c2 n]; [contradiction |].
  cbn [str_truthy negb orb str_or].
  destruct (callMCPTool_returns
              {| cp_mcpName := String c1 m; cp_toolName := String c2 n;
                 cp_arguments := tool_arguments (default [] arguments) |} [])
    as (result & calls & ->).
  rewrite Hlog. eexists result, calls, _.
  split; [reflexivity |]. split; [reflexivity |]. split; reflexivity.
Qed.

(** X10.  A failure of the logging collaborator changes the answer: when
    the record of a successful enumerate operation is refused but the record
    of the failure is accepted, the handler answers with an error result
    that carries the logging error's message, and has logged twice. *)
Theorem handler_log_failure_is_answered
    (arguments : option (list (string * Json))) (clock : Clock)
    (thrown : JsError)
    (Hrefused : ∀ entry, log_result entry = "success" →
                         recordMcpRequestLog entry = Some thrown)
    (Haccepted : ∀ entry, log_result entry = "error" →
                          recordMcpRequestLog entry = None) :
  ∃ calls first second,
    callToolHandler deps recordMcpRequestLog JSON_stringify "list_mcp_tools" arguments clock
    = (inr (error_result ("Error: " ++ message thrown)),
       (map Calls calls ++ [Logs first; Logs second])%list)
    ∧ log_result first = "success"
    ∧ log_result second = "error"
    ∧ log_errorMessage second = Some (message thrown).
Proof.
  unfold callToolHandler, in_handler, catch_block.
  cbn [String.eqb Ascii.eqb Bool.eqb].
  destruct (listMCPTools_returns
              {| lp_mcpName := arg_string "mcpName" (default [] arguments);
                 lp_projectId := arg_string "projectId" (default [] arguments) |}
              []) as (result & calls & ->).
  rewrite Hrefused by reflexivity. rewrite Haccepted by reflexivity.
  rewrite <- app_assoc. eexists calls, _, _.
  split; [reflexivity |]. repeat split; reflexivity.
Qed.

(** X11.  The handler throws nothing of its own: an error that leaves it
    is one that the logging collaborator threw, in the handler's catch, on
    the record of a failure, and that record is its last effect. *)
Theorem handler_throws_only_log_errors
    (toolName : string) (arguments : option (list (string * Json)))
    (clock : Clock) (thrown : JsError)
    (Hthrows : fst (callToolHandler deps recordMcpRequestLog JSON_stringify toolName arguments clock) = inl thrown) :
  ∃ done entry,
    snd (callToolHandler deps recordMcpRequestLog JSON_stringify toolName arguments clock) = (done ++ [Logs entry])%list
    ∧ recordMcpRequestLog entry = Some thrown
    ∧ log_result entry = "error".
Proof.
  revert Hthrows. unfold callToolHandler, in_handler, catch_block.
  destruct (String.eqb toolName "list_mcp_tools").
  - destruct (listMCPTools_returns
                {| lp_mcpName := arg_string "mcpName" (default [] arguments);
                   lp_projectId :=
                     arg_string "projectId" (default [] arguments) |} [])
      as (result & calls & ->).
    destruct (recordMcpRequestLog _) as [e1|] eqn:H1; [| discriminate].
    match goal with
    | |- context [recordMcpRequestLog ?entry] =>
        destruct (recordMcpRequestLog entry) as [e2|] eqn:H2;
          [| discriminate]
    end.
    cbn. intros [= Heq]. subst e2. eexists _, _. split; [reflexivity |].
    split; [exact H2 | reflexivity].
  - destruct (String.eqb toolName "call_mcp_tool"); [| discriminate].
    destruct (negb _ || negb _); [discriminate |].
    destruct (callMCPTool_returns
                {| cp_mcpName :=
                     str_or (arg_string "mcpName" (default [] arguments))
                            EmptyString;
                   cp_toolName :=
                     str_or (arg_string "toolName" (default [] arguments))
                            EmptyString;
                   cp_arguments := tool_arguments (default [] arguments) |}
                []) as (result & calls & ->).
    destruct (recordMcpRequestLog _) as [e1|] eqn:H1; [| discriminate].
    match goal with
    | |- context [recordMcpRequestLog ?entry] =>
        destruct (recordMcpRequestLog entry) as [e2|] eqn:H2;
          [| discriminate]
    end.
    cbn. intros [= Heq]. subst e2. eexists _, _. split; [reflexivity |].
    split; [exact H2 | reflexivity].
Qed.

(** X12.  The summary of an enumeration: a message, when the result has
    one, is the whole summary; a result without message and without servers
    gives a fixed text; otherwise the summary names every server of the
    result and every tool of every server. *)
Theorem formatListResult_names (result : ListMCPToolsResult) :
  (∀ msg, lr_message result = Some msg → msg ≠ EmptyString →
          formatListResult JSON_stringify result = msg)
  ∧ (str_truthy (lr_message result) = false → servers result = [] →
     formatListResult JSON_stringify result = "未找到MCP服务器")
  ∧ (str_truthy (lr_message result) = false →
     ∀ server, In server (servers result) →
       contains (info_name server)
                (formatListResult JSON_stringify result) = true
       ∧ ∀ tools tool,
           info_tools server = Some tools → In tool tools →
           contains (tool_name tool)
                    (formatListResult JSON_stringify result) = true).
Proof.
  unfold formatListResult. split; [| split].
  - intros msg -> Hmsg. destruct msg; [contradiction | reflexivity].
  - intros -> ->. reflexivity.
  - intros -> server Hin.
    destruct (servers result) as [|first rest] eqn:Hservers; [contradiction |].
    rewrite <- Hservers in *. clear Hservers first rest. split.
    + apply (loop_holds (format_server JSON_stringify) _ _ server);
        [exact Hin |].
      unfold format_server. apply (contains_app_l _ "# ").
      apply contains_prefix_app.
    + intros tools tool Htools Htool.
      apply (loop_holds (format_server JSON_stringify) _ _ server);
        [exact Hin |].
      unfold format_server. rewrite Htools.
      destruct tools as [|t tools]; [contradiction |].
      repeat lazymatch goal with
             | |- contains _ (String.append _ _) = true =>
                 apply contains_app_l
             end.
      unfold format_tools.
      apply (loop_holds (format_tool JSON_stringify) _ _ tool);
        [exact Htool |].
      unfold format_tool. apply (contains_app_l _ "### ").
      apply contains_prefix_app.
Qed.

End WithCollaborators.

Lemma handler_short_circuits_witness :
  callToolHandler working_backend quiet_log (fun _ => EmptyString)
                  "delete_everything" None noon
  = (inr (error_result "Unknown tool: delete_everything"), [])
  ∧ callToolHandler working_backend quiet_log (fun _ => EmptyString)
                    "call_mcp_tool" (Some [("toolName", JStr "read_file")])
                    noon
    = (inr (error_result "Error: mcpName and toolName are required"), []).
Proof.
  split.
  - apply (proj1 (handler_short_circuits working_backend quiet_log
                    (fun _ => EmptyString) "delete_everything" None noon));
      discriminate.
  - apply (proj2 (handler_short_circuits working_backend quiet_log
                    (fun _ => EmptyString) "call_mcp_tool"
                    (Some [("toolName", JStr "read_file")]) noon));
      [reflexivity | left; exact I].
Defined.

Lemma handler_list_is_success_witness :
  ∃ result effects,
    callToolHandler unreachable_backend quiet_log (fun _ => EmptyString)
                    "list_mcp_tools" (Some [("mcpName", JStr "filesystem")])
                    noon
    = (inr {| content :=
                [text_item
                   (Some (formatListResult (fun _ => EmptyString) result))];
              isError := false; errorCode := None |},
       effects).
Proof.
  destruct (handler_list_is_success unreachable_backend quiet_log
              (fun _ => EmptyString)
              (Some [("mcpName", JStr "filesystem")]) noon
              (conj (fun _ => ex_intro _ "filesystem" eq_refl) (conj I I))
              (fun _ => eq_refl))
    as (result & calls & entry & _ & Hhandler & _).
  exists result. eexists. exact Hhandler.
Defined.

Lemma handler_call_is_logged_witness :
  ∃ result effects,
    callToolHandler (failing_backend "boom") quiet_log
                    (fun _ => EmptyString) "call_mcp_tool"
                    (Some [ ("mcpName", JStr "filesystem");
                            ("toolName", JStr "read_file") ]) noon
    = (inr result, effects).
Proof.
  destruct (handler_call_is_logged (failing_backend "boom") quiet_log
              (fun _ => EmptyString)
              (Some [ ("mcpName", JStr "filesystem");
                      ("toolName", JStr "read_file") ]) noon
              "filesystem" "read_file" (fun _ => eq_refl) eq_refl eq_refl)
    as (result & calls & entry & _ & Hhandler & _); [discriminate.. |].
  exists result. eexists. exact Hhandler.
Defined.

Lemma picky_log_refuses (entry : LogEntry) :
  log_result entry = "success" →
  picky_log entry = Some {| message := "log store full"; status := None |}.
Proof. unfold picky_log. intros ->. reflexivity. Defined.

Lemma picky_log_accepts (entry : LogEntry) :
  log_result entry = "error" → picky_log entry = None.
Proof. unfold picky_log. intros ->. reflexivity. Defined.

Lemma handler_log_failure_is_answered_witness :
  ∃ effects,
    callToolHandler working_backend picky_log (fun _ => EmptyString)
                    "list_mcp_tools" (Some [("mcpName", JStr "filesystem")])
                    noon
    = (inr (error_result "Error: log store full"), effects).
Proof.
  destruct (handler_log_failure_is_answered working_backend picky_log
              (fun _ => EmptyString)
              (Some [("mcpName", JStr "filesystem")]) noon
              {| message := "log store full"; status := None |}
              picky_log_refuses picky_log_accepts)
    as (calls & first & second & Hhandler & _).
  eexists. exact Hhandler.
Defined.

Lemma handler_throws_only_log_errors_witness :
  ∃ done entry,
    snd (callToolHandler working_backend broken_log (fun _ => EmptyString)
                         "list_mcp_tools" None noon)
    = (done ++ [Logs entry])%list
    ∧ broken_log entry
      = Some {| message := "log store closed"; status := None |}
    ∧ log_result entry = "error".
Proof.
  apply (handler_throws_only_log_errors working_backend broken_log
           (fun _ => EmptyString) "list_mcp_tools" None noon
           {| message := "log store closed"; status := None |}).
  reflexivity.
Defined.

Lemma formatListResult_names_witness :
  formatListResult (fun _ => EmptyString)
                   {| servers := []; lr_message := Some "hint" |}
  = "hint".
Proof.
  apply (proj1 (formatListResult_names (fun _ => EmptyString)
                  {| servers := []; lr_message := Some "hint" |}) "hint");
    [reflexivity | discriminate].
Defined.

End EntryHandlerProps.

(** * Properties of the wiring to the server manager *)

Module WiringProps.
Import EntryService Wiring.
Import EntryServiceProps.

(** call-one-tool past validation: the answer is made of what the call
    primitive does. *)
Lemma callMCPTool_validated
    (deps : EntryMCPServiceDeps) (params : CallMCPToolParams)
    (t : list DepCall) (validation : Validation) :
  fst (validateCallParams deps params t) = inr validation →
  valid validation = true →
  fst (callMCPTool deps params t)
  = match callTool deps (cp_mcpName params) (cp_toolName params)
                   (cp_arguments params) with
    | inl e =>
        inr {| content := [text_item (Some ("Error: " ++ message e))];
               isError := true; errorCode := Some "CALL_FAILED" |}
    | inr raw =>
        inr {| content := normalizeContent (default [] (raw_content raw));
               isError := default false (raw_isError raw);
               errorCode := None |}
    end.
Proof.
  intros Hvalidated Hvalid. revert Hvalidated.
  unfold callMCPTool. cbv [mbind M_bind bind].
  destruct (validateCallParams_cases deps params t) as (v & t' & ->).
  cbn. intros [= ->]. rewrite Hvalid. cbn.
  cbv [try_catch deps_callTool invoke mret M_ret ret].
  destruct (callTool deps _ _ _); reflexivity.
Qed.

(** X13.  The facade as the router wires it to the server manager: a call
    that passed validation fails with [CALL_FAILED], naming the server, when
    the manager has no identifier for the server's name or no client for the
    identifier; otherwise the client is called with the tool name, the
    arguments, a timeout of one hour that progress resets, and its outcome
    is the outcome of the call. *)
Theorem wired_callTool
    (serverManager : MCPServerManager) (params : CallMCPToolParams)
    (t : list DepCall) (validation : Validation)
    (Hvalidated :
       fst (validateCallParams (entryDeps serverManager) params t)
       = inr validation)
    (Hvalid : valid validation = true) :
  fst (callMCPTool (entryDeps serverManager) params t)
  = match
      serverNameToIdMap (getMaps serverManager) !! cp_mcpName params
    with
    | None | Some EmptyString =>
        inr {| content :=
                 [text_item (Some ("Error: Server not found: "
                                   ++ cp_mcpName params))];
               isError := true; errorCode := Some "CALL_FAILED" |}
    | Some serverId =>
        match clients (getMaps serverManager) !! serverId with
        | None =>
            inr {| content :=
                     [text_item (Some ("Error: Server not connected: "
                                       ++ cp_mcpName params))];
                   isError := true; errorCode := Some "CALL_FAILED" |}
        | Some client =>
            match
              client_callTool client (cp_toolName params)
                              (cp_arguments params) 3600000 true
            with
            | inl e =>
                inr {| content :=
                         [text_item (Some ("Error: " ++ message e))];
                       isError := true; errorCode := Some "CALL_FAILED" |}
            | inr raw =>
                inr {| content :=
                         normalizeContent (default [] (raw_content raw));
                       isError := default false (raw_isError raw);
                       errorCode := None |}
            end
        end
    end.
Proof.
  rewrite (callMCPTool_validated _ _ _ _ Hvalidated Hvalid).
  cbn [entryDeps callTool].
  destruct (serverNameToIdMap (getMaps serverManager) !! cp_mcpName params)
    as [[|c serverId]|]; [reflexivity | | reflexivity].
  destruct (clients (getMaps serverManager) !! String c serverId)
    as [client|]; reflexivity.
Qed.

Lemma wired_callTool_witness :
  fst (callMCPTool (entryDeps disconnected_manager) read_file_call [])
  = inr {| content :=
             [text_item (Some "Error: Server not connected: filesystem")];
           isError := true; errorCode := Some "CALL_FAILED" |}.
Proof.
  exact (wired_callTool disconnected_manager read_file_call []
           read_file_validated eq_refl eq_refl).
Defined.

End WiringProps.

(** * Further properties of the dispatch router *)

Module HttpServerMore.
Import HttpServer RouterSpec.
Import HttpServerProps.

(** *** Partition resolution at its edges *)

(** X14.  Without partition header the resolver answers "no partition, none
    provided".  With a header whose first value is empty or white space
    only, with a header that has no value at all, and with a header whose
    trimmed value is the sentinel for "unassigned", it answers "no
    partition, provided": in none of these cases does the outcome depend on
    the repository of projects or on validation being skipped. *)
Theorem resolveProjectFilter_unscoped
    (env : Env) (req : Request) (skipValidation : bool) :
  (req_headers req !! PROJECT_HEADER env = None →
   resolveProjectFilter env req skipValidation
   = inr {| projectId := None; provided := false |})
  ∧ (req_headers req !! PROJECT_HEADER env = Some (HArr []) →
     resolveProjectFilter env req skipValidation
     = inr {| projectId := None; provided := true |})
  ∧ (∀ raw,
        first_value (req_headers req !! PROJECT_HEADER env) = Some raw →
        trim raw = EmptyString ∨ trim raw = UNASSIGNED_PROJECT_ID env →
        resolveProjectFilter env req skipValidation
        = inr {| projectId := None; provided := true |}).
Proof.
  unfold resolveProjectFilter. split; [| split].
  - intros ->. reflexivity.
  - intros ->. reflexivity.
  - intros raw Hraw Htrim.
    destruct (req_headers req !! PROJECT_HEADER env) as [[v|l]|];
      cbn in Hraw; [| | discriminate].
    + injection Hraw as ->. cbn [fmap option_fmap option_map].
      destruct Htrim as [-> | ->]; [reflexivity |].
      destruct (UNASSIGNED_PROJECT_ID env) as [|c r]; [reflexivity |].
      cbn [str_truthy negb str_or]. rewrite String.eqb_refl. reflexivity.
    + rewrite Hraw. cbn [fmap option_fmap option_map].
      destruct Htrim as [-> | ->]; [reflexivity |].
      destruct (UNASSIGNED_PROJECT_ID env) as [|c r]; [reflexivity |].
      cbn [str_truthy negb str_or]. rewrite String.eqb_refl. reflexivity.
Qed.

Lemma resolveProjectFilter_unscoped_witness :
  resolveProjectFilter local_env
    (request POST "/mcp/aggregator"
       [("x-mcpr-project", HStr "  __unassigned__ ")] [] JNull) false
  = inr {| projectId := None; provided := true |}.
Proof.
  apply (proj2 (proj2 (resolveProjectFilter_unscoped local_env
                         (request POST "/mcp/aggregator"
                            [("x-mcpr-project", HStr "  __unassigned__ ")]
                            [] JNull) false))
           "  __unassigned__ ").
  - reflexivity.
  - right. reflexivity.
Defined.

(** X15.  The resolver throws in one situation only: validation is not
    skipped, the header names a partition, and the repository does not know
    the name.  What it throws then is the not-found error for that name,
    with status 400. *)
Theorem resolveProjectFilter_throws
    (env : Env) (req : Request) (skipValidation : bool) (e : JsError) :
  resolveProjectFilter env req skipValidation = inl e
  ↔ skipValidation = false
    ∧ ∃ value, names_partition env req value
               ∧ findByName env value = None
               ∧ e = not_found_error value
               ∧ error_status e = 400.
Proof.
  split.
  - unfold resolveProjectFilter.
    destruct (req_headers req !! PROJECT_HEADER env) as [hv|] eqn:Hheader;
      [| discriminate].
    destruct (match hv with HArr l => head l | HStr s => Some s end)
      as [raw|] eqn:Hraw; cbn [fmap option_fmap option_map];
      [| discriminate].
    destruct (trim raw) as [|c r] eqn:Htrim;
      cbn [str_truthy negb str_or]; [discriminate |].
    destruct (String.eqb (String c r) (UNASSIGNED_PROJECT_ID env)) eqn:Hun;
      [discriminate |].
    destruct skipValidation; [discriminate |].
    destruct (findByName env (String c r)) eqn:Hfind; [discriminate |].
    intros [= <-]. split; [reflexivity |].
    exists (String c r). split; [| auto].
    exists raw. rewrite Hheader. unfold first_value.
    split; [destruct hv; exact Hraw |]. split; [exact Htrim |].
    split; [discriminate |]. apply String.eqb_neq. exact Hun.
  - intros (-> & value & Hnamed & Hfind & -> & _).
    rewrite (resolve_named _ _ _ _ Hnamed), Hfind. reflexivity.
Qed.

Lemma resolveProjectFilter_throws_witness :
  resolveProjectFilter local_env (ghost_aggregator_request "secret") false
  = inl (not_found_error "ghost").
Proof.
  apply (proj2 (resolveProjectFilter_throws local_env
                  (ghost_aggregator_request "secret") false
                  (not_found_error "ghost"))).
  split; [reflexivity |]. exists "ghost".
  split; [apply ghost_is_named; reflexivity |].
  repeat split; reflexivity.
Defined.

(** *** The metadata attached to a forwarded call *)

(** X16.  After [attachRequestMetadata], a payload whose [params] is an
    object (or an array) or is absent carries, under [params._meta], the
    token and the partition given to the function, whatever [_meta] the
    caller had put there itself; a payload whose [params] is [null] or
    another primitive is left exactly as it was, without metadata. *)
Theorem attachRequestMetadata_meta
    (payload : list (string * Json)) (tokenHeader : option HeaderValue)
    (project : option string) :
  (attachable payload = true →
   ∃ meta,
     meta_of (attachRequestMetadata payload tokenHeader project)
     = Some (JObj meta)
     ∧ obj_get "token" meta = Some (token_value tokenHeader)
     ∧ obj_get "projectId" meta = Some (nullable project))
  ∧ (attachable payload = false →
     attachRequestMetadata payload tokenHeader project = payload).
Proof.
  split.
  - intros Hattachable.
    destruct (meta_of_attach payload tokenHeader project Hattachable)
      as [old Hmeta].
    eexists. split; [exact Hmeta |].
    split; [apply with_meta_token | apply with_meta_projectId].
  - unfold attachable, attachRequestMetadata.
    destruct (obj_get "params" payload) as [[| | | | | |]|];
      first [discriminate | reflexivity].
Qed.

Lemma attachRequestMetadata_meta_witness :
  ∃ meta,
    meta_of (attachRequestMetadata
               [("params",
                 JObj [("_meta", JObj [("token", JStr "forged")])])]
               (Some (HStr "secret")) None)
    = Some (JObj meta)
    ∧ obj_get "token" meta = Some (JStr "secret")
    ∧ obj_get "projectId" meta = Some JNull.
Proof.
  apply (proj1 (attachRequestMetadata_meta
                  [("params",
                    JObj [("_meta", JObj [("token", JStr "forged")])])]
                  (Some (HStr "secret")) None)).
  reflexivity.
Defined.

(** X17.  [attachRequestMetadata] changes nothing but [params._meta.token]
    and [params._meta.projectId]: every other property of the payload, every
    other property of an object [params], and every other property of an
    object [_meta] already there reads as before. *)
Theorem attachRequestMetadata_frame
    (payload : list (string * Json)) (tokenHeader : option HeaderValue)
    (project : option string) :
  (∀ k, k ≠ "params" →
        obj_get k (attachRequestMetadata payload tokenHeader project)
        = obj_get k payload)
  ∧ (∀ fields,
        obj_get "params" payload = Some (JObj fields) →
        ∃ fields',
          obj_get "params" (attachRequestMetadata payload tokenHeader project)
          = Some (JObj fields')
          ∧ (∀ k, k ≠ "_meta" → obj_get k fields' = obj_get k fields)
          ∧ (∀ old,
                obj_get "_meta" fields = Some (JObj old) →
                ∃ meta,
                  obj_get "_meta" fields' = Some (JObj meta)
                  ∧ ∀ k, k ≠ "token" → k ≠ "projectId" →
                         obj_get k meta = obj_get k old)).
Proof.
  unfold attachRequestMetadata. split.
  - intros k Hk.
    destruct (obj_get "params" payload) as [[| | | | | |]|];
      first [reflexivity | apply obj_get_set_ne; congruence].
  - intros fields ->. eexists. split; [apply obj_get_set_eq |]. split.
    + intros k Hk. apply obj_get_set_ne. congruence.
    + intros old Hold. eexists. split; [apply obj_get_set_eq |].
      intros k Htoken Hproject. rewrite Hold. unfold with_meta. cbn.
      rewrite !obj_get_set_ne by congruence. reflexivity.
Qed.

Lemma attachRequestMetadata_frame_witness :
  obj_get "id"
    (attachRequestMetadata (spread tools_call) (Some (HStr "secret")) None)
  = Some (JNum 1).
Proof.
  apply (proj1 (attachRequestMetadata_frame (spread tools_call)
                  (Some (HStr "secret")) None) "id").
  discriminate.
Defined.

(** *** The authentication gate, passed *)

Lemma with_bare_token_same (req : Request) (token : string) :
  same_but_token req (with_bare_token req token).
Proof.
  unfold with_bare_token. destruct (startsWith "Bearer " token).
  - repeat split. intros k Hk. cbn. apply lookup_insert_ne. congruence.
  - apply same_but_token_refl.
Qed.

Lemma with_bare_token_header (req : Request) (token : string) :
  req_headers req !! "authorization" = Some (HStr token) →
  req_headers (with_bare_token req token) !! "authorization"
  = Some (HStr (bearer_token token)).
Proof.
  intros Hheader. unfold with_bare_token, bearer_token.
  destruct (startsWith "Bearer " token); [apply lookup_insert_eq | exact Hheader].
Qed.

(** The middleware on a request with a token: it validates the bare token,
    and hands the request on with the bare token in the header. *)
Lemma authMiddleware_token (env : Env) (req : Request) (res : Response)
    (token : string) :
  req_headers req !! "authorization" = Some (HStr token) →
  token ≠ EmptyString →
  authMiddleware env req res
  = if isValid (validateToken env (bearer_token token)) then
      Next (with_bare_token req token)
    else
      Finished
        (respond 401
           (error_body
              (str_or (tv_error (validateToken env (bearer_token token)))
                      "Invalid token. Authentication failed."))
           res).
Proof.
  intros Hheader Htoken. unfold authMiddleware. rewrite Hheader.
  destruct token as [|c token]; [contradiction |].
  destruct (isValid _); reflexivity.
Qed.




(** X19.  The stream-open route lies under both mount points of the
    authentication middleware, so its token is validated twice: a request
    that has come to the gate passes it exactly when the validator accepts
    the token stripped of one [Bearer ] prefix, that stripped token is not
    empty, and the validator accepts it stripped once more; the route
    handler then sees the token stripped twice.  For a request whose body
    the parser reads and that is no preflight, this is when it passes all
    the layers in front of the routes. *)
Theorem stream_open_validates_twice
    (env : Env) (req : Request) (token : string)
    (Hpath : req_path req = "/mcp/sse")
    (Htoken : req_headers req !! "authorization" = Some (HStr token))
    (Hpresent : token ≠ EmptyString) :
  ((∃ req', passes_gate env req req')
   ↔ isValid (validateToken env (bearer_token token)) = true
     ∧ bearer_token token ≠ EmptyString
     ∧ isValid (validateToken env (bearer_token (bearer_token token))) = true)
  ∧ (req_body_error req = None → req_method req ≠ OPTIONS →
     ((∃ req', authenticated env req req')
      ↔ isValid (validateToken env (bearer_token token)) = true
        ∧ bearer_token token ≠ EmptyString
        ∧ isValid (validateToken env (bearer_token (bearer_token token)))
          = true)).
Proof.
  assert ((∃ req', passes_gate env req req')
          ↔ isValid (validateToken env (bearer_token token)) = true
            ∧ bearer_token token ≠ EmptyString
            ∧ isValid (validateToken env (bearer_token (bearer_token token)))
              = true) as Hgate.
  { unfold passes_gate, gate. cbn [run_stack mounted]. rewrite Hpath.
    change (mounted_at "/mcp" "/mcp/sse") with true. cbn match.
    rewrite (authMiddleware_token _ _ _ _ Htoken Hpresent).
    pose proof (with_bare_token_same req token) as (_ & Hp & _).
    pose proof (with_bare_token_header _ _ Htoken) as Htoken'.
    destruct (isValid (validateToken env (bearer_token token))).
    2: { split; [intros [req' H]; discriminate | intros [H _]; discriminate]. }
    rewrite Hp, Hpath. change (mounted_at "/mcp/sse" "/mcp/sse") with true.
    cbn match.
    destruct (bearer_token token) as [|c bare] eqn:Hbare.
    - unfold authMiddleware. rewrite Htoken'.
      split; [intros [req' H]; discriminate
             | intros (_ & H & _); contradiction].
    - rewrite (authMiddleware_token _ _ _ _ Htoken') by discriminate.
      destruct (isValid _).
      + split; [intros _; repeat split; discriminate | eauto].
      + split; [intros [req' H]; discriminate
               | intros (_ & _ & H); discriminate]. }
  split; [exact Hgate |].
  intros Hparsed Hmethod. rewrite <- Hgate. split.
  - intros [req' Hauth]. exists req'.
    apply authenticated_layers in Hauth as (_ & _ & H). exact H.
  - intros [req' H]. exists req'. apply authenticated_layers. auto.
Qed.

Lemma stream_open_validates_twice_witness :
  ((∃ req', passes_gate open_door
              (request GET "/mcp/sse" [("authorization", HStr "Bearer ")]
                       [] JNull) req')
   ↔ true = true
     ∧ bearer_token "Bearer " ≠ EmptyString
     ∧ true = true)
  ∧ (@None JsError = None → GET ≠ OPTIONS →
     ((∃ req', authenticated open_door
                 (request GET "/mcp/sse" [("authorization", HStr "Bearer ")]
                          [] JNull) req')
      ↔ true = true
        ∧ bearer_token "Bearer " ≠ EmptyString
        ∧ true = true)).
Proof.
  apply (stream_open_validates_twice open_door
           (request GET "/mcp/sse" [("authorization", HStr "Bearer ")]
                    [] JNull) "Bearer ").
  - reflexivity.
  - reflexivity.
  - discriminate.
Defined.

(** *** In front of the gate *)

(** X26.  The CORS layer is mounted in front of the authentication gate:
    an [OPTIONS] request whose body the parser reads is answered by that
    layer, on every path and with or without a token, with status 204 and no
    body.  The Credential Validator is not asked, the request does not reach
    a route, no transport is called and the Session Table is as before. *)
Theorem preflight_is_answered_first
    (env : Env) (st : ServerState) (sessionId : string) (req : Request)
    (Hmethod : req_method req = OPTIONS)
    (Hparsed : req_body_error req = None) :
  statusCode (out_res (app env st sessionId req)) = 204
  ∧ res_sent (out_res (app env st sessionId req)) = []
  ∧ res_ended (out_res (app env st sessionId req)) = true
  ∧ out_calls (app env st sessionId req) = []
  ∧ out_state (app env st sessionId req) = st
  ∧ ∀ req', ¬ authenticated env req req'.
Proof.
  unfold app, authenticated. rewrite middleware_layers, Hparsed, Hmethod.
  repeat split. intros req'. discriminate.
Qed.

Lemma preflight_is_answered_first_witness :
  statusCode
    (out_res (app local_env one_session "zzz"
                  (request OPTIONS "/mcp/messages" [] [("sessionId", "abc")]
                           JNull)))
  = 204.
Proof.
  apply (preflight_is_answered_first local_env one_session "zzz"
           (request OPTIONS "/mcp/messages" [] [("sessionId", "abc")] JNull));
    reflexivity.
Defined.

(** *** Messages of a session *)

(** A message past the gate, for a session of the table, whose partition
    resolves: what is handed to the session's channel. *)
Lemma message_forwarded
    (env : Env) (st : ServerState) (sessionId : string) (req req' : Request)
    (k : string) (transport : SSEServerTransport) (resolution : Resolution)
    (payload : list (string * Json)) (forwarded : Request) :
  on_route StreamMessage req →
  authenticated env req req' →
  session_key req = Key k →
  sseSessions st !! k = Some transport →
  resolveProjectFilter env req' false = inr resolution →
  payload
  = attachRequestMetadata (spread (req_body req))
      (req_headers req' !! "authorization")
      (if provided resolution then projectId resolution
       else default None (sseSessionProjects st !! k)) →
  forwarded = with_body req' (body_after_attach (req_body req) payload) →
  app env st sessionId req
  = {| out_state := st;
       out_res :=
         guarded 500 internal_error
           (handlePostMessage env transport forwarded (JObj payload)
                              fresh_response);
       out_calls := [ToSession transport forwarded (JObj payload)] |}.
Proof.
  intros [Hmethod Hpath] Hauth Hkey Hsession Hresolved -> ->.
  pose proof (authenticated_same _ _ _ Hauth) as Hsame.
  pose proof (session_key_same _ _ Hsame) as Hkey'.
  destruct Hsame as (Hm & Hp & _ & Hb & _).
  rewrite (app_authenticated _ _ _ _ _ Hauth). unfold routes.
  rewrite Hm, Hp, Hmethod, Hpath. cbn [route_method route_path].
  cbn [String.eqb Ascii.eqb Bool.eqb]. unfold post_mcp_messages.
  rewrite Hkey', Hkey, Hsession, Hresolved, Hb. reflexivity.
Qed.

(** X20.  Open, then message: after a stream-open that passed both gates,
    a message for the session it opened that carries no partition header is
    handed to that session's transport, and where its [params] can take
    metadata, [params._meta] of the payload handed on holds the partition
    that was resolved when the stream was opened ([null] when that was none)
    and the token of the message.  When the message came with an object for
    [params], the body of the request handed on shows the same metadata. *)
Theorem message_uses_captured_scope
    (env env' : Env) (st : ServerState) (sessionId other : string)
    (opening opening' req req' : Request) (resolution : Resolution)
    (Hopening : on_route StreamOpen opening)
    (Hopened : authenticated env opening opening')
    (Hresolved :
       resolveProjectFilter env opening' (isRemoteWorkspace env)
       = inr resolution)
    (Hroute : on_route StreamMessage req)
    (Hauth : authenticated env' req req')
    (Hkey : session_key req = Key sessionId)
    (Hheader : PROJECT_HEADER env' ≠ "authorization")
    (Hplain : req_headers req !! PROJECT_HEADER env' = None) :
  ∃ forwarded payload,
    out_calls (app env' (step st (Incoming env sessionId opening)) other req)
    = [ToSession (new_transport sessionId) forwarded (JObj payload)]
    ∧ payload
      = attachRequestMetadata (spread (req_body req))
          (req_headers req' !! "authorization") (projectId resolution)
    ∧ forwarded = with_body req' (body_after_attach (req_body req) payload)
    ∧ (attachable (spread (req_body req)) = true →
       ∃ meta,
         meta_of payload = Some (JObj meta)
         ∧ obj_get "token" meta
           = Some (token_value (req_headers req' !! "authorization"))
         ∧ obj_get "projectId" meta = Some (nullable (projectId resolution)))
    ∧ (∀ fields params,
          req_body req = JObj fields →
          obj_get "params" fields = Some (JObj params) →
          req_body forwarded = JObj payload).
Proof.
  assert (step st (Incoming env sessionId opening)
          = registered st sessionId (projectId resolution)) as ->.
  { cbn. rewrite (app_authenticated _ _ _ _ _ Hopened).
    destruct Hopening as [Hmethod Hpath].
    destruct (authenticated_same _ _ _ Hopened) as (Hm & Hp & _).
    unfold routes. rewrite Hm, Hp, Hmethod, Hpath. cbn.
    unfold get_mcp_sse. rewrite Hresolved.
    destruct (aggregator_connect env _ _) as [[e|] res']; reflexivity. }
  destruct (authenticated_same _ _ _ Hauth) as (_ & _ & _ & _ & _ & Hheaders).
  assert (resolveProjectFilter env' req' false
          = inr {| projectId := None; provided := false |}) as Hnone.
  { unfold resolveProjectFilter. rewrite (Hheaders _ Hheader), Hplain.
    reflexivity. }
  eexists _, _.
  rewrite (message_forwarded env' _ other req req' sessionId
             (new_transport sessionId) _ _ _ Hroute Hauth Hkey
             (lookup_insert_eq _ _ _) Hnone eq_refl eq_refl).
  cbn [provided out_calls registered sseSessionProjects].
  rewrite lookup_insert_eq. cbn [default].
  split; [reflexivity |]. split; [reflexivity |]. split; [reflexivity |].
  destruct (forwarded_facts req' (req_body req)
              (req_headers req' !! "authorization") (projectId resolution)
              _ _ eq_refl eq_refl) as (Hmeta & Hshared & _ & _).
  split; [exact Hmeta | exact Hshared].
Qed.

Lemma message_uses_captured_scope_witness :
  ∃ forwarded payload,
    out_calls (app local_env
                 (step initial_state (Incoming local_env "abc" open_request))
                 "zzz" (plain_message "Bearer secret"))
    = [ToSession (new_transport "abc") forwarded (JObj payload)]
    ∧ payload
      = attachRequestMetadata (spread (req_body (plain_message "Bearer secret")))
          (req_headers (plain_message "secret") !! "authorization")
          (projectId {| projectId := Some "p-alpha"; provided := true |})
    ∧ forwarded
      = with_body (plain_message "secret")
          (body_after_attach (req_body (plain_message "Bearer secret"))
                             payload)
    ∧ (attachable (spread (req_body (plain_message "Bearer secret"))) = true →
       ∃ meta,
         meta_of payload = Some (JObj meta)
         ∧ obj_get "token" meta
           = Some (token_value
                     (req_headers (plain_message "secret") !! "authorization"))
         ∧ obj_get "projectId" meta
           = Some (nullable
                     (projectId
                        {| projectId := Some "p-alpha"; provided := true |})))
    ∧ (∀ fields params,
          req_body (plain_message "Bearer secret") = JObj fields →
          obj_get "params" fields = Some (JObj params) →
          req_body forwarded = JObj payload).
Proof.
  apply (message_uses_captured_scope local_env local_env initial_state
           "abc" "zzz" open_request open_request'
           (plain_message "Bearer secret") (plain_message "secret")
           {| projectId := Some "p-alpha"; provided := true |}).
  - split; reflexivity.
  - vm_compute. reflexivity.
  - vm_compute. reflexivity.
  - split; reflexivity.
  - vm_compute. reflexivity.
  - reflexivity.
  - discriminate.
  - reflexivity.
Defined.

(** X21.  A message that carries a partition header of its own is handed
    on with what that header resolves to, also when that is "no partition"
    (an empty header, or the sentinel for "unassigned") and the session was
    opened with one: where [params] can take metadata,
    [params._meta.projectId] of the payload handed on is the resolved
    partition, [null] for none; the partition stored for the session is not
    read, and the table stays as it was.  When the message came with an
    object for [params], the body of the request handed on shows the same
    metadata. *)
Theorem message_header_takes_precedence
    (env : Env) (st : ServerState) (sessionId : string) (req req' : Request)
    (k : string) (transport : SSEServerTransport) (header : HeaderValue)
    (resolution : Resolution)
    (Hroute : on_route StreamMessage req)
    (Hauth : authenticated env req req')
    (Hkey : session_key req = Key k)
    (Hsession : sseSessions st !! k = Some transport)
    (Hname : PROJECT_HEADER env ≠ "authorization")
    (Hheader : req_headers req !! PROJECT_HEADER env = Some header)
    (Hresolved : resolveProjectFilter env req' false = inr resolution) :
  ∃ forwarded payload,
    out_calls (app env st sessionId req)
    = [ToSession transport forwarded (JObj payload)]
    ∧ out_state (app env st sessionId req) = st
    ∧ payload
      = attachRequestMetadata (spread (req_body req))
          (req_headers req' !! "authorization") (projectId resolution)
    ∧ forwarded = with_body req' (body_after_attach (req_body req) payload)
    ∧ (attachable (spread (req_body req)) = true →
       ∃ meta,
         meta_of payload = Some (JObj meta)
         ∧ obj_get "token" meta
           = Some (token_value (req_headers req' !! "authorization"))
         ∧ obj_get "projectId" meta = Some (nullable (projectId resolution)))
    ∧ (∀ fields params,
          req_body req = JObj fields →
          obj_get "params" fields = Some (JObj params) →
          req_body forwarded = JObj payload).
Proof.
  assert (provided resolution = true) as Hprovided.
  { destruct (authenticated_same _ _ _ Hauth)
      as (_ & _ & _ & _ & _ & Hheaders).
    revert Hresolved. unfold resolveProjectFilter.
    rewrite (Hheaders _ Hname), Hheader.
    destruct (negb _); [intros [= <-]; reflexivity |].
    destruct (String.eqb _ _); [intros [= <-]; reflexivity |].
    destruct (findByName env _); [intros [= <-]; reflexivity | discriminate]. }
  eexists _, _.
  rewrite (message_forwarded env st sessionId req req' k transport resolution
             _ _ Hroute Hauth Hkey Hsession Hresolved eq_refl eq_refl).
  rewrite Hprovided. cbn [out_calls out_state].
  split; [reflexivity |]. split; [reflexivity |].
  split; [reflexivity |]. split; [reflexivity |].
  destruct (forwarded_facts req' (req_body req)
              (req_headers req' !! "authorization") (projectId resolution)
              _ _ eq_refl eq_refl) as (Hmeta & Hshared & _ & _).
  split; [exact Hmeta | exact Hshared].
Qed.

Lemma message_header_takes_precedence_witness :
  ∃ forwarded payload,
    out_calls (app local_env scoped_session "zzz"
                 (unassigned_message "Bearer secret"))
    = [ToSession (new_transport "abc") forwarded (JObj payload)]
    ∧ out_state (app local_env scoped_session "zzz"
                   (unassigned_message "Bearer secret"))
      = scoped_session
    ∧ payload
      = attachRequestMetadata
          (spread (req_body (unassigned_message "Bearer secret")))
          (req_headers (unassigned_message "secret") !! "authorization")
          (projectId {| projectId := None; provided := true |})
    ∧ forwarded
      = with_body (unassigned_message "secret")
          (body_after_attach (req_body (unassigned_message "Bearer secret"))
                             payload)
    ∧ (attachable (spread (req_body (unassigned_message "Bearer secret")))
       = true →
       ∃ meta,
         meta_of payload = Some (JObj meta)
         ∧ obj_get "token" meta
           = Some (token_value
                     (req_headers (unassigned_message "secret")
                      !! "authorization"))
         ∧ obj_get "projectId" meta
           = Some (nullable
                     (projectId {| projectId := None; provided := true |})))
    ∧ (∀ fields params,
          req_body (unassigned_message "Bearer secret") = JObj fields →
          obj_get "params" fields = Some (JObj params) →
          req_body forwarded = JObj payload).
Proof.
  apply (message_header_takes_precedence local_env scoped_session "zzz"
           (unassigned_message "Bearer secret")
           (unassigned_message "secret") "abc" (new_transport "abc")
           (HStr "__unassigned__")
           {| projectId := None; provided := true |}).
  - split; reflexivity.
  - vm_compute. reflexivity.
  - reflexivity.
  - reflexivity.
  - discriminate.
  - reflexivity.
  - reflexivity.
Defined.

(** X22.  A message past the authentication gate that names no session,
    neither in the query string nor in the session header, is answered 400,
    "Session ID is required", with nothing handed on and the table as it
    was.  A message that names a session in the query string is handled
    under that identifier whatever the session header says: when the table
    does not hold it the answer is 404, session not found, with nothing
    handed on, even if the header names a live session; when the table holds
    it and the partition resolves, the message is handed to that session's
    transport, once. *)
Theorem message_session_identifier
    (env : Env) (st : ServerState) (sessionId : string) (req req' : Request)
    (Hroute : on_route StreamMessage req)
    (Hauth : authenticated env req req') :
  (session_key req = NoKey →
   app env st sessionId req
   = {| out_state := st;
        out_res :=
          respond 400 (jsonrpc_error (-32000) "Session ID is required" JNull)
                  fresh_response;
        out_calls := [] |})
  ∧ (∀ c k, req_query req !! "sessionId" = Some (String c k) →
            session_key req = Key (String c k))
  ∧ (req_query req !! "sessionId" = None →
     req_headers req !! "mcp-session-id" = None →
     session_key req = NoKey)
  ∧ ((req_query req !! "sessionId" = None
      ∨ req_query req !! "sessionId" = Some EmptyString) →
     (req_headers req !! "mcp-session-id" = None
      ∨ req_headers req !! "mcp-session-id" = Some (HStr EmptyString)) →
     statusCode (out_res (app env st sessionId req)) = 400
     ∧ out_calls (app env st sessionId req) = []
     ∧ out_state (app env st sessionId req) = st)
  ∧ (∀ c k, req_query req !! "sessionId" = Some (String c k) →
            (sseSessions st !! String c k = None →
             app env st sessionId req = not_found st
             ∧ statusCode (out_res (app env st sessionId req)) = 404
             ∧ out_calls (app env st sessionId req) = [])
            ∧ (∀ transport resolution,
                  sseSessions st !! String c k = Some transport →
                  resolveProjectFilter env req' false = inr resolution →
                  ∃ forwarded payload,
                    out_calls (app env st sessionId req)
                    = [ToSession transport forwarded payload])).
Proof.
  pose proof (authenticated_same _ _ _ Hauth) as Hsame.
  pose proof (session_key_same _ _ Hsame) as Hkey'.
  destruct Hsame as (Hm & Hp & _).
  assert (session_key req = NoKey →
          app env st sessionId req
          = {| out_state := st;
               out_res :=
                 respond 400
                   (jsonrpc_error (-32000) "Session ID is required" JNull)
                   fresh_response;
               out_calls := [] |}) as Hnokey.
  { intros Hkey. destruct Hroute as [Hmethod Hpath].
    rewrite (app_authenticated _ _ _ _ _ Hauth). unfold routes.
    rewrite Hm, Hp, Hmethod, Hpath. cbn [route_method route_path].
    cbn [String.eqb Ascii.eqb Bool.eqb]. unfold post_mcp_messages.
    rewrite Hkey', Hkey. reflexivity. }
  split; [exact Hnokey |]. split; [| split; [| split]].
  - intros c k Hquery. unfold session_key. rewrite Hquery. reflexivity.
  - intros Hquery Hheader. unfold session_key. rewrite Hquery, Hheader.
    reflexivity.
  - intros Hquery Hheader. rewrite Hnokey; [repeat split |].
    unfold session_key.
    destruct Hquery as [-> | ->]; destruct Hheader as [-> | ->]; reflexivity.
  - intros c k Hquery.
    assert (session_key req = Key (String c k)) as Hkey.
    { unfold session_key. rewrite Hquery. reflexivity. }
    split.
    + intros Habsent. destruct Hroute as [Hmethod Hpath].
      rewrite (app_authenticated _ _ _ _ _ Hauth). unfold routes.
      rewrite Hm, Hp, Hmethod, Hpath. cbn [route_method route_path].
      cbn [String.eqb Ascii.eqb Bool.eqb]. unfold post_mcp_messages.
      rewrite Hkey', Hkey, Habsent. repeat split.
    + intros transport resolution Hsession Hresolved. eexists _, _.
      rewrite (message_forwarded env st sessionId req req' (String c k)
                 transport resolution _ _ Hroute Hauth Hkey Hsession
                 Hresolved eq_refl eq_refl).
      reflexivity.
Qed.

Lemma message_session_identifier_witness :
  sseSessions one_session !! "abc" = Some (new_transport "abc")
  ∧ req_headers (two_keyed_message "Bearer secret") !! "mcp-session-id"
    = Some (HStr "abc")
  ∧ app local_env one_session "zzz" (two_keyed_message "Bearer secret")
    = not_found one_session.
Proof.
  split; [reflexivity |]. split; [reflexivity |].
  refine (proj1 (proj1 (proj2 (proj2 (proj2 (proj2
            (message_session_identifier local_env one_session "zzz"
               (two_keyed_message "Bearer secret")
               (two_keyed_message "secret") _ _))))
            "g"%char "one" _) _)).
  - split; reflexivity.
  - vm_compute. reflexivity.
  - reflexivity.
  - reflexivity.
Defined.

(** *** The Session Table as a whole *)

Lemma table_ok_step (st : ServerState) (i : Input) :
  table_ok st → table_ok (step st i).
Proof.
  intros [Hdom Hown]. destruct i as [env sessionId req | sessionId]; cbn.
  - destruct (app_state env st sessionId req)
      as [-> | (_ & req' & resolution & _ & _ & ->)]; [split; assumption |].
    split; cbn.
    + rewrite !dom_insert_L, Hdom. reflexivity.
    + intros k transport.
      destruct (decide (sessionId = k)) as [-> | Hne].
      * rewrite lookup_insert_eq. intros [= <-]. reflexivity.
      * rewrite lookup_insert_ne by exact Hne. apply Hown.
  - split; cbn.
    + rewrite !dom_delete_L, Hdom. reflexivity.
    + intros k transport Hk. apply lookup_delete_Some in Hk as [_ Hk].
      apply Hown, Hk.
Qed.

(** X23.  Whatever requests arrive and whatever channels close, in any
    order, from the empty table on: the two maps of the Session Table hold
    the same session identifiers, and each session's transport is the one
    created under that identifier. *)
Theorem session_table_consistent (inputs : list Input) :
  table_ok (run initial_state inputs).
Proof.
  assert (table_ok initial_state) as Hinit.
  { split; cbn; [rewrite !dom_empty_L; reflexivity |].
    intros k transport Hk. rewrite lookup_empty in Hk. discriminate. }
  unfold run. revert Hinit. generalize initial_state.
  induction inputs as [|i inputs IH]; intros st Hst; [exact Hst |].
  cbn. apply IH, table_ok_step, Hst.
Qed.

(** X24.  Open, then close: when a stream-open passes both gates under an
    identifier the table does not hold, the close of its channel brings the
    table back to what it was before the open. *)
Theorem open_then_close
    (env : Env) (st : ServerState) (sessionId : string)
    (req req' : Request) (resolution : Resolution)
    (Hroute : on_route StreamOpen req)
    (Hauth : authenticated env req req')
    (Hresolved :
       resolveProjectFilter env req' (isRemoteWorkspace env) = inr resolution)
    (Hfresh : sseSessions st !! sessionId = None)
    (Hfresh' : sseSessionProjects st !! sessionId = None) :
  sseSessions (step st (Incoming env sessionId req)) !! sessionId
  = Some (new_transport sessionId)
  ∧ step (step st (Incoming env sessionId req)) (ChannelClosed sessionId)
    = st.
Proof.
  assert (step st (Incoming env sessionId req)
          = registered st sessionId (projectId resolution)) as ->.
  { cbn. rewrite (app_authenticated _ _ _ _ _ Hauth).
    destruct Hroute as [Hmethod Hpath].
    destruct (authenticated_same _ _ _ Hauth) as (Hm & Hp & _).
    unfold routes. rewrite Hm, Hp, Hmethod, Hpath. cbn.
    unfold get_mcp_sse. rewrite Hresolved.
    destruct (aggregator_connect env _ _) as [[e|] res']; reflexivity. }
  split; [apply lookup_insert_eq |].
  destruct st as [sessions projects]. cbn in *. unfold on_close. cbn.
  rewrite !delete_insert_id by assumption. reflexivity.
Qed.

Lemma open_then_close_witness :
  sseSessions (step initial_state (Incoming local_env "abc" open_request))
  !! "abc" = Some (new_transport "abc")
  ∧ step (step initial_state (Incoming local_env "abc" open_request))
         (ChannelClosed "abc")
    = initial_state.
Proof.
  apply (open_then_close local_env initial_state "abc" open_request
           open_request' {| projectId := Some "p-alpha"; provided := true |}).
  - split; reflexivity.
  - vm_compute. reflexivity.
  - vm_compute. reflexivity.
  - reflexivity.
  - reflexivity.
Defined.

(** *** Failures behind the facade route *)

(** X25.  On the facade route, past the authentication gate: when the
    Entry Facade Server did not initialise, the answer is the internal-error
    envelope with status 500 and its transport is not called; when the
    transport throws, that envelope is written only if the transport had
    sent nothing, and a response the transport had begun is left as it
    is. *)
Theorem facade_failures
    (env : Env) (st : ServerState) (sessionId : string) (req req' : Request)
    (Hroute : on_route Facade req)
    (Hauth : authenticated env req req') :
  (∀ e, waitForInit env = Some e →
        app env st sessionId req
        = {| out_state := st;
             out_res := respond 500 internal_error fresh_response;
             out_calls := [] |})
  ∧ (∀ e res',
        waitForInit env = None →
        entry_handleRequest env req' (JObj (spread (req_body req)))
                            fresh_response = (Some e, res') →
        out_res (app env st sessionId req)
        = if headersSent res' then res' else respond 500 internal_error res').
Proof.
  destruct Hroute as [Hmethod Hpath].
  destruct (authenticated_same _ _ _ Hauth) as (Hm & Hp & _ & Hb & _).
  rewrite (app_authenticated _ _ _ _ _ Hauth). unfold routes.
  rewrite Hm, Hp, Hmethod, Hpath. cbn [route_method route_path].
  cbn [String.eqb Ascii.eqb Bool.eqb]. unfold post_mcp. split.
  - intros e ->. reflexivity.
  - intros e res' -> Hthrows. rewrite Hb, Hthrows. reflexivity.
Qed.

Lemma facade_failures_witness :
  app uninitialised_env initial_state "abc" facade_request
  = {| out_state := initial_state;
       out_res := respond 500 internal_error fresh_response;
       out_calls := [] |}.
Proof.
  apply (proj1 (facade_failures uninitialised_env initial_state "abc"
                  facade_request facade_request'
                  (conj eq_refl eq_refl) eq_refl)
           {| message := "init failed"; status := None |}).
  reflexivity.
Defined.

End HttpServerMore.
